(** * SharePoint Framework project upgrade command

    A shallow embedding of [src/o365/spfx/commands/project/project-upgrade.ts]
    (class [SpfxProjectUpgradeCommand]) and the properties of its planner,
    its project reader, its deduplication step and its report renderers. *)

From Stdlib Require Import List String Ascii ZArith Lia Bool Arith Sorted Permutation.
From Equations Require Import Equations.
Import ListNotations.
Local Open Scope string_scope.
Local Open Scope Z_scope.

Set Implicit Arguments.

(** ** JavaScript array primitives used by the command

    Positions are [number]s in the source; [-1] is the "not found" answer of
    [indexOf] and [findIndex], so positions are kept in [Z]. *)

Section JsArray.
Context {A : Type}.

Fixpoint findIndexFrom (p : A -> bool) (i : Z) (l : list A) : Z :=
  match l with
  | [] => -1
  | x :: rest => if p x then i else findIndexFrom p (i + 1) rest
  end.

(** [Array.prototype.findIndex] *)
Definition findIndex (p : A -> bool) (l : list A) : Z := findIndexFrom p 0 l.

Fixpoint filterFrom (p : A -> Z -> bool) (i : Z) (l : list A) : list A :=
  match l with
  | [] => []
  | x :: rest =>
      if p x i then x :: filterFrom p (i + 1) rest else filterFrom p (i + 1) rest
  end.

(** [Array.prototype.filter] with the [(element, index)] callback *)
Definition filteri (p : A -> Z -> bool) (l : list A) : list A := filterFrom p 0 l.

(** [Array.prototype.slice(start)]: a negative [start] counts from the end. *)
Definition slice (start : Z) (l : list A) : list A :=
  if start <? 0
  then skipn (Z.to_nat (Z.max (Z.of_nat (List.length l) + start) 0)) l
  else skipn (Z.to_nat start) l.

End JsArray.

(** The positions [filter] keeps, and what it returns in terms of them. *)
Definition keptPositions (A : Type) (p : A -> Z -> bool) (l : list A) : list nat :=
  filter (fun i => match nth_error l i with
                   | Some x => p x (Z.of_nat i)
                   | None => false
                   end)
         (seq 0 (List.length l)).

(** [Array.prototype.indexOf] on strings (strict equality). *)
Definition indexOf (l : list string) (x : string) : Z := findIndex (String.eqb x) l.

(** [Array.prototype.join] *)
Fixpoint join (sep : string) (l : list string) : string :=
  match l with
  | [] => ""
  | [x] => x
  | x :: rest => x ++ sep ++ join sep rest
  end.

(** ** Data model *)

(** [Finding] is declared in [./project-upgrade/]; these are the fields the
    command reads. *)
Record Finding := mkFinding {
  description : string;
  id : string;
  file : string;
  resolution : string;
  resolutionType : string;
  severity : string;
  title : string
}.

(** ** Deduplication (commandAction, lines 110-114) *)

Definition dedupe (allFindings : list Finding) : list Finding :=
  filteri (fun f i =>
             let firstFindingPos :=
               findIndex (fun f1 => String.eqb (id f1) (id f)) allFindings in
             i =? firstFindingPos)
          allFindings.

(** ** Strings *)

Definition nl : string := String (ascii_of_nat 10) "".

(** [String.prototype.endsWith] *)
Definition endsWith (s suffix : string) : bool :=
  let n := String.length s in
  let m := String.length suffix in
  if (m <=? n)%nat then String.eqb (substring (n - m) m s) suffix else false.

Fixpoint keepChars (p : ascii -> bool) (s : string) : string :=
  match s with
  | EmptyString => EmptyString
  | String a rest => if p a then String a (keepChars p rest) else keepChars p rest
  end.

Definition isDigit (a : ascii) : bool :=
  let n := nat_of_ascii a in ((48 <=? n) && (n <=? 57))%nat.

(** [s.replace(/[^0-9\.]/g, '')] *)
Definition stripNonVersionChars (s : string) : string :=
  keepChars (fun a => isDigit a || Ascii.eqb a ".") s.

(** White space removed by [String.prototype.trim], for the characters of
    one byte: tab, line feed, vertical tab, form feed, carriage return and
    space. *)
Definition isSpace (a : ascii) : bool :=
  let n := nat_of_ascii a in (((9 <=? n) && (n <=? 13)) || (n =? 32))%nat.

Fixpoint trimStart (s : string) : string :=
  match s with
  | EmptyString => EmptyString
  | String a rest => if isSpace a then trimStart rest else s
  end.

Fixpoint trimEnd (s : string) : string :=
  match s with
  | EmptyString => EmptyString
  | String a rest =>
      match trimEnd rest with
      | EmptyString => if isSpace a then EmptyString else String a EmptyString
      | kept => String a kept
      end
  end.

Definition trim (s : string) : string := trimEnd (trimStart s).

(** ** JSON values, as [JSON.parse] hands them back *)

#[warnings="-register-all"]
Inductive Json :=
| JNull
| JBool (b : bool)
| JNum (text : string)      (* the number, written as [String(n)] prints it *)
| JStr (s : string)
| JArr (items : list Json)
| JObj (members : list (string * Json)).

(** The test [if (v)] *)
Definition truthy (v : Json) : bool :=
  match v with
  | JNull => false
  | JBool b => b
  | JNum text => negb (String.eqb text "0")
  | JStr s => negb (String.eqb s "")
  | JArr _ | JObj _ => true
  end.

Fixpoint assoc {V : Type} (k : string) (l : list (string * V)) : option V :=
  match l with
  | [] => None
  | (k', v) :: rest => if String.eqb k' k then Some v else assoc k rest
  end.

(** [v[k]] for the keys the command looks up (package names, [version],
    [dependencies]); [None] is [undefined]. Only an object answers them. *)
Definition getMember (v : Json) (k : string) : option Json :=
  match v with
  | JObj members => assoc k members
  | _ => None
  end.

(** The text a value contributes to a template literal. *)
Fixpoint templateText (v : Json) : string :=
  match v with
  | JNull => "null"
  | JBool true => "true"
  | JBool false => "false"
  | JNum text => text
  | JStr s => s
  | JArr items =>
      join "," (map (fun x => match x with JNull => "" | _ => templateText x end) items)
  | JObj _ => "[object Object]"
  end.

(** ** Paths

    [process.cwd()] is an absolute, normalised path: it is kept as the list
    of its segments below the root, the root being the empty list. *)

Definition Path := list string.

Definition path_eq_dec : forall p q : Path, {p = q} + {p <> q} :=
  list_eq_dec string_dec.

(** [path.resolve(p, rel)] and [path.join(p, rel)] for a relative path given
    by its segments. The parent of the root is the root. *)
Fixpoint resolve (p : Path) (rel : list string) : Path :=
  match rel with
  | [] => p
  | seg :: rest =>
      if String.eqb seg ".." then resolve (removelast p) rest
      else if String.eqb seg "." then resolve p rest
      else resolve (p ++ [seg])%list rest
  end.

(** The path as a POSIX string. *)
Definition pathText (p : Path) : string :=
  match p with
  | [] => "/"
  | _ => String.concat "" (map (fun seg => "/" ++ seg) p)
  end.

(** [path.posix.basename] *)
Definition basename (p : Path) : string := last p "".

(** ** The project model ([./project-upgrade/model]) *)

Record Manifest := mkManifest {
  manifestJson : Json;     (* the parsed document *)
  manifestPath : Path      (* its [path] property *)
}.

Record Project := mkProject {
  path : Path;
  configJson : option Json;
  copyAssetsJson : option Json;
  deployAzureStorageJson : option Json;
  packageJson : option Json;
  packageSolutionJson : option Json;
  serveJson : option Json;
  tsConfigJson : option Json;
  tsLintJson : option Json;
  writeManifestsJson : option Json;
  yoRcJson : option Json;
  manifests : list Manifest
}.

(** ** Rules ([./project-upgrade/rules/Rule])

    [visit(project, findings)] works on the shared findings array and may
    throw after having changed it. *)

Record Visit := mkVisit {
  accumulated : list Finding;
  thrown : option string
}.

Definition Rule := Project -> list Finding -> Visit.

(** ** Effects

    A run of the command is observed through the calls it makes: on the file
    system, on the module loader, on the output log and on its callback. *)

(** The part of Node's [fs] interface the properties speak about. *)
Inductive FsCall :=
| ExistsSync (p : Path)
| ReadFileSync (p : Path)
| WriteFileSync (p : Path) (data : string)
| AppendFileSync (p : Path) (data : string)
| MkdirSync (p : Path)
| RenameSync (p q : Path)
| UnlinkSync (p : Path).

Inductive CommandError := mkCommandError (message : string).

(** What [cmd.log] is given. *)
Inductive Output :=
| Text (s : string)
| ProjectDump (project : Project)
| Findings (findings : list Finding)               (* output json *)
| Summary (records : list (string * string))       (* { id, resolution } *)
| Markdown (report : string).                      (* output md *)

Inductive Effect :=
| Fs (call : FsCall)
| GetAllFiles (dir : Path)          (* Utils.getAllFiles: lists the files below [dir] *)
| Require (module : string)         (* require(module) *)
| Log (o : Output)                  (* cmd.log(o) *)
| Cb (err : option CommandError).   (* cb(err) *)

Inductive Exc (A : Type) :=
| Returned (a : A)
| Thrown (e : string).
Arguments Returned {A} a.
Arguments Thrown {A} e.

(** A computation yields the effects it performed, in order, and its
    result; the result is [None] when an exception leaves the computation
    uncaught (or the run leaves the fragment of JavaScript modelled here, see
    [arrayMember]). *)
Definition M (A : Type) : Type := (list Effect * option A)%type.

Definition ret {A} (a : A) : M A := ([], Some a).

Definition bind {A B} (m : M A) (k : A -> M B) : M B :=
  match m with
  | (t, None) => (t, None)
  | (t, Some a) => let (t', r) := k a in ((t ++ t')%list, r)
  end.

Definition emit (e : Effect) : M unit := ([e], Some tt).

Definition escape {A} : M A := ([], None).

Declare Scope run_scope.
Delimit Scope run_scope with run.
Notation "x <- m ;; k" := (bind m (fun x => k))
  (at level 100, m at next level, right associativity) : run_scope.
Notation "m ;;; k" := (bind m (fun _ => k))
  (at level 100, right associativity) : run_scope.
Local Open Scope run_scope.

Definition effects {A} (m : M A) : list Effect := fst m.
Definition result {A} (m : M A) : option A := snd m.

(** [Array.prototype.forEach] with an effectful callback threading a state. *)
Fixpoint forEach {A S} (body : S -> A -> M S) (l : list A) (s : S) : M S :=
  match l with
  | [] => ret s
  | x :: rest => s' <- body s x ;; forEach body rest s'
  end.

(** ** The host: what the command finds around itself *)

Record Host := mkHost {
  cwd : Path;                                    (* process.cwd() *)
  present : Path -> bool;                        (* answer of fs.existsSync *)
  content : Path -> option string;               (* fs.readFileSync(p, 'utf-8'); None: it throws *)
  parse : string -> option Json;                 (* JSON.parse; None: it throws *)
  removeSingleLineComments : string -> string;   (* Utils, declared in ./project-upgrade/ *)
  filesBelow : Path -> Exc (list Path);          (* answer of Utils.getAllFiles *)
  load : string -> Exc (list Rule);              (* answer of require *)
  EOL : string;                                  (* os.EOL *)
  toLocaleDateString : string;                   (* new Date().toLocaleDateString() *)
  arrayMember : string -> bool
    (* names a fresh array answers already: [length] and what it inherits
       from Array.prototype and Object.prototype ([constructor], [push],
       ...). Used as a key of an array they reach that member instead of a
       property of their own, with results that depend on the member. *)
}.

Definition existsSync (h : Host) (p : Path) : M bool :=
  emit (Fs (ExistsSync p)) ;;; ret (present h p).

(** Every [readFileSync] of the command sits in a [try] with an empty
    [catch]: [None] stands for the throw, which skips the rest of the
    block. *)
Definition readFileSync (h : Host) (p : Path) : M (option string) :=
  emit (Fs (ReadFileSync p)) ;;; ret (content h p).

Definition getAllFiles (h : Host) (dir : Path) : M (list Path) :=
  emit (GetAllFiles dir) ;;;
  match filesBelow h dir with
  | Returned files => ret files
  | Thrown _ => escape
  end.

Definition cb (err : option CommandError) : M unit := emit (Cb err).
Definition log (o : Output) : M unit := emit (Log o).

(** ** getProjectRoot (lines 324-338) *)

Equations? getProjectRoot (h : Host) (folderPath : Path) : M (option Path)
  by wf (List.length folderPath) lt :=
  getProjectRoot h folderPath :=
    let packageJsonPath := resolve folderPath ["package.json"] in
    bind (existsSync h packageJsonPath) (fun found =>
      if found then ret (Some folderPath)
      else
        match path_eq_dec (resolve folderPath [".."]) folderPath with
        | right differs => getProjectRoot h (resolve folderPath [".."])
        | left _ => ret None
        end).
Proof.
  simpl in *. destruct folderPath as [|seg rest] using rev_ind.
  - contradiction differs. reflexivity.
  - rewrite removelast_last, length_app. simpl. lia.
Qed.

(** ** getProjectVersion (lines 340-366) *)

(** [yoRc && yoRc[g] && yoRc[g].version], when it holds *)
Definition generatorVersion (yoRc : Json) : option Json :=
  if truthy yoRc then
    match getMember yoRc "@microsoft/generator-sharepoint" with
    | Some generator =>
        if truthy generator then
          match getMember generator "version" with
          | Some version => if truthy version then Some version else None
          | None => None
          end
        else None
    | None => None
    end
  else None.

(** The second [try] block: [None] when the condition fails or when
    [replace] is not there to be called (the value is not a string). *)
Definition coreLibraryVersion (packageJson : Json) : option Json :=
  if truthy packageJson then
    match getMember packageJson "dependencies" with
    | Some dependencies =>
        if truthy dependencies then
          match getMember dependencies "@microsoft/sp-core-library" with
          | Some (JStr coreLibVersion) =>
              if truthy (JStr coreLibVersion)
              then Some (JStr (stripNonVersionChars coreLibVersion))
              else None
          | _ => None
          end
        else None
    | None => None
    end
  else None.

Definition parsed (h : Host) (source : option string) : option Json :=
  match source with
  | Some text => parse h text
  | None => None
  end.

Definition getProjectVersion (h : Host) (projectRootPath : Path) : M (option Json) :=
  let yoRcPath := resolve projectRootPath [".yo-rc.json"] in
  found <- existsSync h yoRcPath ;;
  fromYoRc <- (if found
               then (source <- readFileSync h yoRcPath ;;
                     ret (match parsed h source with
                          | Some yoRc => generatorVersion yoRc
                          | None => None
                          end))
               else ret None) ;;
  match fromYoRc with
  | Some version => ret (Some version)
  | None =>
      let packageJsonPath := resolve projectRootPath ["package.json"] in
      source <- readFileSync h packageJsonPath ;;
      ret (match parsed h source with
           | Some packageJson => coreLibraryVersion packageJson
           | None => None
           end)
  end.

(** ** getProject (lines 135-236) *)

(** One of the ten blocks [if (fs.existsSync(p)) { try { slot =
    JSON.parse(Utils.removeSingleLineComments(fs.readFileSync(p, 'utf-8'))) }
    catch { } }]; [None] leaves the slot unset. *)
Definition readDocument (h : Host) (p : Path) : M (option Json) :=
  found <- existsSync h p ;;
  if found
  then (source <- readFileSync h p ;;
        ret (parsed h (option_map (removeSingleLineComments h) source)))
  else ret None.

(** [manifest.path = f]: the module is strict code, so the assignment throws
    on [null] and on a primitive value. *)
Definition withPath (manifest : Json) (f : Path) : option Manifest :=
  match manifest with
  | JObj _ | JArr _ => Some (mkManifest manifest f)
  | _ => None
  end.

Definition readManifest (h : Host) (manifests : list Manifest) (f : Path)
  : M (list Manifest) :=
  if endsWith (pathText f) ".manifest.json"
  then (source <- readFileSync h f ;;
        ret (match parsed h (option_map (removeSingleLineComments h) source) with
             | Some manifest =>
                 match withPath manifest f with
                 | Some m => (manifests ++ [m])%list
                 | None => manifests
                 end
             | None => manifests
             end))
  else ret manifests.

Definition getProject (h : Host) (projectRootPath : Path) : M Project :=
  configJson <- readDocument h (resolve projectRootPath ["config"; "config.json"]) ;;
  copyAssetsJson <- readDocument h (resolve projectRootPath ["config"; "copy-assets.json"]) ;;
  deployAzureStorageJson <-
    readDocument h (resolve projectRootPath ["config"; "deploy-azure-storage.json"]) ;;
  packageJson <- readDocument h (resolve projectRootPath ["package.json"]) ;;
  packageSolutionJson <-
    readDocument h (resolve projectRootPath ["config"; "package-solution.json"]) ;;
  serveJson <- readDocument h (resolve projectRootPath ["config"; "serve.json"]) ;;
  tsConfigJson <- readDocument h (resolve projectRootPath ["tsconfig.json"]) ;;
  tsLintJson <- readDocument h (resolve projectRootPath ["config"; "tslint.json"]) ;;
  writeManifestsJson <-
    readDocument h (resolve projectRootPath ["config"; "write-manifests.json"]) ;;
  yoRcJson <- readDocument h (resolve projectRootPath [".yo-rc.json"]) ;;
  files <- getAllFiles h (resolve projectRootPath ["src"]) ;;
  manifests <- forEach (readManifest h) files [] ;;
  ret (mkProject projectRootPath configJson copyAssetsJson deployAzureStorageJson
         packageJson packageSolutionJson serveJson tsConfigJson tsLintJson
         writeManifestsJson yoRcJson manifests).

(** ** Arrays used as dictionaries (getMdReport, lines 241-242)

    [modificationPerFile] and [modificationTypePerFile] are arrays whose
    properties are named by file. Their own properties are kept in creation
    order; [Object.keys] lists the array indices first, in ascending order,
    and then the other names in creation order. *)

Definition JsObject (V : Type) : Type := list (string * V).

Fixpoint setOwn {V : Type} (k : string) (v : V) (o : JsObject V) : JsObject V :=
  match o with
  | [] => [(k, v)]
  | (k', v') :: rest =>
      if String.eqb k' k then (k', v) :: rest else (k', v') :: setOwn k v rest
  end.

Fixpoint digitsValue (acc : N) (s : string) : N :=
  match s with
  | EmptyString => acc
  | String a rest => digitsValue (10 * acc + (N_of_ascii a - 48))%N rest
  end.

Definition allDigits (s : string) : bool :=
  String.eqb (keepChars isDigit s) s.

(** An array index: the canonical decimal text of an integer below
    [2^32 - 1]. *)
Definition isArrayIndex (k : string) : bool :=
  match k with
  | EmptyString => false
  | String a rest =>
      allDigits k
      && (negb (Ascii.eqb a "0") || String.eqb rest "")
      && (digitsValue 0 k <? 4294967295)%N
  end.

Fixpoint insertIndex (k : string) (sorted : list string) : list string :=
  match sorted with
  | [] => [k]
  | k' :: rest =>
      if (digitsValue 0 k <=? digitsValue 0 k')%N
      then k :: sorted
      else k' :: insertIndex k rest
  end.

Definition sortIndices (l : list string) : list string :=
  fold_right insertIndex [] l.

(** [Object.keys] *)
Definition keys {V : Type} (o : JsObject V) : list string :=
  let names := map fst o in
  (sortIndices (filter isArrayIndex names)
   ++ filter (fun k => negb (isArrayIndex k)) names)%list.

(** ** getMdReport (lines 238-322) *)

Record MdState := mkMdState {
  commandsToExecute : list string;
  findingsToReport : list string;
  modificationPerFile : JsObject (list string);
  modificationTypePerFile : JsObject string
}.

(** The [switch] of lines 246-263 *)
Definition resolutionText (f : Finding) : string :=
  if String.eqb (resolutionType f) "cmd" then
    "Execute the following command:" ++ nl ++ nl ++ "```sh" ++ nl
    ++ resolution f ++ nl ++ "```" ++ nl
  else if String.eqb (resolutionType f) "json" then
    "In file [" ++ file f ++ "](" ++ file f ++ ") update the code as follows:"
    ++ nl ++ nl ++ "```json" ++ nl ++ resolution f ++ nl ++ "```" ++ nl
  else "".

Definition findingText (eol : string) (f : Finding) : list string :=
  [ "### " ++ id f ++ " " ++ title f ++ " | " ++ severity f; eol;
    eol;
    description f; eol;
    eol;
    resolutionText f;
    eol;
    "File: [" ++ file f ++ "](" ++ file f ++ ")"; eol;
    eol ].

(** The body of [findings.forEach] (lines 244-289). [None]: the file of an
    edit names a member of arrays, which is outside this model. *)
Definition reportFinding (h : Host) (st : MdState) (f : Finding) : option MdState :=
  let reported := (findingsToReport st ++ findingText (EOL h) f)%list in
  if String.eqb (resolutionType f) "cmd" then
    Some (mkMdState (commandsToExecute st ++ [resolution f])%list reported
            (modificationPerFile st) (modificationTypePerFile st))
  else if arrayMember h (file f) then None
  else
    let perFile :=
      match assoc (file f) (modificationPerFile st) with
      | Some _ => modificationPerFile st            (* an array is never falsy *)
      | None => setOwn (file f) [] (modificationPerFile st)
      end in
    let typePerFile :=
      match assoc (file f) (modificationTypePerFile st) with
      | Some t =>
          if String.eqb t "" (* the empty string is falsy *)
          then setOwn (file f) (resolutionType f) (modificationTypePerFile st)
          else modificationTypePerFile st
      | None => setOwn (file f) (resolutionType f) (modificationTypePerFile st)
      end in
    let modifications :=
      match assoc (file f) perFile with
      | Some ms => (ms ++ [resolution f])%list
      | None => [resolution f]
      end in
    Some (mkMdState (commandsToExecute st) reported
            (setOwn (file f) modifications perFile) typePerFile).

Fixpoint reportFindings (h : Host) (st : MdState) (findings : list Finding)
  : option MdState :=
  match findings with
  | [] => Some st
  | f :: rest =>
      match reportFinding h st f with
      | Some st' => reportFindings h st' rest
      | None => None
      end
  end.

(** What the "Modify files" section shows for one name of [Object.keys]:
    the file, the tag of its fences and its blocks. An unset tag would print
    as [undefined]. *)
Definition modifiedFile (st : MdState) (file : string)
  : string * (string * list string) :=
  (file,
   (match assoc file (modificationTypePerFile st) with
    | Some t => t
    | None => "undefined"
    end,
    match assoc file (modificationPerFile st) with
    | Some ms => ms
    | None => []
    end)).

Definition modifiedFiles (st : MdState) : list (string * (string * list string)) :=
  map (modifiedFile st) (keys (modificationPerFile st)).

Definition modifiedFileText (eol : string) (m : string * (string * list string))
  : string :=
  let '(file, (tag, blocks)) := m in
  join "" [ "#### [" ++ file ++ "](" ++ file ++ ")"; eol;
            eol;
            join (eol ++ eol)
                 (map (fun b => "```" ++ tag ++ eol ++ b ++ eol ++ "```") blocks); eol ].

(** Lines 291-321: the report for the collected state. *)
Definition mdText (h : Host) (projectRootPath : Path) (toVersion : string)
  (st : MdState) : string :=
  let eol := EOL h in
  let s :=
    [ "# Upgrade project " ++ basename projectRootPath ++ " to v" ++ toVersion; eol;
      eol;
      "Date: " ++ toLocaleDateString h; eol;
      eol;
      "## Findings"; eol;
      eol;
      "Following is the list of steps required to upgrade your project to SharePoint Framework version "
        ++ toVersion ++ "."; eol;
      eol;
      join "" (findingsToReport st);
      "## Summary"; eol;
      eol;
      "### Execute script"; eol;
      eol;
      "```sh"; eol;
      join eol (commandsToExecute st); eol;
      "```"; eol;
      eol;
      "### Modify files"; eol;
      eol;
      join eol (map (modifiedFileText eol) (modifiedFiles st));
      eol ] in
  trim (join "" s).

(** The four arrays of lines 239-242, empty. *)
Definition nothingReported : MdState := mkMdState [] [] [] [].

Definition getMdReport (h : Host) (projectRootPath : Path) (toVersion : string)
  (findings : list Finding) : option string :=
  option_map (mdText h projectRootPath toVersion)
             (reportFindings h nothingReported findings).

(** ** The command (lines 24-133) *)

(** The fields of the command object that a run reads before it writes them:
    the list of supported versions, the array of findings, which is kept
    between runs, and the two flags of the parent class. The fields
    [projectRootPath], [toVersion] and [projectVersion] are no part of the
    record: every run assigns them (lines 49, 55 and 62) before it reads
    them, and [commandAction] below carries their values as
    [projectRootPath], [target] and [projectVersion]. Two values of this type
    that are equal are command objects that agree on the four fields of the
    record, whatever the other three hold. *)
Record Command := mkCommand {
  supportedVersions : list string;
  allFindings : list Finding;      (* kept by the command object between runs *)
  verbose : bool;
  debug : bool
}.

Record Options := mkOptions {
  toVersion : option string;
  output : option string
}.

(** The command as the module exports it. *)
Definition spfxProjectUpgradeCommand : Command :=
  mkCommand ["1.4.1"; "1.5.0"] [] false false.

(** [args.options.toVersion ? args.options.toVersion :
    this.supportedVersions[this.supportedVersions.length - 1]]. With an empty
    list the default is [undefined], which is in no list and prints as
    [undefined]. *)
Definition requestedVersion (c : Command) (args : Options) : string :=
  match toVersion args with
  | Some v => if String.eqb v "" then last (supportedVersions c) "undefined" else v
  | None => last (supportedVersions c) "undefined"
  end.

(** [this.supportedVersions.indexOf(this.projectVersion)]: only a string is
    strictly equal to an entry. *)
Definition indexOfValue (l : list string) (v : Json) : Z :=
  match v with
  | JStr s => indexOf l s
  | _ => -1
  end.

Definition rootNotFound : CommandError :=
  mkCommandError "Couldn't find project root folder".

Definition unsupportedTarget (c : Command) (target : string) : CommandError :=
  mkCommandError
    ("Office 365 CLI doesn't support upgrading SharePoint Framework projects to version "
     ++ target ++ ". Supported versions are " ++ join ", " (supportedVersions c)).

Definition versionUnknown : CommandError :=
  mkCommandError
    "Unable to determine the version of the current SharePoint Framework project".

Definition unsupportedCurrent (projectVersion : Json) : CommandError :=
  mkCommandError
    ("Office 365 CLI doesn't support upgrading projects build on SharePoint Framework v"
     ++ templateText projectVersion).

Definition downgradeRejected : CommandError :=
  mkCommandError "You cannot downgrade a project".

Definition alreadyUpToDate : CommandError :=
  mkCommandError "Project doesn't need to be upgraded".

(** Line 96 *)
Definition versionsToUpgradeTo (c : Command) (pos : Z) : list string :=
  rev (slice (pos + 1) (supportedVersions c)).

(** [rules.forEach(r => r.visit(project, this.allFindings))]: a throw ends
    the loop and keeps what the array holds by then. *)
Fixpoint visitAll (project : Project) (rules : list Rule) (findings : list Finding)
  : Visit :=
  match rules with
  | [] => mkVisit findings None
  | r :: rest =>
      let v := r project findings in
      match thrown v with
      | Some _ => v
      | None => visitAll project rest (accumulated v)
      end
  end.

Definition upgradeModule (v : string) : string := "./project-upgrade/upgrade-" ++ v.

(** The callback of [versionsToUpgradeTo.forEach] (lines 97-108). The
    [return] of the [catch] block ends this callback only. *)
Definition applyRules (h : Host) (project : Project) (findings : list Finding)
  (v : string) : M (list Finding) :=
  emit (Require (upgradeModule v)) ;;;
  match load h (upgradeModule v) with
  | Thrown e => cb (Some (mkCommandError e)) ;;; ret findings
  | Returned rules =>
      let visit := visitAll project rules findings in
      match thrown visit with
      | Some e => cb (Some (mkCommandError e)) ;;; ret (accumulated visit)
      | None => ret (accumulated visit)
      end
  end.

(** [args.options.output === format] *)
Definition outputIs (args : Options) (format : string) : bool :=
  match output args with
  | Some chosen => String.eqb chosen format
  | None => false
  end.

(** The [switch] of lines 116-130. *)
Definition report (h : Host) (projectRootPath : Path) (target : string)
  (args : Options) (findings : list Finding) : M unit :=
  if outputIs args "json" then log (Findings findings)
  else if outputIs args "md" then
    match getMdReport h projectRootPath target findings with
    | Some text => log (Markdown text)
    | None => escape
    end
  else log (Summary (map (fun f => (id f, resolution f)) findings)).

Definition withFindings (c : Command) (findings : list Finding) : Command :=
  mkCommand (supportedVersions c) findings (verbose c) (debug c).

Definition commandAction (h : Host) (c : Command) (args : Options) : M Command :=
  root <- getProjectRoot h (cwd h) ;;
  match root with
  | None => cb (Some rootNotFound) ;;; ret c
  | Some projectRootPath =>
      let target := requestedVersion c args in
      if indexOf (supportedVersions c) target <? 0
      then cb (Some (unsupportedTarget c target)) ;;; ret c
      else
        detected <- getProjectVersion h projectRootPath ;;
        match detected with
        | None => cb (Some versionUnknown) ;;; ret c
        | Some projectVersion =>
            if negb (truthy projectVersion)
            then cb (Some versionUnknown) ;;; ret c
            else
              let pos := indexOfValue (supportedVersions c) projectVersion in
              if pos <? 0
              then cb (Some (unsupportedCurrent projectVersion)) ;;; ret c
              else if pos >? indexOf (supportedVersions c) target
              then cb (Some downgradeRejected) ;;; ret c
              else if pos =? indexOf (supportedVersions c) target
              then cb (Some alreadyUpToDate) ;;; ret c
              else
                (if verbose c then log (Text "Collecting project...") else ret tt) ;;;
                project <- getProject h projectRootPath ;;
                (if debug c
                 then (log (Text "Collected project") ;;; log (ProjectDump project))
                 else ret tt) ;;;
                found <- forEach (applyRules h project) (versionsToUpgradeTo c pos)
                           (allFindings c) ;;
                let findings := dedupe found in
                report h projectRootPath target args findings ;;;
                cb None ;;;
                ret (withFindings c found)
        end
  end.

(** The calls of the callback and of the log in a run, in order. *)
Definition callbacks (t : list Effect) : list (option CommandError) :=
  flat_map (fun e => match e with Cb err => [err] | _ => [] end) t.

Definition logged (t : list Effect) : list Output :=
  flat_map (fun e => match e with Log o => [o] | _ => [] end) t.

Definition required (t : list Effect) : list string :=
  flat_map (fun e => match e with Require m => [m] | _ => [] end) t.

Definition fsCalls (t : list Effect) : list FsCall :=
  flat_map (fun e => match e with Fs call => [call] | _ => [] end) t.

(** A call that leaves every file as it is. *)
Definition readOnly (call : FsCall) : bool :=
  match call with
  | ExistsSync _ | ReadFileSync _ => true
  | _ => false
  end.

(** ** Vocabulary of the properties *)

(** [q] is [p] or a directory above it. *)
Definition ancestorOrSelf (q p : Path) : Prop := exists below, p = (q ++ below)%list.

Definition hasPackageJson (h : Host) (dir : Path) : bool :=
  present h (resolve dir ["package.json"]).

(** The recognised configuration documents and the slot each one fills. *)
Definition documents : list (list string * (Project -> option Json)) :=
  [ (["config"; "config.json"], configJson);
    (["config"; "copy-assets.json"], copyAssetsJson);
    (["config"; "deploy-azure-storage.json"], deployAzureStorageJson);
    (["package.json"], packageJson);
    (["config"; "package-solution.json"], packageSolutionJson);
    (["config"; "serve.json"], serveJson);
    (["tsconfig.json"], tsConfigJson);
    (["config"; "tslint.json"], tsLintJson);
    (["config"; "write-manifests.json"], writeManifestsJson);
    ([".yo-rc.json"], yoRcJson) ].

(** The file is missing, cannot be read, or its text (comments removed) does
    not parse. *)
Definition unusable (h : Host) (p : Path) : Prop :=
  present h p = false
  \/ content h p = None
  \/ exists text, content h p = Some text
                  /\ parse h (removeSingleLineComments h text) = None.

Definition unusableManifest (h : Host) (f : Path) : Prop :=
  content h f = None
  \/ exists text, content h f = Some text
                  /\ parse h (removeSingleLineComments h text) = None.

Definition isEdit (f : Finding) : bool := negb (String.eqb (resolutionType f) "cmd").

(** The findings that are no commands, in the order of the list. *)
Definition edits (findings : list Finding) : list Finding := filter isEdit findings.

Definition editsOf (name : string) (findings : list Finding) : list Finding :=
  filter (fun f => String.eqb (file f) name) (edits findings).

Definition mem (x : string) (l : list string) : bool := existsb (String.eqb x) l.

(** The distinct names of a list, each at the place of its first
    appearance. *)
Fixpoint firstAppearances (seen : list string) (l : list string) : list string :=
  match l with
  | [] => []
  | x :: rest =>
      if mem x seen then firstAppearances seen rest
      else x :: firstAppearances (x :: seen) rest
  end.

(** The first resolution type of a list that is not the empty string. *)
Definition firstNonEmptyType (l : list Finding) : string :=
  match find (fun f => negb (String.eqb (resolutionType f) "")) l with
  | Some f => resolutionType f
  | None => ""
  end.

Definition noFsWrite (t : list Effect) : Prop :=
  Forall (fun call => readOnly call = true) (fsCalls t).

(** A run that only asks the file system: no callback, no log, no module. *)
Definition probesOnly (t : list Effect) : Prop :=
  Forall (fun e => match e with
                   | Fs call => readOnly call = true
                   | GetAllFiles _ => True
                   | _ => False
                   end) t.

(** What one of the ten blocks of [getProject] leaves in its slot. *)
Definition document (h : Host) (p : Path) : option Json :=
  if present h p
  then parsed h (option_map (removeSingleLineComments h) (content h p))
  else None.

(** What [getProject] appends to [manifests] for one file of the walk. *)
Definition manifestOf (h : Host) (f : Path) : list Manifest :=
  if endsWith (pathText f) ".manifest.json" then
    match parsed h (option_map (removeSingleLineComments h) (content h f)) with
    | Some manifest =>
        match withPath manifest f with
        | Some m => [m]
        | None => []
        end
    | None => []
    end
  else [].

(** How one edit changes the entry of its file in [modificationPerFile] and
    in [modificationTypePerFile]. *)
Definition pushed (entry : option (list string)) (f : Finding) : option (list string) :=
  match entry with
  | Some ms => Some (ms ++ [resolution f])%list
  | None => Some [resolution f]
  end.

Definition tagged (entry : option string) (f : Finding) : option string :=
  match entry with
  | Some t => if String.eqb t "" then Some (resolutionType f) else Some t
  | None => Some (resolutionType f)
  end.

Definition isCommand (f : Finding) : bool := String.eqb (resolutionType f) "cmd".

(** An effect that changes no file. *)
Definition leavesFilesAlone (e : Effect) : Prop :=
  match e with
  | Fs call => readOnly call = true
  | GetAllFiles _ | Require _ | Log _ | Cb _ => True
  end.

(** ** Further vocabulary *)

(** The findings of a list whose id is neither in [seen] nor carried by an
    earlier finding of the list. *)
Fixpoint firstById (seen : list string) (l : list Finding) : list Finding :=
  match l with
  | [] => []
  | f :: rest =>
      if mem (id f) seen then firstById seen rest
      else f :: firstById (id f :: seen) rest
  end.

(** A directory and the directories above it, the nearest first, the root
    last. *)
Definition upwards (p : Path) : list Path :=
  map (fun n => firstn n p) (rev (seq 0 (S (List.length p)))).

(** The elements of a list up to the first one that passes, included. *)
Fixpoint upTo {A : Type} (stop : A -> bool) (l : list A) : list A :=
  match l with
  | [] => []
  | x :: rest => if stop x then [x] else x :: upTo stop rest
  end.

Definition packageJsonProbe (dir : Path) : Effect :=
  Fs (ExistsSync (resolve dir ["package.json"])).

(** What [getProjectVersion] finds in package.json. *)
Definition fallbackVersion (h : Host) (root : Path) : option Json :=
  match parsed h (content h (resolve root ["package.json"])) with
  | Some packageJson => coreLibraryVersion packageJson
  | None => None
  end.

(** What [getProjectVersion] finds in .yo-rc.json. *)
Definition generatorMetadataVersion (h : Host) (root : Path) : option Json :=
  if present h (resolve root [".yo-rc.json"]) then
    match parsed h (content h (resolve root [".yo-rc.json"])) with
    | Some yoRc => generatorVersion yoRc
    | None => None
    end
  else None.

Definition isVersionChar (a : ascii) : bool := isDigit a || Ascii.eqb a ".".

Fixpoint allChars (p : ascii -> bool) (s : string) : bool :=
  match s with
  | EmptyString => true
  | String a rest => p a && allChars p rest
  end.

(** The calls one block of [getProject] makes for its document. *)
Definition documentProbes (h : Host) (p : Path) : list Effect :=
  Fs (ExistsSync p) :: (if present h p then [Fs (ReadFileSync p)] else []).

Definition isManifestFile (f : Path) : bool := endsWith (pathText f) ".manifest.json".

(** A parsed value that takes a property: an object or an array. On [null]
    and on a primitive value [manifest.path = f] throws. *)
Definition takesProperties (v : Json) : bool :=
  match v with
  | JObj _ | JArr _ => true
  | _ => false
  end.

(** The file is named *.manifest.json, it can be read, and its text, comments
    removed, parses to a value that takes a property. *)
Definition yieldsManifest (h : Host) (f : Path) : bool :=
  isManifestFile f
  && match content h f with
     | Some text =>
         match parse h (removeSingleLineComments h text) with
         | Some v => takesProperties v
         | None => false
         end
     | None => false
     end.



(** A rule that pushes findings of its own onto the array and does nothing
    else: what it pushes depends on the project only. *)
Definition appends (r : Rule) : Prop :=
  forall project findings,
    r project findings = mkVisit (findings ++ accumulated (r project []))%list None.

(** The module of a version does not load, or holds such rules only. *)
Definition appendsOnly (h : Host) (v : string) : Prop :=
  match load h (upgradeModule v) with
  | Returned rules => Forall appends rules
  | Thrown _ => True
  end.

(** ** getTelemetryProperties (lines 42-46) and options (lines 368-384)

    Both start from what the parent class [Command] returns, which is given
    here: the telemetry properties as a dictionary ([None] is [undefined]),
    the options as a list. *)

Definition getTelemetryProperties (c : Command)
  (telemetryProps : JsObject (option Json)) (args : Options)
  : JsObject (option Json) :=
  let newest :=
    option_map JStr
      (nth_error (supportedVersions c) (List.length (supportedVersions c) - 1)%nat) in
  setOwn "toVersion"
    (match toVersion args with
     | Some v => if String.eqb v "" then newest else Some (JStr v)
     | None => newest
     end)
    telemetryProps.

(** A [CommandOption]; its fields [option] and [description] are named
    [optionText] and [optionDescription] here. *)
Record CommandOption := mkCommandOption {
  optionText : string;
  optionDescription : string;
  autocomplete : option (list string)
}.

(** [s.indexOf(part) > -1] *)
Definition mentions (part s : string) : bool :=
  match String.index 0 part s with
  | Some _ => true
  | None => false
  end.

Definition options (parentOptions : list CommandOption) : list CommandOption :=
  let own :=
    [ mkCommandOption "-v, --toVersion [toVersion]"
        "The version of SharePoint Framework to which upgrade the project" None ] in
  let parentOptions :=
    map (fun o =>
           if mentions "--output" (optionText o)
           then mkCommandOption (optionText o)
                  "Output type. json|text|md. Default text"
                  (Some ["json"; "text"; "md"])
           else o)
        parentOptions in
  (own ++ parentOptions)%list.

(** The order of [Object.keys] among the names that are array indices. *)
Definition indexOrder (a b : string) : Prop :=
  (digitsValue 0 a <= digitsValue 0 b)%N.

(** ** A sample project, for running the command *)

Module Sample.

Definition root : Path := ["home"; "dev"; "hello-webpart"].

Definition workingDirectory : Path := (root ++ ["src"; "webparts"])%list.

Definition yoRc (version : string) : Json :=
  JObj [("@microsoft/generator-sharepoint", JObj [("version", JStr version)])].

Definition packageDoc : Json :=
  JObj [("dependencies", JObj [("@microsoft/sp-core-library", JStr "~1.4.1")])].

Definition webPartManifest : Json := JObj [("alias", JStr "HelloWebPart")].

Definition manifestFile : Path :=
  (root ++ ["src"; "webparts"; "hello"; "HelloWebPart.manifest.json"])%list.

Definition brokenManifestFile : Path :=
  (root ++ ["src"; "webparts"; "bye"; "ByeWebPart.manifest.json"])%list.

Definition files : list (Path * string) :=
  [ ((root ++ ["package.json"])%list, "package");
    ((root ++ [".yo-rc.json"])%list, "yo-rc");
    ((root ++ ["tsconfig.json"])%list, "{ malformed");
    (manifestFile, "manifest");
    (brokenManifestFile, "{ malformed") ].

Fixpoint lookupFile (p : Path) (l : list (Path * string)) : option string :=
  match l with
  | [] => None
  | (q, text) :: rest => if path_eq_dec q p then Some text else lookupFile p rest
  end.

(** A parser that knows the three documents of the sample. *)
Definition parseSample (version : string) (text : string) : option Json :=
  if String.eqb text "package" then Some packageDoc
  else if String.eqb text "yo-rc" then Some (yoRc version)
  else if String.eqb text "manifest" then Some webPartManifest
  else None.

Definition command1 : Finding :=
  mkFinding "Upgrade SharePoint Framework dependency package" "FN001001"
    "./package.json" "npm i @microsoft/sp-core-library@1.5.0 -SE" "cmd"
    "Required" "@microsoft/sp-core-library".

Definition command1Again : Finding :=
  mkFinding "Upgrade SharePoint Framework dependency package" "FN001001"
    "./package.json" "different text" "cmd" "Required" "@microsoft/sp-core-library".

Definition edit1 : Finding :=
  mkFinding "Update version in .yo-rc.json" "FN010001" "./.yo-rc.json"
    "{ version: 1.5.0 }" "json" "Recommended" ".yo-rc.json version".

Definition edit2 : Finding :=
  mkFinding "Update tsconfig.json" "FN012001" "./tsconfig.json"
    "{ include: [src] }" "json" "Required" "tsconfig.json include".

(** Two edits of files named by numbers, and two edits of one file the
    first of which has no resolution type. *)
Definition numbered : list Finding :=
  [ mkFinding "Update file 1" "FN100001" "1" "{ first }" "json" "Required" "one";
    mkFinding "Update file 0" "FN100002" "0" "{ second }" "json" "Required" "zero" ].

Definition untyped : list Finding :=
  [ mkFinding "Update gulpfile" "FN200001" "./gulpfile.js" "build.initialize(gulp);" ""
      "Required" "gulpfile";
    mkFinding "Update gulpfile" "FN200002" "./gulpfile.js" "{ serve: true }" "json"
      "Required" "gulpfile" ].

(** Edits of two files under plain names and of one file named by an array
    index. *)
Definition mixed : list Finding :=
  [ mkFinding "Update a" "FN300001" "./a" "first" "json" "Required" "a";
    mkFinding "Update 7" "FN300002" "7" "second" "json" "Required" "seven";
    mkFinding "Update b" "FN300003" "./b" "third" "json" "Required" "b";
    mkFinding "Update 7" "FN300004" "7" "fourth" "json" "Required" "seven";
    mkFinding "Update a" "FN300005" "./a" "fifth" "json" "Required" "a" ].

Definition push (f : Finding) : Rule :=
  fun _ findings => mkVisit (findings ++ [f])%list None.

Definition rules : list Rule := [push command1; push edit1; push command1Again; push edit2].

Definition loadRules (module : string) : Exc (list Rule) :=
  if String.eqb module "./project-upgrade/upgrade-1.5.0" then Returned rules
  else Thrown ("Cannot find module '" ++ module ++ "'").

(** The names a fresh array answers: its own [length], the members of
    Array.prototype and those of Object.prototype (of any edition of the
    language up to ES2023). *)
Definition arrayMembers : list string :=
  [ "length"; "constructor";
    "at"; "concat"; "copyWithin"; "entries"; "every"; "fill"; "filter"; "find";
    "findIndex"; "findLast"; "findLastIndex"; "flat"; "flatMap"; "forEach";
    "includes"; "indexOf"; "join"; "keys"; "lastIndexOf"; "map"; "pop"; "push";
    "reduce"; "reduceRight"; "reverse"; "shift"; "slice"; "some"; "sort";
    "splice"; "toLocaleString"; "toReversed"; "toSorted"; "toSpliced";
    "toString"; "unshift"; "values"; "with";
    "__defineGetter__"; "__defineSetter__"; "__lookupGetter__";
    "__lookupSetter__"; "__proto__"; "hasOwnProperty"; "isPrototypeOf";
    "propertyIsEnumerable"; "valueOf" ].

(** The sample project, generated with [version], seen from [start]. *)
Definition host (version : string) (start : Path) : Host :=
  mkHost start
    (fun p => match lookupFile p files with Some _ => true | None => false end)
    (fun p => lookupFile p files)
    (parseSample version)
    (fun text => text)
    (fun dir => if path_eq_dec dir (root ++ ["src"])%list
                then Returned [manifestFile; brokenManifestFile;
                               (root ++ ["src"; "index.ts"])%list]
                else Thrown "ENOENT")
    loadRules
    nl
    "6/1/2018"
    (fun k => mem k arrayMembers).

(** The same project on a host whose rule module cannot be loaded. *)
Definition hostWithoutRules (start : Path) : Host :=
  let h := host "1.4.1" start in
  mkHost (cwd h) (present h) (content h) (parse h) (removeSingleLineComments h)
    (filesBelow h) (fun module => Thrown ("Cannot find module '" ++ module ++ "'"))
    (EOL h) (toLocaleDateString h) (arrayMember h).

(** A host made of a table of files, a parser and a comment remover; the
    walk of [src] finds nothing. *)
Definition tableHost (table : list (Path * string)) (parser : string -> option Json)
  (uncomment : string -> string) : Host :=
  mkHost workingDirectory
    (fun p => match lookupFile p table with Some _ => true | None => false end)
    (fun p => lookupFile p table)
    parser
    uncomment
    (fun _ => Returned [])
    loadRules
    nl
    "6/1/2018"
    (fun k => mem k arrayMembers).

(** A project whose .yo-rc.json starts with a comment. *)
Definition dropSlashes (text : string) : string :=
  match text with
  | String "/" (String "/" rest) => rest
  | _ => text
  end.

Definition commentedHost : Host :=
  tableHost [ ((root ++ ["package.json"])%list, "package");
              ((root ++ [".yo-rc.json"])%list, "//yo-rc") ]
    (parseSample "1.5.0") dropSlashes.

(** A project without .yo-rc.json whose package.json asks for the latest
    core library. *)
Definition latestDoc : Json :=
  JObj [("dependencies", JObj [("@microsoft/sp-core-library", JStr "latest")])].

Definition latestHost : Host :=
  tableHost [ ((root ++ ["package.json"])%list, "package") ]
    (fun text => if String.eqb text "package" then Some latestDoc else None)
    (fun text => text).

(** The sample project on a host where the walk of [src] throws. *)
Definition hostWithoutSrc : Host :=
  let h := host "1.4.1" workingDirectory in
  mkHost (cwd h) (present h) (content h) (parse h) (removeSingleLineComments h)
    (fun _ => Thrown "ENOENT") (load h) (EOL h) (toLocaleDateString h) (arrayMember h).

(** A rule that pushes a finding and throws, between two rules that push. *)
Definition failing (f : Finding) (e : string) : Rule :=
  fun _ findings => mkVisit (findings ++ [f])%list (Some e).

Definition hostWithFailingRule : Host :=
  let h := host "1.4.1" workingDirectory in
  mkHost (cwd h) (present h) (content h) (parse h) (removeSingleLineComments h)
    (filesBelow h)
    (fun _ => Returned [push command1; failing edit1 "Cannot read property"; push edit2])
    (EOL h) (toLocaleDateString h) (arrayMember h).

End Sample.

(** * Properties *)

(** ** Array primitives *)

Lemma findIndexFrom_spec (A : Type) (p : A -> bool) (l : list A) (k : nat) :
  (findIndexFrom p (Z.of_nat k) l = -1 /\ forall x, In x l -> p x = false)
  \/ exists n x,
       findIndexFrom p (Z.of_nat k) l = Z.of_nat (k + n)
       /\ nth_error l n = Some x /\ p x = true
       /\ forall m y, (m < n)%nat -> nth_error l m = Some y -> p y = false.
Proof.
  revert k. induction l as [|a l IH]; intros k; simpl.
  - left. split; [reflexivity | intros x []].
  - destruct (p a) eqn:Hpa.
    + right. exists 0%nat, a. rewrite Nat.add_0_r.
      repeat split; auto. intros m y Hm. inversion Hm.
    + replace (Z.of_nat k + 1) with (Z.of_nat (S k)) by lia.
      destruct (IH (S k)) as [[Hnone Hall] | (n & x & Hidx & Hnth & Hpx & Hbefore)].
      * left. split; [exact Hnone|]. intros x [<- | Hin]; auto.
      * right. exists (S n), x. repeat split; auto.
        -- rewrite Hidx. f_equal. lia.
        -- intros [|m] y Hm Hy; simpl in Hy.
           ++ inversion Hy; subst; exact Hpa.
           ++ apply (Hbefore m y); [lia | exact Hy].
Qed.

(** [findIndex] answers the position of the first element that passes. *)
Lemma findIndex_first (A : Type) (p : A -> bool) (l : list A) (i : nat) (x : A) :
  nth_error l i = Some x ->
  (findIndex p l = Z.of_nat i
   <-> p x = true /\ forall m y, (m < i)%nat -> nth_error l m = Some y -> p y = false).
Proof.
  intros Hx. unfold findIndex.
  destruct (findIndexFrom_spec p l 0) as [[Hnone Hall] | (n & y & Hidx & Hnth & Hpy & Hbefore)];
    simpl in *.
  - rewrite Hnone. split.
    + lia.
    + intros [Hpx _]. apply nth_error_In in Hx. rewrite (Hall _ Hx) in Hpx. discriminate.
  - rewrite Hidx. split.
    + intros Heq. assert (n = i) by lia. subst n.
      rewrite Hx in Hnth. inversion Hnth; subst. split; assumption.
    + intros [Hpx Hfirst].
      destruct (Nat.lt_trichotomy n i) as [Hlt | [-> | Hgt]]; [|reflexivity|].
      * rewrite (Hfirst n y Hlt Hnth) in Hpy. discriminate.
      * rewrite (Hbefore i x Hgt Hx) in Hpx. discriminate.
Qed.

Lemma findIndex_absent (A : Type) (p : A -> bool) (l : list A) :
  findIndex p l = -1 <-> forall x, In x l -> p x = false.
Proof.
  unfold findIndex.
  destruct (findIndexFrom_spec p l 0) as [[Hnone Hall] | (n & y & Hidx & Hnth & Hpy & _)];
    simpl in *.
  - rewrite Hnone. tauto.
  - rewrite Hidx. split; [lia|].
    intros Hall. apply nth_error_In in Hnth. rewrite (Hall _ Hnth) in Hpy. discriminate.
Qed.

Lemma findIndex_range (A : Type) (p : A -> bool) (l : list A) :
  -1 <= findIndex p l < Z.of_nat (List.length l).
Proof.
  unfold findIndex.
  destruct (findIndexFrom_spec p l 0) as [[Hnone _] | (n & y & Hidx & Hnth & _)];
    simpl in *.
  - rewrite Hnone. lia.
  - rewrite Hidx. assert (n < List.length l)%nat by (apply nth_error_Some; congruence). lia.
Qed.

Lemma filterFrom_positions (A : Type) (p : A -> Z -> bool) (l : list A) (k : nat) :
  map Some (filterFrom p (Z.of_nat k) l)
  = map (fun i => nth_error l (i - k))
        (filter (fun i => match nth_error l (i - k) with
                          | Some x => p x (Z.of_nat i)
                          | None => false
                          end)
                (seq k (List.length l))).
Proof.
  revert k. induction l as [|a l IH]; intros k; [reflexivity|].
  cbn [filterFrom List.length seq filter].
  rewrite Nat.sub_diag. cbn [nth_error].
  replace (Z.of_nat k + 1) with (Z.of_nat (S k)) by lia.
  assert (Hfilter :
    filter (fun i => match nth_error (a :: l) (i - k) with
                     | Some x => p x (Z.of_nat i)
                     | None => false
                     end) (seq (S k) (List.length l))
    = filter (fun i => match nth_error l (i - S k) with
                       | Some x => p x (Z.of_nat i)
                       | None => false
                       end) (seq (S k) (List.length l))).
  { apply filter_ext_in. intros i Hi. apply in_seq in Hi.
    replace (i - k)%nat with (S (i - S k)) by lia. reflexivity. }
  assert (Hmap : forall js, (forall j, In j js -> (S k <= j)%nat) ->
    map (fun i => nth_error (a :: l) (i - k)) js
    = map (fun i => nth_error l (i - S k)) js).
  { intros js Hjs. apply map_ext_in. intros i Hi. apply Hjs in Hi.
    replace (i - k)%nat with (S (i - S k)) by lia. reflexivity. }
  rewrite Hfilter.
  assert (Hfrom : forall j,
    In j (filter (fun i => match nth_error l (i - S k) with
                           | Some x => p x (Z.of_nat i)
                           | None => false
                           end) (seq (S k) (List.length l))) -> (S k <= j)%nat).
  { intros j Hj. apply filter_In in Hj. destruct Hj as [Hj _].
    apply in_seq in Hj. lia. }
  destruct (p a (Z.of_nat k)); cbn [map]; rewrite ?Nat.sub_diag; cbn [nth_error];
    rewrite IH, (Hmap _ Hfrom); reflexivity.
Qed.

Lemma filteri_positions (A : Type) (p : A -> Z -> bool) (l : list A) :
  map Some (filteri p l) = map (nth_error l) (keptPositions p l).
Proof.
  unfold filteri, keptPositions.
  change (filterFrom p 0 l) with (filterFrom p (Z.of_nat 0) l).
  rewrite (filterFrom_positions p l 0).
  rewrite (map_ext (fun i => nth_error l (i - 0)) (nth_error l))
    by (intros i; rewrite Nat.sub_0_r; reflexivity).
  f_equal. apply filter_ext. intros i. rewrite Nat.sub_0_r. reflexivity.
Qed.

Lemma seq_sorted (a n : nat) : StronglySorted lt (seq a n).
Proof.
  revert a. induction n as [|n IH]; intros a; simpl; constructor.
  - apply IH.
  - apply Forall_forall. intros x Hx. apply in_seq in Hx. lia.
Qed.

Lemma filter_sorted (R : nat -> nat -> Prop) (q : nat -> bool) (l : list nat) :
  StronglySorted R l -> StronglySorted R (filter q l).
Proof.
  induction 1 as [|a l Hs IH Hall]; simpl; [constructor|].
  destruct (q a); [constructor|]; auto.
  apply Forall_forall. intros x Hx. apply filter_In in Hx.
  rewrite Forall_forall in Hall. apply Hall. tauto.
Qed.

(** [indexOf] answers a position exactly for the strings of the list. *)
Lemma indexOf_present (l : list string) (x : string) : 0 <= indexOf l x <-> In x l.
Proof.
  unfold indexOf. pose proof (findIndex_range (String.eqb x) l) as Hrange.
  pose proof (findIndex_absent (String.eqb x) l) as Habsent.
  split.
  - intros Hpos. destruct (in_dec string_dec x l) as [Hin | Hout]; [exact Hin|].
    assert (findIndex (String.eqb x) l = -1); [|lia].
    apply Habsent. intros y Hy. apply String.eqb_neq. congruence.
  - intros Hin.
    assert (findIndex (String.eqb x) l <> -1); [|lia].
    intros Hnone. rewrite Habsent in Hnone. specialize (Hnone x Hin).
    rewrite String.eqb_refl in Hnone. discriminate.
Qed.

Lemma indexOf_absent (l : list string) (x : string) : indexOf l x < 0 <-> ~ In x l.
Proof. rewrite <- indexOf_present. lia. Qed.

(** ** C2: deduplication *)

(** C2. For every sequence of findings, [dedupe] returns the findings at an
    increasing list of positions of the input (so their relative order is
    kept), and a position is among them exactly when no earlier position
    holds a finding with the same id: the first occurrence of every id is
    kept and every later one is dropped. *)
Theorem dedupe_keeps_first_occurrences (findings : list Finding) :
  exists kept : list nat,
    StronglySorted lt kept
    /\ map Some (dedupe findings) = map (nth_error findings) kept
    /\ forall i : nat,
         In i kept <->
         exists f, nth_error findings i = Some f
                   /\ forall j g, (j < i)%nat -> nth_error findings j = Some g ->
                                  id g <> id f.
Proof.
  set (p := fun (f : Finding) (i : Z) =>
              i =? findIndex (fun f1 => String.eqb (id f1) (id f)) findings).
  exists (keptPositions p findings). split; [|split].
  - apply filter_sorted, seq_sorted.
  - apply filteri_positions.
  - intros i. unfold keptPositions. rewrite filter_In, in_seq. split.
    + intros [Hrange Hkeep].
      destruct (nth_error findings i) as [f|] eqn:Hf; [|discriminate].
      exists f. split; [reflexivity|].
      unfold p in Hkeep. apply Z.eqb_eq in Hkeep. symmetry in Hkeep.
      apply (findIndex_first _ _ _ Hf) in Hkeep. destruct Hkeep as [_ Hfirst].
      intros j g Hj Hg Heq. specialize (Hfirst j g Hj Hg).
      apply String.eqb_neq in Hfirst. contradiction.
    + intros (f & Hf & Hfirst). split.
      * assert (i < List.length findings)%nat by (apply nth_error_Some; congruence). lia.
      * rewrite Hf. unfold p. apply Z.eqb_eq. symmetry.
        apply (findIndex_first _ _ _ Hf). split.
        -- apply String.eqb_refl.
        -- intros m y Hm Hy. apply String.eqb_neq. exact (Hfirst m y Hm Hy).
Qed.

(** The findings of the sample rules: the second finding with id FN001001,
    at position 2, is dropped. *)
Lemma dedupe_keeps_first_occurrences_witness :
  exists kept : list nat,
    map Some (dedupe [Sample.command1; Sample.edit1; Sample.command1Again; Sample.edit2])
    = map (nth_error [Sample.command1; Sample.edit1; Sample.command1Again; Sample.edit2])
          kept
    /\ In 0%nat kept /\ ~ In 2%nat kept.
Proof.
  destruct (dedupe_keeps_first_occurrences
              [Sample.command1; Sample.edit1; Sample.command1Again; Sample.edit2])
    as (kept & _ & Hkept & Hfirst).
  exists kept. split; [exact Hkept|]. split.
  - apply Hfirst. exists Sample.command1. split; [reflexivity|].
    intros j g Hj. inversion Hj.
  - intros Hin. apply Hfirst in Hin. destruct Hin as (f & Hf & Hnone).
    inversion Hf; subst f.
    apply (Hnone 0%nat Sample.command1); [lia | reflexivity | reflexivity].
Defined.

(** ** Runs *)

Lemma effects_bind (A B : Type) (m : M A) (k : A -> M B) :
  effects (bind m k)
  = match result m with
    | Some a => (effects m ++ effects (k a))%list
    | None => effects m
    end.
Proof.
  destruct m as [t [a|]]; simpl; [|reflexivity].
  destruct (k a) as [t' r]. reflexivity.
Qed.

Lemma result_bind (A B : Type) (m : M A) (k : A -> M B) :
  result (bind m k)
  = match result m with
    | Some a => result (k a)
    | None => None
    end.
Proof.
  destruct m as [t [a|]]; simpl; [|reflexivity].
  destruct (k a) as [t' r]. reflexivity.
Qed.

Lemma bind_returned (A B : Type) (t : list Effect) (a : A) (k : A -> M B) :
  bind (t, Some a) k = ((t ++ effects (k a))%list, result (k a)).
Proof. simpl. destruct (k a). reflexivity. Qed.

Ltac run_step :=
  rewrite ?bind_returned;
  cbn [effects result fst snd cb log emit ret bind app].

Lemma callbacks_app (t u : list Effect) :
  callbacks (t ++ u) = (callbacks t ++ callbacks u)%list.
Proof. apply flat_map_app. Qed.

Lemma logged_app (t u : list Effect) : logged (t ++ u) = (logged t ++ logged u)%list.
Proof. apply flat_map_app. Qed.

Lemma required_app (t u : list Effect) :
  required (t ++ u) = (required t ++ required u)%list.
Proof. apply flat_map_app. Qed.

Lemma fsCalls_app (t u : list Effect) : fsCalls (t ++ u) = (fsCalls t ++ fsCalls u)%list.
Proof. apply flat_map_app. Qed.

Lemma probesOnly_app (t u : list Effect) :
  probesOnly t -> probesOnly u -> probesOnly (t ++ u).
Proof. intros Ht Hu. apply Forall_app. split; assumption. Qed.

Lemma probesOnly_silent (t : list Effect) :
  probesOnly t -> callbacks t = [] /\ logged t = [] /\ required t = [].
Proof.
  induction 1 as [|e t He _ IH]; simpl; [auto|].
  destruct IH as (Hc & Hl & Hr).
  destruct e; try contradiction; simpl; auto.
Qed.



Lemma resolve_parent (p : Path) : resolve p [".."] = removelast p.
Proof. reflexivity. Qed.

(** The root is its own parent: this is where the search stops. *)
Lemma parent_fixed_point (p : Path) : resolve p [".."] = p <-> p = [].
Proof.
  rewrite resolve_parent. split; [|intros ->; reflexivity].
  destruct p as [|seg rest] using rev_ind; [reflexivity|].
  rewrite removelast_last. intros H.
  apply (f_equal (@List.length string)) in H. rewrite length_app in H. simpl in H. lia.
Qed.

Lemma getProjectRoot_step (h : Host) (p : Path) :
  getProjectRoot h p
  = let probe := Fs (ExistsSync (resolve p ["package.json"])) in
    if hasPackageJson h p then ([probe], Some (Some p))
    else match p with
         | [] => ([probe], Some None)
         | _ => (probe :: effects (getProjectRoot h (removelast p)),
                 result (getProjectRoot h (removelast p)))
         end.
Proof.
  rewrite getProjectRoot_equation_1. unfold hasPackageJson. cbn zeta.
  unfold existsSync, emit, ret. cbn [bind app].
  destruct (present h (resolve p ["package.json"])); [reflexivity|].
  destruct (path_eq_dec (resolve p [".."]) p) as [Heq | Hneq].
  - apply parent_fixed_point in Heq. subst p. reflexivity.
  - destruct p as [|seg rest]; [contradiction Hneq; reflexivity|].
    rewrite resolve_parent.
    destruct (getProjectRoot h (removelast (seg :: rest))) as [t r]. reflexivity.
Qed.

Lemma ancestorOrSelf_refl (p : Path) : ancestorOrSelf p p.
Proof. exists []. symmetry. apply app_nil_r. Qed.

Lemma ancestorOrSelf_last (q p : Path) (seg : string) :
  ancestorOrSelf q (p ++ [seg])%list <-> q = (p ++ [seg])%list \/ ancestorOrSelf q p.
Proof.
  split.
  - intros [below Hbelow].
    destruct below as [|b below] using rev_ind.
    + left. rewrite app_nil_r in Hbelow. auto.
    + right. rewrite app_assoc in Hbelow. apply app_inj_tail in Hbelow.
      destruct Hbelow as [Hp _]. exists below. exact Hp.
  - intros [-> | [below ->]].
    + apply ancestorOrSelf_refl.
    + exists (below ++ [seg])%list. rewrite app_assoc. reflexivity.
Qed.

Lemma ancestorOrSelf_root (q : Path) : ancestorOrSelf q [] <-> q = [].
Proof.
  split.
  - intros [below Hbelow]. symmetry in Hbelow. apply app_eq_nil in Hbelow. tauto.
  - intros ->. apply ancestorOrSelf_refl.
Qed.

(** The search returns, and asks nothing but whether files exist. *)
Lemma getProjectRoot_run (h : Host) (folderPath : Path) :
  exists (t : list Effect) (answer : option Path),
    getProjectRoot h folderPath = (t, Some answer) /\ probesOnly t.
Proof.
  induction folderPath as [|seg p IH] using rev_ind;
    rewrite getProjectRoot_step; cbn zeta.
  - destruct (hasPackageJson h []); eexists; eexists;
      (split; [reflexivity | repeat constructor]).
  - destruct (hasPackageJson h (p ++ [seg])%list).
    + eexists; eexists. split; [reflexivity | repeat constructor].
    + destruct IH as (t & answer & Hrun & Hprobes).
      rewrite removelast_last, Hrun.
      destruct (p ++ [seg])%list eqn:Hp; [destruct p; discriminate|]. rewrite <- Hp.
      eexists; eexists. split; [reflexivity|].
      constructor; [reflexivity | exact Hprobes].
Qed.

(** C10. From every directory the search returns: it asks only whether files
    exist, and it answers the nearest directory, among the start and the
    directories above it, that holds a package.json, or null when none of
    them does. The search ends because the root is its own parent. *)
Theorem getProjectRoot_finds_nearest_ancestor (h : Host) (folderPath : Path) :
  (exists (t : list Effect) (answer : option Path),
     getProjectRoot h folderPath = (t, Some answer)
     /\ probesOnly t
     /\ match answer with
        | Some found =>
            ancestorOrSelf found folderPath
            /\ hasPackageJson h found = true
            /\ forall q, ancestorOrSelf q folderPath -> hasPackageJson h q = true ->
                         ancestorOrSelf q found
        | None =>
            forall q, ancestorOrSelf q folderPath -> hasPackageJson h q = false
        end)
  /\ resolve [] [".."] = [].
Proof.
  split; [|reflexivity].
  induction folderPath as [|seg p IH] using rev_ind;
    rewrite getProjectRoot_step; cbn zeta.
  - destruct (hasPackageJson h []) eqn:Hhas; eexists; eexists;
      (split; [reflexivity|]); (split; [repeat constructor|]).
    + split; [apply ancestorOrSelf_refl|]. split; [exact Hhas|]. auto.
    + intros q Hq. apply ancestorOrSelf_root in Hq. subst q. exact Hhas.
  - destruct (hasPackageJson h (p ++ [seg])%list) eqn:Hhas.
    + eexists; eexists. split; [reflexivity|]. split; [repeat constructor|].
      split; [apply ancestorOrSelf_refl|]. split; [exact Hhas|]. auto.
    + destruct IH as (t & answer & Hrun & Hprobes & Hanswer).
      rewrite removelast_last, Hrun.
      destruct (p ++ [seg])%list eqn:Hp; [destruct p; discriminate|]. rewrite <- Hp.
      exists (Fs (ExistsSync (resolve (p ++ [seg])%list ["package.json"])) :: t), answer.
      split; [reflexivity|]. split; [constructor; [reflexivity | exact Hprobes]|].
      destruct answer as [found|].
      * destruct Hanswer as (Hanc & Hfound & Hnearest). split; [|split].
        -- apply ancestorOrSelf_last. right. exact Hanc.
        -- exact Hfound.
        -- intros q Hq Hqhas. apply ancestorOrSelf_last in Hq.
           destruct Hq as [-> | Hq]; [congruence | auto].
      * intros q Hq. apply ancestorOrSelf_last in Hq.
        destruct Hq as [-> | Hq]; [rewrite Hp; exact Hhas | auto].
Qed.

(** The sample project, searched from src/webparts: two directories are
    tried in vain, the third is the root. *)
Lemma getProjectRoot_finds_nearest_ancestor_witness :
  exists t : list Effect,
    getProjectRoot (Sample.host "1.4.1" Sample.workingDirectory) Sample.workingDirectory
    = (t, Some (Some Sample.root))
    /\ probesOnly t.
Proof.
  destruct (proj1 (getProjectRoot_finds_nearest_ancestor
                     (Sample.host "1.4.1" Sample.workingDirectory)
                     Sample.workingDirectory))
    as (t & answer & Hrun & Hprobes & _).
  exists t. split; [|exact Hprobes].
  rewrite Hrun.
  assert (Hanswer :
    result (getProjectRoot (Sample.host "1.4.1" Sample.workingDirectory)
              Sample.workingDirectory) = Some (Some Sample.root))
    by (vm_compute; reflexivity).
  rewrite Hrun in Hanswer. simpl in Hanswer. inversion Hanswer. reflexivity.
Defined.

(** ** Probes of the project: version and documents *)

Lemma probesOnly_leavesFilesAlone (t : list Effect) :
  probesOnly t -> Forall leavesFilesAlone t.
Proof.
  apply Forall_impl. intros [call| | | |]; simpl; tauto.
Qed.

Lemma getProjectVersion_run (h : Host) (root : Path) :
  exists (t : list Effect) (version : option Json),
    getProjectVersion h root = (t, Some version) /\ probesOnly t.
Proof.
  unfold getProjectVersion, existsSync, readFileSync, emit, ret. cbn [bind app].
  destruct (present h (resolve root [".yo-rc.json"])); cbn [bind app].
  - destruct (match parsed h (content h (resolve root [".yo-rc.json"])) with
              | Some yoRc => generatorVersion yoRc
              | None => None
              end); cbn [bind app];
      eexists; eexists; (split; [reflexivity | repeat constructor]).
  - eexists; eexists; (split; [reflexivity | repeat constructor]).
Qed.

Lemma readDocument_run (h : Host) (p : Path) :
  exists t, readDocument h p = (t, Some (document h p)) /\ probesOnly t.
Proof.
  unfold readDocument, document, existsSync, readFileSync, emit, ret. cbn [bind app].
  destruct (present h p); cbn [bind app];
    eexists; (split; [reflexivity | repeat constructor]).
Qed.

Lemma document_unusable (h : Host) (p : Path) : unusable h p -> document h p = None.
Proof.
  unfold document. intros [Hmissing | [Hunread | (text & Htext & Hparse)]].
  - rewrite Hmissing. reflexivity.
  - rewrite Hunread. destruct (present h p); reflexivity.
  - rewrite Htext. simpl. rewrite Hparse. destruct (present h p); reflexivity.
Qed.

Lemma readManifest_run (h : Host) (manifests : list Manifest) (f : Path) :
  exists t, readManifest h manifests f = (t, Some (manifests ++ manifestOf h f)%list)
            /\ probesOnly t.
Proof.
  unfold readManifest, manifestOf, readFileSync, emit, ret.
  destruct (endsWith (pathText f) ".manifest.json"); cbn [bind app].
  - exists [Fs (ReadFileSync f)]. split; [|repeat constructor].
    destruct (parsed h (option_map (removeSingleLineComments h) (content h f)))
      as [manifest|]; [destruct (withPath manifest f)|];
      rewrite ?app_nil_r; reflexivity.
  - exists []. rewrite app_nil_r. split; [reflexivity | constructor].
Qed.

Lemma readManifests_run (h : Host) (files : list Path) (manifests : list Manifest) :
  exists t, forEach (readManifest h) files manifests
            = (t, Some (manifests ++ flat_map (manifestOf h) files)%list)
            /\ probesOnly t.
Proof.
  revert manifests. induction files as [|f files IH]; intros manifests; simpl.
  - exists []. rewrite app_nil_r. split; [reflexivity | constructor].
  - destruct (readManifest_run h manifests f) as (t1 & Hrun1 & Hprobes1).
    destruct (IH (manifests ++ manifestOf h f)%list) as (t2 & Hrun2 & Hprobes2).
    rewrite Hrun1, bind_returned, Hrun2. simpl.
    exists (t1 ++ t2)%list. rewrite <- app_assoc.
    split; [reflexivity | apply probesOnly_app; assumption].
Qed.

Lemma manifestOf_path (h : Host) (f : Path) (m : Manifest) :
  In m (manifestOf h f) -> manifestPath m = f.
Proof.
  unfold manifestOf, withPath.
  destruct (endsWith (pathText f) ".manifest.json"); [|intros []].
  destruct (parsed h (option_map (removeSingleLineComments h) (content h f)))
    as [[]|]; simpl; intros [<- | []] || intros []; reflexivity.
Qed.

Lemma manifestOf_unusable (h : Host) (f : Path) :
  unusableManifest h f -> manifestOf h f = [].
Proof.
  unfold manifestOf. intros [Hunread | (text & Htext & Hparse)].
  - rewrite Hunread. simpl. destruct (endsWith _ _); reflexivity.
  - rewrite Htext. simpl. rewrite Hparse. destruct (endsWith _ _); reflexivity.
Qed.

(** The walk of [src] aside, [getProject] runs to its end whatever the
    documents hold, and fills each slot with what its block read. *)
Lemma getProject_run (h : Host) (root : Path) :
  exists t,
    probesOnly t
    /\ match filesBelow h (resolve root ["src"]) with
       | Returned files =>
           getProject h root
           = (t, Some (mkProject root
                         (document h (resolve root ["config"; "config.json"]))
                         (document h (resolve root ["config"; "copy-assets.json"]))
                         (document h (resolve root ["config"; "deploy-azure-storage.json"]))
                         (document h (resolve root ["package.json"]))
                         (document h (resolve root ["config"; "package-solution.json"]))
                         (document h (resolve root ["config"; "serve.json"]))
                         (document h (resolve root ["tsconfig.json"]))
                         (document h (resolve root ["config"; "tslint.json"]))
                         (document h (resolve root ["config"; "write-manifests.json"]))
                         (document h (resolve root [".yo-rc.json"]))
                         (flat_map (manifestOf h) files)))
       | Thrown _ => getProject h root = (t, None)
       end.
Proof.
  unfold getProject.
  repeat match goal with
         | |- context [readDocument h ?p] =>
             let t := fresh "t" in
             let Hrun := fresh "Hrun" in
             let Hprobes := fresh "Hprobes" in
             destruct (readDocument_run h p) as (t & Hrun & Hprobes);
             rewrite Hrun, bind_returned; clear Hrun; cbn [effects result fst snd]
         end.
  unfold getAllFiles, emit, escape, ret. cbn [bind app].
  destruct (filesBelow h (resolve root ["src"])) as [files|e]; cbn [bind app fst snd].
  - destruct (readManifests_run h files []) as (tm & Hmanifests & Hquiet).
    rewrite Hmanifests. cbn [bind app fst snd].
    eexists. split; [|reflexivity].
    repeat (apply probesOnly_app; [assumption|]).
    constructor; [exact I|]. rewrite app_nil_r. exact Hquiet.
  - eexists. split; [|reflexivity].
    repeat (apply probesOnly_app; [assumption|]).
    constructor; [exact I | constructor].
Qed.

(** ** C5: reading the project *)

(** C5. Provided the walk of [src] returns its list of files, [getProject]
    returns a project and reports nothing, neither to the callback nor to the
    log. A recognised document that is missing, unreadable or fails to parse
    leaves its slot unset, and a manifest file that is unreadable or fails to
    parse adds no manifest. *)
Theorem getProject_absorbs_document_errors (h : Host) (root : Path) (files : list Path) :
  filesBelow h (resolve root ["src"]) = Returned files ->
  exists (t : list Effect) (project : Project),
    getProject h root = (t, Some project)
    /\ callbacks t = [] /\ logged t = []
    /\ (forall rel slot, In (rel, slot) documents ->
                         unusable h (resolve root rel) -> slot project = None)
    /\ (forall f, unusableManifest h f ->
                  forall m, In m (manifests project) -> manifestPath m <> f).
Proof.
  intros Hfiles.
  destruct (getProject_run h root) as (t & Hprobes & Hrun).
  rewrite Hfiles in Hrun.
  destruct (probesOnly_silent Hprobes) as (Hcb & Hlog & _).
  eexists; eexists. split; [exact Hrun|]. split; [exact Hcb|]. split; [exact Hlog|].
  split.
  - intros rel slot Hin Hbad. simpl in Hin.
    repeat (destruct Hin as [Hin | Hin];
            [inversion Hin; subst; simpl; apply document_unusable; exact Hbad|]).
    contradiction.
  - intros f Hbad m Hm Hpath. simpl in Hm.
    apply in_flat_map in Hm. destruct Hm as (f' & _ & Hm).
    pose proof (manifestOf_path _ _ _ Hm) as Hf'. rewrite Hpath in Hf'. subst f'.
    rewrite (manifestOf_unusable Hbad) in Hm. contradiction.
Qed.

(** The sample project: tsconfig.json is malformed and one of the two
    manifests is. *)
Lemma getProject_absorbs_document_errors_witness :
  exists (t : list Effect) (project : Project),
    getProject (Sample.host "1.4.1" Sample.workingDirectory) Sample.root = (t, Some project)
    /\ callbacks t = [] /\ logged t = []
    /\ tsConfigJson project = None
    /\ configJson project = None
    /\ forall m, In m (manifests project) -> manifestPath m <> Sample.brokenManifestFile.
Proof.
  destruct (@getProject_absorbs_document_errors
              (Sample.host "1.4.1" Sample.workingDirectory) Sample.root
              [Sample.manifestFile; Sample.brokenManifestFile;
               (Sample.root ++ ["src"; "index.ts"])%list] eq_refl)
    as (t & project & Hrun & Hcb & Hlog & Hslots & Hmanifests).
  exists t, project. split; [exact Hrun|]. split; [exact Hcb|]. split; [exact Hlog|].
  split; [|split].
  - apply (Hslots ["tsconfig.json"]); [simpl; tauto|].
    right; right. exists "{ malformed". split; reflexivity.
  - apply (Hslots ["config"; "config.json"]); [simpl; tauto|].
    left. reflexivity.
  - apply Hmanifests. right. exists "{ malformed". split; reflexivity.
Defined.

(** ** C4: requests the planner rejects *)

Lemma quiet_then_callback (t : list Effect) (err : option CommandError) :
  probesOnly t ->
  callbacks (t ++ [Cb err]) = [err] /\ logged (t ++ [Cb err]) = [].
Proof.
  intros Hprobes. destruct (probesOnly_silent Hprobes) as (Hcb & Hlog & _).
  rewrite callbacks_app, logged_app, Hcb, Hlog. split; reflexivity.
Qed.

(** C4. In a run that has found the project root: a requested version that
    is not in the list of supported versions ends the run with the
    unsupported-target error; otherwise the version of the project is
    detected, and when it is not in the list the run ends with the
    unsupported-current error, when its position follows the position of the
    requested version with the downgrade error, and when the positions are
    equal with the nothing-to-upgrade error. In each case the callback is
    called once, with that error, and nothing is logged. *)
Theorem planner_rejects_invalid_requests (h : Host) (c : Command) (args : Options)
  (root : Path) (t0 : list Effect) :
  getProjectRoot h (cwd h) = (t0, Some (Some root)) ->
  let versions := supportedVersions c in
  let target := requestedVersion c args in
  let t := effects (commandAction h c args) in
  (~ In target versions ->
   callbacks t = [Some (unsupportedTarget c target)] /\ logged t = [])
  /\ (forall (current : string) (t1 : list Effect),
        In target versions ->
        getProjectVersion h root = (t1, Some (Some (JStr current))) ->
        current <> "" ->
        (~ In current versions ->
         callbacks t = [Some (unsupportedCurrent (JStr current))] /\ logged t = [])
        /\ (indexOf versions current > indexOf versions target ->
            callbacks t = [Some downgradeRejected] /\ logged t = [])
        /\ (indexOf versions current = indexOf versions target ->
            callbacks t = [Some alreadyUpToDate] /\ logged t = [])).
Proof.
  intros Hroot versions target t.
  assert (Hprobes0 : probesOnly t0).
  { destruct (getProjectRoot_run h (cwd h)) as (t0' & answer & Hrun & Hprobes).
    rewrite Hroot in Hrun. inversion Hrun; subst. exact Hprobes. }
  subst t. unfold commandAction. rewrite Hroot. run_step.
  fold target. fold versions. split.
  { intros Habsent. apply indexOf_absent, Z.ltb_lt in Habsent. rewrite Habsent.
    run_step.
    apply quiet_then_callback. exact Hprobes0. }
  intros current t1 Hpresent Hversion Hnonempty.
  assert (Hprobes1 : probesOnly t1).
  { destruct (getProjectVersion_run h root) as (t1' & v & Hrun & Hprobes).
    rewrite Hversion in Hrun. inversion Hrun; subst. exact Hprobes. }
  assert (Hprobes : probesOnly (t0 ++ t1)) by (apply probesOnly_app; assumption).
  apply indexOf_present, Z.ltb_ge in Hpresent. rewrite Hpresent, Hversion. run_step.
  apply String.eqb_neq in Hnonempty. cbn [truthy indexOfValue]. rewrite Hnonempty.
  cbn [negb]. fold versions.
  assert (Hpos : (indexOf versions current > indexOf versions target
                  \/ indexOf versions current = indexOf versions target) ->
                 (indexOf versions current <? 0) = false).
  { intros Hcase. apply Z.ltb_ge in Hpresent. apply Z.ltb_ge. lia. }
  split; [|split]; intros Hcase.
  - apply indexOf_absent, Z.ltb_lt in Hcase. rewrite Hcase. run_step.
    rewrite app_assoc. apply quiet_then_callback. exact Hprobes.
  - rewrite (Hpos (or_introl Hcase)).
    apply Z.gt_lt, Z.gtb_lt in Hcase. rewrite Hcase. run_step.
    rewrite app_assoc. apply quiet_then_callback. exact Hprobes.
  - rewrite (Hpos (or_intror Hcase)).
    rewrite Hcase, Z.gtb_ltb, Z.ltb_irrefl, Z.eqb_refl. run_step.
    rewrite app_assoc. apply quiet_then_callback. exact Hprobes.
Qed.

(** The sample project, generated with 1.4.1 or 1.5.0 or 1.3.0, asked for
    1.6.0, 1.5.0 and 1.4.1. *)
Lemma planner_rejects_invalid_requests_witness :
  let run version toVersion :=
    effects (commandAction (Sample.host version Sample.workingDirectory)
               spfxProjectUpgradeCommand (mkOptions toVersion None)) in
  (callbacks (run "1.4.1" (Some "1.6.0"))
   = [Some (unsupportedTarget spfxProjectUpgradeCommand "1.6.0")]
   /\ logged (run "1.4.1" (Some "1.6.0")) = [])
  /\ (callbacks (run "1.3.0" None) = [Some (unsupportedCurrent (JStr "1.3.0"))]
      /\ logged (run "1.3.0" None) = [])
  /\ (callbacks (run "1.5.0" (Some "1.4.1")) = [Some downgradeRejected]
      /\ logged (run "1.5.0" (Some "1.4.1")) = [])
  /\ (callbacks (run "1.5.0" None) = [Some alreadyUpToDate]
      /\ logged (run "1.5.0" None) = []).
Proof.
  intros run.
  assert (Hroot : forall version,
    exists t0, getProjectRoot (Sample.host version Sample.workingDirectory)
                 (cwd (Sample.host version Sample.workingDirectory))
               = (t0, Some (Some Sample.root))).
  { intros version. eexists. vm_compute. reflexivity. }
  split; [|split; [|split]].
  - destruct (Hroot "1.4.1") as (t0 & H0).
    apply (proj1 (@planner_rejects_invalid_requests _ spfxProjectUpgradeCommand
                    (mkOptions (Some "1.6.0") None) _ _ H0)).
    simpl. intros [H | [H | []]]; discriminate.
  - destruct (Hroot "1.3.0") as (t0 & H0).
    assert (exists t1,
      getProjectVersion (Sample.host "1.3.0" Sample.workingDirectory) Sample.root
      = (t1, Some (Some (JStr "1.3.0")))) as (t1 & H1)
      by (eexists; vm_compute; reflexivity).
    refine (proj1 (proj2 (@planner_rejects_invalid_requests _ spfxProjectUpgradeCommand
                           (mkOptions None None) _ _ H0) "1.3.0" t1 _ H1 _) _).
    + simpl. tauto.
    + discriminate.
    + simpl. intros [H | [H | []]]; discriminate.
  - destruct (Hroot "1.5.0") as (t0 & H0).
    assert (exists t1,
      getProjectVersion (Sample.host "1.5.0" Sample.workingDirectory) Sample.root
      = (t1, Some (Some (JStr "1.5.0")))) as (t1 & H1)
      by (eexists; vm_compute; reflexivity).
    refine (proj1 (proj2 (proj2 (@planner_rejects_invalid_requests _
                     spfxProjectUpgradeCommand (mkOptions (Some "1.4.1") None) _ _ H0)
                     "1.5.0" t1 _ H1 _)) _).
    + simpl. tauto.
    + discriminate.
    + vm_compute. reflexivity.
  - destruct (Hroot "1.5.0") as (t0 & H0).
    assert (exists t1,
      getProjectVersion (Sample.host "1.5.0" Sample.workingDirectory) Sample.root
      = (t1, Some (Some (JStr "1.5.0")))) as (t1 & H1)
      by (eexists; vm_compute; reflexivity).
    refine (proj2 (proj2 (proj2 (@planner_rejects_invalid_requests _
                     spfxProjectUpgradeCommand (mkOptions None None) _ _ H0)
                     "1.5.0" t1 _ H1 _)) _).
    + simpl. tauto.
    + discriminate.
    + vm_compute. reflexivity.
Defined.

(** ** Applying the rules *)

(** Whatever the loader and the rules do, the callback of the loop returns:
    a failure is handed to [cb] and the loop goes on. *)
Lemma applyRules_run (h : Host) (project : Project) (findings : list Finding)
  (v : string) :
  exists (t : list Effect) (found : list Finding),
    applyRules h project findings v = (t, Some found)
    /\ required t = [upgradeModule v]
    /\ logged t = [] /\ fsCalls t = []
    /\ Forall leavesFilesAlone t
    /\ (callbacks t = []
        \/ exists e, callbacks t = [Some (mkCommandError e)]).
Proof.
  unfold applyRules, cb, emit, ret.
  destruct (load h (upgradeModule v)) as [rules|e]; cbn [bind app].
  - destruct (thrown (visitAll project rules findings)) as [e|]; cbn [bind app];
      eexists; eexists; (split; [reflexivity|]);
      (split; [reflexivity|]); (split; [reflexivity|]); (split; [reflexivity|]);
      (split; [repeat constructor|]); simpl; eauto.
  - eexists; eexists. split; [reflexivity|].
    repeat (split; [reflexivity|]). split; [repeat constructor|]. simpl. eauto.
Qed.

Lemma applyRules_forEach_run (h : Host) (project : Project) (versions : list string)
  (findings : list Finding) :
  exists (t : list Effect) (found : list Finding),
    forEach (applyRules h project) versions findings = (t, Some found)
    /\ required t = map upgradeModule versions
    /\ logged t = [] /\ fsCalls t = []
    /\ Forall leavesFilesAlone t
    /\ Forall (fun err => err <> None) (callbacks t).
Proof.
  revert findings. induction versions as [|v versions IH]; intros findings; simpl.
  - exists [], findings. repeat split; constructor.
  - destruct (applyRules_run h project findings v)
      as (t1 & found1 & Hrun1 & Hreq1 & Hlog1 & Hfs1 & Hleave1 & Hcb1).
    destruct (IH found1) as (t2 & found2 & Hrun2 & Hreq2 & Hlog2 & Hfs2 & Hleave2 & Hcb2).
    rewrite Hrun1, bind_returned, Hrun2. simpl.
    exists (t1 ++ t2)%list, found2. split; [reflexivity|].
    rewrite required_app, logged_app, fsCalls_app, callbacks_app.
    rewrite Hreq1, Hlog1, Hfs1, Hreq2, Hlog2, Hfs2.
    repeat split.
    + apply Forall_app. split; assumption.
    + apply Forall_app. split; [|assumption].
      destruct Hcb1 as [-> | (e & ->)]; repeat constructor. discriminate.
Qed.

(** A rule module that fails to load does not end the loop: the modules of
    the versions that follow are still required. *)
Lemma applyRules_goes_on_after_failure (h : Host) (project : Project)
  (v : string) (versions : list string) (findings : list Finding) (e : string) :
  load h (upgradeModule v) = Thrown e ->
  forEach (applyRules h project) (v :: versions) findings
  = ((Require (upgradeModule v) :: Cb (Some (mkCommandError e))
        :: effects (forEach (applyRules h project) versions findings))%list,
     result (forEach (applyRules h project) versions findings)).
Proof.
  intros Hload. simpl. unfold applyRules at 1. rewrite Hload.
  unfold cb, emit, ret. cbn [bind app].
  destruct (forEach (applyRules h project) versions findings). reflexivity.
Qed.

Lemma report_run (h : Host) (root : Path) (target : string) (args : Options)
  (findings : list Finding) :
  Forall leavesFilesAlone (effects (report h root target args findings))
  /\ callbacks (effects (report h root target args findings)) = []
  /\ required (effects (report h root target args findings)) = [].
Proof.
  unfold report, log, emit, escape.
  destruct (outputIs args "json"); [repeat split; repeat constructor|].
  destruct (outputIs args "md"); [|repeat split; repeat constructor].
  destruct (getMdReport h root target findings); repeat split; repeat constructor.
Qed.

(** ** C6: the files are left alone *)

Lemma leaves_bind (A B : Type) (m : M A) (k : A -> M B) :
  Forall leavesFilesAlone (effects m) ->
  (forall a, Forall leavesFilesAlone (effects (k a))) ->
  Forall leavesFilesAlone (effects (bind m k)).
Proof.
  intros Hm Hk. rewrite effects_bind.
  destruct (result m) as [a|]; [|exact Hm].
  apply Forall_app. split; [exact Hm | apply Hk].
Qed.

Lemma leaves_getProjectRoot (h : Host) (p : Path) :
  Forall leavesFilesAlone (effects (getProjectRoot h p)).
Proof.
  destruct (getProjectRoot_run h p) as (t & answer & Hrun & Hprobes).
  rewrite Hrun. apply probesOnly_leavesFilesAlone. exact Hprobes.
Qed.

Lemma leaves_getProjectVersion (h : Host) (root : Path) :
  Forall leavesFilesAlone (effects (getProjectVersion h root)).
Proof.
  destruct (getProjectVersion_run h root) as (t & version & Hrun & Hprobes).
  rewrite Hrun. apply probesOnly_leavesFilesAlone. exact Hprobes.
Qed.

Lemma leaves_getProject (h : Host) (root : Path) :
  Forall leavesFilesAlone (effects (getProject h root)).
Proof.
  destruct (getProject_run h root) as (t & Hprobes & Hrun).
  destruct (filesBelow h (resolve root ["src"])); rewrite Hrun;
    apply probesOnly_leavesFilesAlone; exact Hprobes.
Qed.

Lemma leaves_applyRules (h : Host) (project : Project) (versions : list string)
  (findings : list Finding) :
  Forall leavesFilesAlone (effects (forEach (applyRules h project) versions findings)).
Proof.
  destruct (applyRules_forEach_run h project versions findings)
    as (t & found & Hrun & _ & _ & _ & Hleaves & _).
  rewrite Hrun. exact Hleaves.
Qed.

Lemma leaves_emit (e : Effect) (c : Command) :
  leavesFilesAlone e -> Forall leavesFilesAlone (effects (bind (emit e) (fun _ => ret c))).
Proof. intros He. repeat constructor. exact He. Qed.

Lemma commandAction_leaves_files (h : Host) (c : Command) (args : Options) :
  Forall leavesFilesAlone (effects (commandAction h c args)).
Proof.
  unfold commandAction.
  apply leaves_bind; [apply leaves_getProjectRoot|].
  intros [root|]; [|apply leaves_emit; exact I].
  destruct (_ <? 0); [apply leaves_emit; exact I|].
  apply leaves_bind; [apply leaves_getProjectVersion|].
  intros [projectVersion|]; [|apply leaves_emit; exact I].
  destruct (negb _); [apply leaves_emit; exact I|].
  destruct (_ <? 0); [apply leaves_emit; exact I|].
  destruct (_ >? _); [apply leaves_emit; exact I|].
  destruct (_ =? _); [apply leaves_emit; exact I|].
  apply leaves_bind; [destruct (verbose c); repeat constructor|]. intros _.
  apply leaves_bind; [apply leaves_getProject|]. intros project.
  apply leaves_bind; [destruct (debug c); repeat constructor|]. intros _.
  apply leaves_bind; [apply leaves_applyRules|]. intros found.
  apply leaves_bind; [apply report_run|]. intros _.
  repeat constructor.
Qed.

(** C6. In every run of the command, on every host and with every option,
    each call on the file system is an existence check or a read; the other
    effects of the run are the walk of [src], the loading of rule modules,
    entries of the output log (the report among them) and calls of the
    callback. *)
Theorem commandAction_never_writes (h : Host) (c : Command) (args : Options) :
  Forall leavesFilesAlone (effects (commandAction h c args))
  /\ noFsWrite (effects (commandAction h c args)).
Proof.
  split; [apply commandAction_leaves_files|].
  unfold noFsWrite.
  induction (commandAction_leaves_files h c args) as [|e t He _ IH]; simpl;
    [constructor|].
  destruct e; simpl; auto.
Qed.

(** ** Runs the planner accepts *)

(** The effects of a run whose request passes the planner and whose walk of
    [src] returns: root search, version probe, project reading, one pass of
    rule modules over [versionsToUpgradeTo], the report, the callback. *)
Lemma commandAction_accepted (h : Host) (c : Command) (args : Options)
  (root : Path) (t0 t1 : list Effect) (v : Json) (files : list Path) :
  getProjectRoot h (cwd h) = (t0, Some (Some root)) ->
  getProjectVersion h root = (t1, Some (Some v)) ->
  truthy v = true ->
  0 <= indexOfValue (supportedVersions c) v
    < indexOf (supportedVersions c) (requestedVersion c args) ->
  filesBelow h (resolve root ["src"]) = Returned files ->
  exists (project : Project) (tp tr : list Effect) (found : list Finding),
    probesOnly (t0 ++ t1) /\ probesOnly tp
    /\ getProject h root = (tp, Some project)
    /\ forEach (applyRules h project)
         (versionsToUpgradeTo c (indexOfValue (supportedVersions c) v)) (allFindings c)
       = (tr, Some found)
    /\ effects (commandAction h c args)
       = ((t0 ++ t1)
          ++ (if verbose c then [Log (Text "Collecting project...")] else [])
          ++ tp
          ++ (if debug c then [Log (Text "Collected project"); Log (ProjectDump project)]
              else [])
          ++ tr
          ++ effects (report h root (requestedVersion c args) args (dedupe found))
          ++ match result (report h root (requestedVersion c args) args (dedupe found)) with
             | Some _ => [Cb None]
             | None => []
             end)%list.
Proof.
  intros Hroot Hversion Htruthy [Hpos Hbefore] Hfiles.
  assert (Hprobes0 : probesOnly t0).
  { destruct (getProjectRoot_run h (cwd h)) as (t0' & answer & Hrun & Hprobes).
    rewrite Hroot in Hrun. inversion Hrun; subst. exact Hprobes. }
  assert (Hprobes1 : probesOnly t1).
  { destruct (getProjectVersion_run h root) as (t1' & v' & Hrun & Hprobes).
    rewrite Hversion in Hrun. inversion Hrun; subst. exact Hprobes. }
  destruct (getProject_run h root) as (tp & Hprobesp & Hproject).
  rewrite Hfiles in Hproject.
  match type of Hproject with _ = (_, Some ?p) => set (project := p) in * end.
  destruct (applyRules_forEach_run h project
              (versionsToUpgradeTo c (indexOfValue (supportedVersions c) v))
              (allFindings c)) as (tr & found & Hrules & _).
  exists project, tp, tr, found.
  split; [apply probesOnly_app; assumption|]. split; [exact Hprobesp|].
  split; [exact Hproject|]. split; [exact Hrules|].
  unfold commandAction. rewrite Hroot. run_step.
  assert (Htarget : (indexOf (supportedVersions c) (requestedVersion c args) <? 0) = false)
    by (apply Z.ltb_ge; lia).
  rewrite Htarget, Hversion. run_step. rewrite Htruthy. cbn [negb].
  assert (H1 : (indexOfValue (supportedVersions c) v <? 0) = false)
    by (apply Z.ltb_ge; lia).
  assert (H2 : (indexOfValue (supportedVersions c) v
                >? indexOf (supportedVersions c) (requestedVersion c args)) = false)
    by (rewrite Z.gtb_ltb; apply Z.ltb_ge; lia).
  assert (H3 : (indexOfValue (supportedVersions c) v
                =? indexOf (supportedVersions c) (requestedVersion c args)) = false)
    by (apply Z.eqb_neq; lia).
  rewrite H1, H2, H3.
  assert (Hverbose : forall b : bool,
    (if b then log (Text "Collecting project...") else ret tt)
    = ((if b then [Log (Text "Collecting project...")] else []), Some tt))
    by (intros []; reflexivity).
  assert (Hdebug : forall b : bool,
    (if b then bind (log (Text "Collected project")) (fun _ => log (ProjectDump project))
     else ret tt)
    = ((if b then [Log (Text "Collected project"); Log (ProjectDump project)] else []),
       Some tt))
    by (intros []; reflexivity).
  rewrite Hverbose, bind_returned, Hproject, bind_returned, Hdebug, bind_returned,
    Hrules, bind_returned.
  cbn [effects result fst snd].
  destruct (report h root (requestedVersion c args) args (dedupe found)) as [tl [[]|]];
    cbn [effects result fst snd cb emit ret bind app];
    rewrite <- ?app_assoc, ?app_nil_r; reflexivity.
Qed.

(** ** C1: the versions to upgrade to *)



Lemma indexOf_nth (l : list string) (x : string) :
  In x l -> nth_error l (Z.to_nat (indexOf l x)) = Some x.
Proof.
  intros Hin. unfold indexOf, findIndex.
  destruct (findIndexFrom_spec (String.eqb x) l 0)
    as [[_ Hall] | (n & y & Hidx & Hnth & Hy & _)].
  - specialize (Hall x Hin). rewrite String.eqb_refl in Hall. discriminate.
  - simpl in Hidx. rewrite Hidx, Nat2Z.id, Hnth.
    apply String.eqb_eq in Hy. subst y. reflexivity.
Qed.




(** ** C3: a rule module that cannot be loaded *)

(** A run the planner accepts ends with the report and with [cb()] whatever
    the loader and the rules did: the errors handed to the callback on the
    way stop nothing. (The md report aside, which has its own way out.) *)
Lemma accepted_run_always_reports (h : Host) (c : Command) (args : Options)
  (root : Path) (t0 t1 : list Effect) (v : Json) (files : list Path) :
  getProjectRoot h (cwd h) = (t0, Some (Some root)) ->
  getProjectVersion h root = (t1, Some (Some v)) ->
  truthy v = true ->
  0 <= indexOfValue (supportedVersions c) v
    < indexOf (supportedVersions c) (requestedVersion c args) ->
  filesBelow h (resolve root ["src"]) = Returned files ->
  outputIs args "md" = false ->
  exists (errors : list (option CommandError)) (entries : list Output)
         (found : list Finding),
    callbacks (effects (commandAction h c args)) = (errors ++ [None])%list
    /\ Forall (fun err => err <> None) errors
    /\ logged (effects (commandAction h c args))
       = (entries
          ++ [if outputIs args "json" then Findings (dedupe found)
              else Summary (map (fun f => (id f, resolution f)) (dedupe found))])%list.
Proof.
  intros Hroot Hversion Htruthy Hpos Hfiles Hmd.
  destruct (@commandAction_accepted h c args root t0 t1 v files
              Hroot Hversion Htruthy Hpos Hfiles)
    as (project & tp & tr & found & Hprobes01 & Hprobesp & _ & Hrules & ->).
  destruct (applyRules_forEach_run h project
              (versionsToUpgradeTo c (indexOfValue (supportedVersions c) v))
              (allFindings c)) as (tr' & found' & Hrules' & _ & Hlogr & _ & _ & Herrors).
  rewrite Hrules in Hrules'. inversion Hrules'; subst tr' found'.
  destruct (probesOnly_silent Hprobes01) as (Hcb01 & Hlog01 & _).
  destruct (probesOnly_silent Hprobesp) as (Hcbp & Hlogp & _).
  exists (callbacks tr),
    ((if verbose c then [Text "Collecting project..."] else [])
     ++ (if debug c then [Text "Collected project"; ProjectDump project] else []))%list,
    found.
  assert (Hreport :
    report h root (requestedVersion c args) args (dedupe found)
    = ([Log (if outputIs args "json" then Findings (dedupe found)
             else Summary (map (fun f => (id f, resolution f)) (dedupe found)))],
       Some tt)).
  { unfold report. rewrite Hmd. destruct (outputIs args "json"); reflexivity. }
  rewrite Hreport. cbn [effects result fst snd].
  rewrite (callbacks_app (t0 ++ t1)), (logged_app (t0 ++ t1)), Hcb01, Hlog01.
  rewrite !callbacks_app, !logged_app, Hcbp, Hlogp, Hlogr.
  split; [|split].
  - destruct (verbose c), (debug c); simpl; rewrite ?app_nil_r; reflexivity.
  - exact Herrors.
  - destruct (verbose c), (debug c); simpl; reflexivity.
Qed.

(** C3 (what the command does). The sample project on a host where the rule
    module of 1.5.0 cannot be loaded: the callback receives the error, and
    the run goes on to log a report (the empty summary) and to call the
    callback a second time, without error. *)
Theorem missing_rule_module_does_not_abort :
  let t := effects (commandAction (Sample.hostWithoutRules Sample.workingDirectory)
                      spfxProjectUpgradeCommand (mkOptions None None)) in
  callbacks t
  = [Some (mkCommandError "Cannot find module './project-upgrade/upgrade-1.5.0'"); None]
  /\ logged t = [Summary []].
Proof. vm_compute. split; reflexivity. Qed.

(** ** C8: the summary *)

(** C8. When the output option is neither json nor md (absent, text, or
    anything else), the report logs one record per finding, made of its id
    and its resolution, in the order of the findings, and returns; for no
    finding it logs the empty list. *)
Theorem summary_is_the_default_report (h : Host) (root : Path) (target : string)
  (args : Options) (findings : list Finding) :
  output args <> Some "json" ->
  output args <> Some "md" ->
  report h root target args findings
  = ([Log (Summary (map (fun f => (id f, resolution f)) findings))], Some tt)
  /\ report h root target args [] = ([Log (Summary [])], Some tt).
Proof.
  intros Hjson Hmd.
  assert (H1 : outputIs args "json" = false).
  { unfold outputIs. destruct (output args) as [chosen|]; [|reflexivity].
    apply String.eqb_neq. congruence. }
  assert (H2 : outputIs args "md" = false).
  { unfold outputIs. destruct (output args) as [chosen|]; [|reflexivity].
    apply String.eqb_neq. congruence. }
  unfold report. rewrite H1, H2. split; reflexivity.
Qed.

(** The findings of the sample rules, deduplicated, with the output option
    text. *)
Lemma summary_is_the_default_report_witness :
  report (Sample.host "1.4.1" Sample.workingDirectory) Sample.root "1.5.0"
    (mkOptions None (Some "text"))
    (dedupe [Sample.command1; Sample.edit1; Sample.command1Again; Sample.edit2])
  = ([Log (Summary [("FN001001", "npm i @microsoft/sp-core-library@1.5.0 -SE");
                    ("FN010001", "{ version: 1.5.0 }");
                    ("FN012001", "{ include: [src] }")])], Some tt).
Proof.
  refine (proj1 (@summary_is_the_default_report
                   (Sample.host "1.4.1" Sample.workingDirectory) Sample.root "1.5.0"
                   (mkOptions None (Some "text"))
                   (dedupe [Sample.command1; Sample.edit1; Sample.command1Again;
                            Sample.edit2]) _ _));
    simpl; discriminate.
Defined.

(** ** Arrays used as dictionaries *)

Section Dictionaries.
Context {V : Type}.

Lemma assoc_setOwn_same (k : string) (v : V) (o : JsObject V) :
  assoc k (setOwn k v o) = Some v.
Proof.
  induction o as [|[k' v'] o IH]; simpl.
  - rewrite String.eqb_refl. reflexivity.
  - destruct (String.eqb k' k) eqn:Hk; simpl; rewrite Hk; auto.
Qed.

Lemma assoc_setOwn_other (k k' : string) (v : V) (o : JsObject V) :
  k <> k' -> assoc k' (setOwn k v o) = assoc k' o.
Proof.
  intros Hneq. induction o as [|[k0 v0] o IH]; simpl.
  - apply String.eqb_neq in Hneq. rewrite Hneq. reflexivity.
  - destruct (String.eqb k0 k) eqn:Hk; simpl.
    + apply String.eqb_eq in Hk. subst k0.
      apply String.eqb_neq in Hneq. rewrite Hneq. reflexivity.
    + destruct (String.eqb k0 k'); auto.
Qed.

Lemma assoc_mem (k : string) (o : JsObject V) :
  mem k (map fst o) = match assoc k o with Some _ => true | None => false end.
Proof.
  induction o as [|[k' v'] o IH]; simpl; [reflexivity|].
  rewrite String.eqb_sym. destruct (String.eqb k' k); simpl; auto.
Qed.

Lemma names_setOwn (k : string) (v : V) (o : JsObject V) :
  map fst (setOwn k v o)
  = if mem k (map fst o) then map fst o else (map fst o ++ [k])%list.
Proof.
  induction o as [|[k' v'] o IH]; simpl; [reflexivity|].
  rewrite (String.eqb_sym k k'). destruct (String.eqb k' k); simpl; [reflexivity|].
  rewrite IH. destruct (mem k (map fst o)); reflexivity.
Qed.
End Dictionaries.

Lemma firstAppearances_seen (seen seen' l : list string) :
  (forall x, mem x seen = mem x seen') ->
  firstAppearances seen l = firstAppearances seen' l.
Proof.
  revert seen seen'. induction l as [|x l IH]; intros seen seen' Hsame; simpl;
    [reflexivity|].
  rewrite <- Hsame. destruct (mem x seen); [apply IH; exact Hsame|].
  f_equal. apply IH. intros y. simpl. rewrite Hsame. reflexivity.
Qed.

Lemma mem_snoc (x y : string) (l : list string) :
  mem x (l ++ [y]) = mem x (y :: l).
Proof.
  unfold mem. rewrite existsb_app. simpl.
  destruct (existsb (String.eqb x) l), (String.eqb x y); reflexivity.
Qed.

(** ** The collected state of getMdReport *)

Lemma editsOf_cons (k : string) (f : Finding) (l : list Finding) :
  editsOf k (f :: l)
  = if isEdit f && String.eqb (file f) k then f :: editsOf k l else editsOf k l.
Proof.
  unfold editsOf, edits. simpl.
  destruct (isEdit f); simpl; [|reflexivity].
  destruct (String.eqb (file f) k); reflexivity.
Qed.

(** One finding: a command goes to the script, an edit to the entries of its
    file. *)
Lemma reportFinding_step (h : Host) (st : MdState) (f : Finding) :
  (isEdit f = true -> arrayMember h (file f) = false) ->
  exists st',
    reportFinding h st f = Some st'
    /\ commandsToExecute st'
       = (commandsToExecute st ++ (if isCommand f then [resolution f] else []))%list
    /\ map fst (modificationPerFile st')
       = (if isEdit f && negb (mem (file f) (map fst (modificationPerFile st)))
          then (map fst (modificationPerFile st) ++ [file f])%list
          else map fst (modificationPerFile st))
    /\ (forall k,
          assoc k (modificationPerFile st')
          = if isEdit f && String.eqb (file f) k
            then pushed (assoc k (modificationPerFile st)) f
            else assoc k (modificationPerFile st))
    /\ (forall k,
          assoc k (modificationTypePerFile st')
          = if isEdit f && String.eqb (file f) k
            then tagged (assoc k (modificationTypePerFile st)) f
            else assoc k (modificationTypePerFile st)).
Proof.
  intros Hplain. unfold reportFinding, isEdit, isCommand in *.
  destruct (String.eqb (resolutionType f) "cmd"); simpl in *.
  - eexists. split; [reflexivity|]. simpl. repeat split; reflexivity.
  - rewrite (Hplain eq_refl). eexists. split; [reflexivity|]. simpl.
    split; [rewrite app_nil_r; reflexivity|].
    split; [|split].
    + rewrite names_setOwn.
      rewrite (assoc_mem (file f) (modificationPerFile st)).
      destruct (assoc (file f) (modificationPerFile st)) as [ms|] eqn:Hentry; simpl.
      * rewrite (assoc_mem (file f) (modificationPerFile st)), Hentry. reflexivity.
      * rewrite names_setOwn, (assoc_mem (file f) (modificationPerFile st)), Hentry.
        rewrite mem_snoc. simpl. rewrite String.eqb_refl. reflexivity.
    + intros k. destruct (String.eqb (file f) k) eqn:Hk.
      * apply String.eqb_eq in Hk. subst k. rewrite assoc_setOwn_same.
        destruct (assoc (file f) (modificationPerFile st)) as [ms|] eqn:Hentry; simpl.
        -- rewrite Hentry. reflexivity.
        -- rewrite assoc_setOwn_same. reflexivity.
      * apply String.eqb_neq in Hk. rewrite (assoc_setOwn_other _ _ Hk).
        destruct (assoc (file f) (modificationPerFile st));
          [reflexivity | apply assoc_setOwn_other; exact Hk].
    + intros k. destruct (String.eqb (file f) k) eqn:Hk.
      * apply String.eqb_eq in Hk. subst k. unfold tagged.
        destruct (assoc (file f) (modificationTypePerFile st)) as [t|] eqn:Hentry.
        -- destruct (String.eqb t ""); [apply assoc_setOwn_same | exact Hentry].
        -- apply assoc_setOwn_same.
      * apply String.eqb_neq in Hk.
        destruct (assoc (file f) (modificationTypePerFile st)) as [t|];
          [destruct (String.eqb t "")|]; try reflexivity;
          apply assoc_setOwn_other; exact Hk.
Qed.

Lemma reportFindings_run (h : Host) (findings : list Finding) (st : MdState) :
  (forall f, In f (edits findings) -> arrayMember h (file f) = false) ->
  exists st',
    reportFindings h st findings = Some st'
    /\ commandsToExecute st'
       = (commandsToExecute st ++ map resolution (filter isCommand findings))%list
    /\ map fst (modificationPerFile st')
       = (map fst (modificationPerFile st)
          ++ firstAppearances (map fst (modificationPerFile st))
               (map file (edits findings)))%list
    /\ (forall k,
          assoc k (modificationPerFile st')
          = fold_left pushed (editsOf k findings) (assoc k (modificationPerFile st)))
    /\ (forall k,
          assoc k (modificationTypePerFile st')
          = fold_left tagged (editsOf k findings) (assoc k (modificationTypePerFile st))).
Proof.
  revert st. induction findings as [|f findings IH]; intros st Hplain.
  - exists st. simpl. rewrite !app_nil_r. repeat split; reflexivity.
  - destruct (@reportFinding_step h st f) as (st1 & Hstep & Hcmd1 & Hnames1 & Hper1 & Htype1).
    { intros Hedit. apply Hplain. unfold edits. simpl. rewrite Hedit. left. reflexivity. }
    destruct (IH st1) as (st' & Hrun & Hcmd & Hnames & Hper & Htype).
    { intros g Hg. apply Hplain. unfold edits in *. simpl.
      destruct (isEdit f); [right|]; exact Hg. }
    exists st'. simpl. rewrite Hstep. split; [exact Hrun|].
    split; [|split; [|split]].
    + rewrite Hcmd, Hcmd1. destruct (isCommand f); simpl; rewrite <- app_assoc; reflexivity.
    + rewrite Hnames, Hnames1. unfold edits. simpl.
      destruct (isEdit f); simpl; [|reflexivity].
      destruct (mem (file f) (map fst (modificationPerFile st))) eqn:Hseen; simpl;
        [reflexivity|].
      rewrite <- app_assoc. simpl. do 2 f_equal.
      apply firstAppearances_seen. intros x. apply mem_snoc.
    + intros k. rewrite Hper, Hper1, editsOf_cons.
      destruct (isEdit f && String.eqb (file f) k); reflexivity.
    + intros k. rewrite Htype, Htype1, editsOf_cons.
      destruct (isEdit f && String.eqb (file f) k); reflexivity.
Qed.

Lemma pushed_all (es : list Finding) (entry : option (list string)) :
  fold_left pushed es entry
  = match es, entry with
    | [], _ => entry
    | _, Some ms => Some (ms ++ map resolution es)%list
    | _, None => Some (map resolution es)
    end.
Proof.
  revert entry. induction es as [|f es IH]; intros entry; [reflexivity|].
  simpl. rewrite IH. destruct es as [|g es], entry as [ms|]; simpl;
    rewrite <- ?app_assoc; reflexivity.
Qed.

Lemma firstNonEmptyType_cons (f : Finding) (es : list Finding) :
  firstNonEmptyType (f :: es)
  = if String.eqb (resolutionType f) "" then firstNonEmptyType es else resolutionType f.
Proof.
  unfold firstNonEmptyType. simpl.
  destruct (String.eqb (resolutionType f) ""); reflexivity.
Qed.

Lemma tagged_all (es : list Finding) (entry : option string) :
  fold_left tagged es entry
  = match es, entry with
    | [], _ => entry
    | _, Some t => Some (if String.eqb t "" then firstNonEmptyType es else t)
    | _, None => Some (firstNonEmptyType es)
    end.
Proof.
  revert entry. induction es as [|f es IH]; intros entry; [reflexivity|].
  cbn [fold_left]. rewrite IH, firstNonEmptyType_cons.
  destruct es as [|g es].
  - change (firstNonEmptyType []) with "".
    destruct entry as [t|]; simpl; [destruct (String.eqb t "")|];
      try reflexivity;
      destruct (String.eqb (resolutionType f) "") eqn:Hf; try reflexivity;
      apply String.eqb_eq in Hf; rewrite Hf; reflexivity.
  - generalize (firstNonEmptyType (g :: es)). intros later.
    destruct entry as [t|]; simpl; [destruct (String.eqb t "") eqn:Ht|];
      rewrite ?Ht; reflexivity.
Qed.

Lemma In_insertIndex (k x : string) (l : list string) :
  In x (insertIndex k l) <-> x = k \/ In x l.
Proof.
  induction l as [|k' l IH]; simpl; [intuition|].
  destruct (digitsValue 0 k <=? digitsValue 0 k')%N; simpl; [intuition|].
  rewrite IH. intuition.
Qed.

Lemma In_sortIndices (x : string) (l : list string) : In x (sortIndices l) <-> In x l.
Proof.
  induction l as [|k l IH]; simpl; [tauto|].
  rewrite In_insertIndex, IH. intuition.
Qed.

Lemma In_keys (V : Type) (k : string) (o : JsObject V) :
  In k (keys o) <-> In k (map fst o).
Proof.
  unfold keys. rewrite in_app_iff, In_sortIndices, !filter_In.
  destruct (isArrayIndex k); simpl; intuition congruence.
Qed.

(** Without array indices among the names, [Object.keys] is the creation
    order. *)
Lemma keys_without_indices (V : Type) (o : JsObject V) :
  (forall k, In k (map fst o) -> isArrayIndex k = false) ->
  keys o = map fst o.
Proof.
  intros Hplain. unfold keys.
  induction (map fst o) as [|k names IH]; [reflexivity|].
  simpl. rewrite (Hplain k (or_introl eq_refl)). simpl.
  simpl in IH. rewrite <- IH at 3 by (intros k' Hk'; apply Hplain; right; exact Hk').
  assert (Hnone : filter isArrayIndex names = []).
  { clear IH. induction names as [|k' names IH']; [reflexivity|].
    simpl. rewrite (Hplain k' (or_intror (or_introl eq_refl))).
    apply IH'. intros k0 [<- | Hk0]; apply Hplain; simpl; auto. }
  rewrite Hnone. reflexivity.
Qed.

Lemma In_firstAppearances (x : string) (l seen : list string) :
  In x (firstAppearances seen l) <-> In x l /\ mem x seen = false.
Proof.
  revert seen. induction l as [|y l IH]; intros seen; cbn [firstAppearances In];
    [tauto|].
  destruct (mem y seen) eqn:Hy.
  - rewrite IH. split; [tauto|].
    intros [[Heq | Hin] Hseen]; [subst; congruence | tauto].
  - cbn [In]. rewrite IH.
    change (mem x (y :: seen)) with (String.eqb x y || mem x seen).
    destruct (String.eqb x y) eqn:Hxy.
    + apply String.eqb_eq in Hxy. subst y. cbn [orb]. split.
      * intros [_ | [_ Hfalse]]; [auto | discriminate].
      * intros _. left. reflexivity.
    + apply String.eqb_neq in Hxy. cbn [orb]. split.
      * intros [Heq | Hin]; [subst; contradiction Hxy; reflexivity | tauto].
      * intros [[Heq | Hin] Hseen]; [subst; contradiction Hxy; reflexivity | tauto].
Qed.

(** No name is listed twice. *)
Lemma firstAppearances_NoDup (l seen : list string) : NoDup (firstAppearances seen l).
Proof.
  revert seen. induction l as [|x l IH]; intros seen; cbn [firstAppearances];
    [constructor|].
  destruct (mem x seen); [apply IH|].
  constructor; [|apply IH].
  intros Hin. apply In_firstAppearances in Hin. destruct Hin as [_ Hseen].
  change (mem x (x :: seen)) with (String.eqb x x || mem x seen) in Hseen.
  rewrite String.eqb_refl in Hseen. discriminate.
Qed.

Lemma In_editsOf (k : string) (f : Finding) (findings : list Finding) :
  In f (editsOf k findings) <-> In f findings /\ isEdit f = true /\ file f = k.
Proof.
  unfold editsOf, edits. rewrite !filter_In, String.eqb_eq. tauto.
Qed.

(** What the "Modify files" section holds once all findings are collected:
    one entry for each file of an edit, with the resolutions of the edits of
    that file, in their order, and with the first resolution type among them
    that is not empty. *)
Lemma modifiedFiles_run (h : Host) (findings : list Finding) :
  (forall f, In f (edits findings) -> arrayMember h (file f) = false) ->
  exists st,
    reportFindings h nothingReported findings = Some st
    /\ commandsToExecute st = map resolution (filter isCommand findings)
    /\ map fst (modificationPerFile st)
       = firstAppearances [] (map file (edits findings))
    /\ modifiedFiles st
       = map (fun name => (name, (firstNonEmptyType (editsOf name findings),
                                  map resolution (editsOf name findings))))
             (keys (modificationPerFile st)).
Proof.
  intros Hplain.
  destruct (@reportFindings_run h findings nothingReported Hplain)
    as (st & Hrun & Hcmd & Hnames & Hper & Htype).
  exists st. split; [exact Hrun|]. split; [exact Hcmd|]. split; [exact Hnames|].
  unfold modifiedFiles. apply map_ext_in. intros name Hname.
  apply In_keys in Hname. rewrite Hnames in Hname. simpl in Hname.
  apply In_firstAppearances in Hname. destruct Hname as [Hname _].
  apply in_map_iff in Hname. destruct Hname as (f & Hfile & Hf).
  assert (Hsome : In f (editsOf name findings)).
  { unfold edits in Hf. apply filter_In in Hf. apply In_editsOf. tauto. }
  unfold modifiedFile. rewrite Hper, Htype, pushed_all, tagged_all. simpl.
  destruct (editsOf name findings); [contradiction | reflexivity].
Qed.

Lemma insertIndex_permutation (k : string) (l : list string) :
  Permutation (insertIndex k l) (k :: l).
Proof.
  induction l as [|k' l IH]; cbn [insertIndex]; [apply Permutation_refl|].
  destruct (digitsValue 0 k <=? digitsValue 0 k')%N; [apply Permutation_refl|].
  apply perm_trans with (k' :: k :: l); [apply perm_skip; exact IH | apply perm_swap].
Qed.

Lemma sortIndices_permutation (l : list string) : Permutation (sortIndices l) l.
Proof.
  induction l as [|k l IH]; cbn [sortIndices fold_right]; [apply perm_nil|].
  apply perm_trans with (k :: sortIndices l);
    [apply insertIndex_permutation | apply perm_skip; exact IH].
Qed.

Lemma filter_split_permutation (A : Type) (p : A -> bool) (l : list A) :
  Permutation (filter p l ++ filter (fun x => negb (p x)) l) l.
Proof.
  induction l as [|a l IH]; cbn [filter app]; [apply perm_nil|].
  destruct (p a); cbn [negb app].
  - apply perm_skip. exact IH.
  - apply Permutation_sym, Permutation_cons_app, Permutation_sym. exact IH.
Qed.

(** [Object.keys] lists every name once. *)
Lemma keys_permutation (V : Type) (o : JsObject V) : Permutation (keys o) (map fst o).
Proof.
  unfold keys.
  apply perm_trans with (filter isArrayIndex (map fst o)
                         ++ filter (fun k => negb (isArrayIndex k)) (map fst o))%list.
  - apply Permutation_app_tail, sortIndices_permutation.
  - apply filter_split_permutation.
Qed.

Lemma filter_none (A : Type) (p : A -> bool) (l : list A) :
  (forall x, In x l -> p x = false) -> filter p l = [].
Proof.
  induction l as [|a l IH]; intros Hnone; cbn [filter]; [reflexivity|].
  rewrite (Hnone a (or_introl eq_refl)). apply IH.
  intros x Hx. apply Hnone. right. exact Hx.
Qed.

Lemma filter_again (A : Type) (p : A -> bool) (l : list A) :
  filter p (filter p l) = filter p l.
Proof.
  induction l as [|a l IH]; cbn [filter]; [reflexivity|].
  destruct (p a) eqn:Hp; cbn [filter]; rewrite ?Hp, IH; reflexivity.
Qed.

(** Among the names that are no array indices, [Object.keys] keeps the
    creation order. *)
Lemma keys_plain (V : Type) (o : JsObject V) :
  filter (fun k => negb (isArrayIndex k)) (keys o)
  = filter (fun k => negb (isArrayIndex k)) (map fst o).
Proof.
  unfold keys. rewrite filter_app, filter_again, filter_none; [reflexivity|].
  intros k Hk. apply In_sortIndices, filter_In in Hk.
  destruct Hk as [_ Hk]. rewrite Hk. reflexivity.
Qed.

(** ** C7: order of the "Modify files" section *)

(** C7 (amended). For findings whose edits name no member of arrays, the md
    report is produced and its "Modify files" section lists each file of an
    edit once. The files whose names are no array indices come in the order
    of their first appearance among the edits (all the files do when none is
    named by an array index). The blocks of a file, whatever its name, are the
    resolutions of the edits of that file in the order of the findings. *)
Theorem modified_files_follow_first_appearance (h : Host) (root : Path)
  (target : string) (findings : list Finding) :
  (forall f, In f (edits findings) -> arrayMember h (file f) = false) ->
  let plain := fun name => negb (isArrayIndex name) in
  exists st,
    reportFindings h nothingReported findings = Some st
    /\ getMdReport h root target findings = Some (mdText h root target st)
    /\ NoDup (map fst (modifiedFiles st))
    /\ (forall name, In name (map fst (modifiedFiles st))
                     <-> In name (map file (edits findings)))
    /\ filter plain (map fst (modifiedFiles st))
       = filter plain (firstAppearances [] (map file (edits findings)))
    /\ ((forall f, In f (edits findings) -> isArrayIndex (file f) = false) ->
        map fst (modifiedFiles st) = firstAppearances [] (map file (edits findings)))
    /\ forall name tag blocks,
         In (name, (tag, blocks)) (modifiedFiles st) ->
         blocks = map resolution (editsOf name findings).
Proof.
  intros Hmembers plain.
  destruct (modifiedFiles_run h findings Hmembers)
    as (st & Hrun & _ & Hnames & Hfiles).
  assert (Hlisted : map fst (modifiedFiles st) = keys (modificationPerFile st))
    by (rewrite Hfiles, map_map; simpl; apply map_id).
  exists st. split; [exact Hrun|].
  split; [unfold getMdReport; rewrite Hrun; reflexivity|].
  split; [|split; [|split; [|split]]].
  - rewrite Hlisted.
    apply (Permutation_NoDup (Permutation_sym (keys_permutation (modificationPerFile st)))).
    rewrite Hnames. apply firstAppearances_NoDup.
  - intros name. rewrite Hlisted, In_keys, Hnames, In_firstAppearances.
    split; [tauto | intros Hin; split; [exact Hin | reflexivity]].
  - rewrite Hlisted. subst plain. rewrite keys_plain, Hnames. reflexivity.
  - intros Hindices. rewrite Hlisted.
    rewrite keys_without_indices; [exact Hnames|].
    intros k Hk. rewrite Hnames in Hk. apply In_firstAppearances in Hk.
    destruct Hk as [Hk _]. apply in_map_iff in Hk. destruct Hk as (f & <- & Hf).
    apply Hindices. exact Hf.
  - intros name tag blocks Hin. rewrite Hfiles in Hin.
    apply in_map_iff in Hin. destruct Hin as (name' & Heq & _).
    inversion Heq; subst. reflexivity.
Qed.

(** Edits of ./a, 7, ./b, 7 and ./a, in this order. *)
Lemma modified_files_follow_first_appearance_witness :
  exists st,
    reportFindings (Sample.host "1.4.1" Sample.workingDirectory) nothingReported
      Sample.mixed = Some st
    /\ filter (fun name => negb (isArrayIndex name)) (map fst (modifiedFiles st))
       = ["./a"; "./b"]
    /\ (forall tag blocks, In ("7", (tag, blocks)) (modifiedFiles st) ->
          blocks = ["second"; "fourth"])
    /\ (forall tag blocks, In ("./a", (tag, blocks)) (modifiedFiles st) ->
          blocks = ["first"; "fifth"]).
Proof.
  destruct (@modified_files_follow_first_appearance
              (Sample.host "1.4.1" Sample.workingDirectory) Sample.root "1.5.0"
              Sample.mixed)
    as (st & Hrun & _ & _ & _ & Hplain & _ & Hblocks).
  - intros f Hf. vm_compute in Hf.
    repeat (destruct Hf as [<- | Hf]; [reflexivity|]). destruct Hf.
  - exists st. split; [exact Hrun|]. split; [exact Hplain|].
    split; intros tag blocks Hin; exact (Hblocks _ _ _ Hin).
Defined.

(** C7 (as stated) fails for files named by numbers: the edit of file 1
    comes first among the findings, the section starts with file 0. *)
Lemma numeric_file_names_are_listed_first :
  exists st,
    reportFindings (Sample.host "1.4.1" Sample.workingDirectory) nothingReported
      Sample.numbered = Some st
    /\ map fst (modifiedFiles st) = ["0"; "1"]
    /\ firstAppearances [] (map file (edits Sample.numbered)) = ["1"; "0"]
    /\ map fst (modifiedFiles st)
       <> firstAppearances [] (map file (edits Sample.numbered)).
Proof.
  eexists. split; [vm_compute; reflexivity|].
  split; [reflexivity|]. split; [reflexivity|]. discriminate.
Qed.

(** ** C9: the tag of the fences, commands and edits *)

(** C9 (amended). For findings whose edits name no member of arrays, the md
    report is produced; its script holds the resolutions of the commands and
    nothing else; every finding that is not a command has its resolution
    among the blocks of its file in the "Modify files" section; and the
    blocks of a file are all tagged with the first resolution type, among the
    edits of that file, that is not the empty string (the empty string when
    there is none): this is the type of the first edit of the file whenever
    that type is not empty, whatever the types of the later ones. *)
Theorem fences_carry_first_nonempty_type (h : Host) (root : Path) (target : string)
  (findings : list Finding) :
  (forall f, In f (edits findings) -> arrayMember h (file f) = false) ->
  exists st,
    reportFindings h nothingReported findings = Some st
    /\ getMdReport h root target findings = Some (mdText h root target st)
    /\ commandsToExecute st = map resolution (filter isCommand findings)
    /\ (forall f, In f findings -> isEdit f = true ->
          exists tag blocks,
            In (file f, (tag, blocks)) (modifiedFiles st) /\ In (resolution f) blocks)
    /\ forall name tag blocks,
         In (name, (tag, blocks)) (modifiedFiles st) ->
         tag = firstNonEmptyType (editsOf name findings)
         /\ forall first later,
              editsOf name findings = first :: later ->
              resolutionType first <> "" ->
              tag = resolutionType first.
Proof.
  intros Hmembers.
  destruct (modifiedFiles_run h findings Hmembers)
    as (st & Hrun & Hcmd & Hnames & Hfiles).
  exists st. split; [exact Hrun|].
  split; [unfold getMdReport; rewrite Hrun; reflexivity|].
  split; [exact Hcmd|]. split.
  - intros f Hf Hedit.
    exists (firstNonEmptyType (editsOf (file f) findings)),
      (map resolution (editsOf (file f) findings)).
    split.
    + rewrite Hfiles. apply in_map_iff. exists (file f). split; [reflexivity|].
      apply In_keys. rewrite Hnames. apply In_firstAppearances. split; [|reflexivity].
      apply in_map. unfold edits. apply filter_In. split; assumption.
    + apply in_map. apply In_editsOf. auto.
  - intros name tag blocks Hin. rewrite Hfiles in Hin.
    apply in_map_iff in Hin. destruct Hin as (name' & Heq & _).
    inversion Heq; subst. split; [reflexivity|].
    intros first later Hfirst Htype. rewrite Hfirst, firstNonEmptyType_cons.
    apply String.eqb_neq in Htype. rewrite Htype. reflexivity.
Qed.

(** The four findings of the sample rules. *)
Lemma fences_carry_first_nonempty_type_witness :
  exists st,
    reportFindings (Sample.host "1.4.1" Sample.workingDirectory) nothingReported
      [Sample.command1; Sample.edit1; Sample.command1Again; Sample.edit2] = Some st
    /\ commandsToExecute st
       = ["npm i @microsoft/sp-core-library@1.5.0 -SE"; "different text"]
    /\ exists tag blocks,
         In ("./tsconfig.json", (tag, blocks)) (modifiedFiles st)
         /\ In "{ include: [src] }" blocks.
Proof.
  destruct (@fences_carry_first_nonempty_type
              (Sample.host "1.4.1" Sample.workingDirectory) Sample.root "1.5.0"
              [Sample.command1; Sample.edit1; Sample.command1Again; Sample.edit2])
    as (st & Hrun & _ & Hcmd & Hedits & _).
  - intros f [<- | [<- | []]]; reflexivity.
  - exists st. split; [exact Hrun|]. split; [exact Hcmd|].
    apply (Hedits Sample.edit2); [simpl; tauto | reflexivity].
Defined.

(** C9 (as stated) fails when the first edit of a file has the empty
    resolution type: the fences of the file carry the type of the second
    edit. *)
Lemma empty_type_yields_to_later_type :
  exists st,
    reportFindings (Sample.host "1.4.1" Sample.workingDirectory) nothingReported
      Sample.untyped = Some st
    /\ modifiedFiles st
       = [("./gulpfile.js", ("json", ["build.initialize(gulp);"; "{ serve: true }"]))]
    /\ map resolutionType (edits Sample.untyped) = [""; "json"].
Proof.
  eexists. split; [vm_compute; reflexivity|]. split; reflexivity.
Qed.

(** * Further properties *)

(** ** Deduplication, read as a pass over the list *)

Lemma findIndexFrom_app (A : Type) (p : A -> bool) (pre suf : list A) (k : Z) :
  findIndexFrom p k (pre ++ suf)
  = if existsb p pre then findIndexFrom p k pre
    else findIndexFrom p (k + Z.of_nat (List.length pre)) suf.
Proof.
  revert k. induction pre as [|a pre IH]; intros k; simpl.
  - rewrite Z.add_0_r. reflexivity.
  - destruct (p a); simpl; [reflexivity|].
    rewrite IH. destruct (existsb p pre); [reflexivity|].
    f_equal. lia.
Qed.

Lemma findIndexFrom_bound (A : Type) (p : A -> bool) (l : list A) (k : Z) :
  existsb p l = true -> k <= findIndexFrom p k l < k + Z.of_nat (List.length l).
Proof.
  revert k. induction l as [|a l IH]; intros k; simpl; [discriminate|].
  destruct (p a); simpl; [lia|].
  intros Hex. specialize (IH (k + 1) Hex). lia.
Qed.

Lemma firstById_seen (seen seen' : list string) (l : list Finding) :
  (forall x, mem x seen = mem x seen') -> firstById seen l = firstById seen' l.
Proof.
  revert seen seen'. induction l as [|f l IH]; intros seen seen' Hsame; simpl;
    [reflexivity|].
  rewrite <- Hsame. destruct (mem (id f) seen); [apply IH; exact Hsame|].
  f_equal. apply IH. intros y. simpl. rewrite Hsame. reflexivity.
Qed.

Lemma mem_map_id (x : string) (l : list Finding) :
  mem x (map id l) = existsb (fun f1 => String.eqb (id f1) x) l.
Proof.
  unfold mem. induction l as [|f l IH]; simpl; [reflexivity|].
  rewrite IH, (String.eqb_sym x (id f)). reflexivity.
Qed.

Lemma dedupe_from (pre suf : list Finding) :
  filterFrom (fun f i =>
                i =? findIndex (fun f1 => String.eqb (id f1) (id f)) (pre ++ suf))
             (Z.of_nat (List.length pre)) suf
  = firstById (map id pre) suf.
Proof.
  revert pre. induction suf as [|x suf IH]; intros pre; [reflexivity|].
  cbn [filterFrom firstById].
  replace (Z.of_nat (List.length pre) + 1)
    with (Z.of_nat (List.length (pre ++ [x]))) by (rewrite length_app; simpl; lia).
  assert (Hlist : (pre ++ x :: suf)%list = ((pre ++ [x]) ++ suf)%list)
    by (rewrite <- app_assoc; reflexivity).
  assert (Hrest :
    filterFrom (fun f i =>
                  i =? findIndex (fun f1 => String.eqb (id f1) (id f)) (pre ++ x :: suf))
               (Z.of_nat (List.length (pre ++ [x]))) suf
    = firstById (map id (pre ++ [x])) suf).
  { rewrite Hlist. apply IH. }
  rewrite Hrest. clear Hrest Hlist IH.
  unfold findIndex. rewrite findIndexFrom_app, <- mem_map_id.
  destruct (mem (id x) (map id pre)) eqn:Hseen.
  - rewrite mem_map_id in Hseen.
    pose proof (findIndexFrom_bound _ pre 0 Hseen) as Hbound.
    assert (Hne : (Z.of_nat (List.length pre)
                   =? findIndexFrom (fun f1 => String.eqb (id f1) (id x)) 0 pre) = false)
      by (apply Z.eqb_neq; lia).
    rewrite Hne. apply firstById_seen. intros y.
    rewrite map_app. simpl. rewrite mem_snoc. simpl.
    destruct (String.eqb y (id x)) eqn:Hy; [|reflexivity].
    apply String.eqb_eq in Hy. subst y. simpl.
    rewrite <- mem_map_id in Hseen. symmetry. exact Hseen.
  - simpl. rewrite String.eqb_refl, Z.eqb_refl. f_equal.
    apply firstById_seen. intros y. rewrite map_app. simpl. apply mem_snoc.
Qed.

(** [dedupe] is one pass that keeps a finding when its id has not been met. *)
Lemma dedupe_firstById (findings : list Finding) :
  dedupe findings = firstById [] findings.
Proof. exact (dedupe_from [] findings). Qed.

Lemma mem_app (x : string) (l l' : list string) : mem x (l ++ l') = mem x l || mem x l'.
Proof. apply existsb_app. Qed.

Lemma mem_cons (x y : string) (l : list string) :
  mem x (y :: l) = String.eqb x y || mem x l.
Proof. reflexivity. Qed.

Lemma mem_same (x y : string) (l : list string) :
  String.eqb y x = true -> mem x l = true -> mem y l = true.
Proof. intros Heq. apply String.eqb_eq in Heq. subst. auto. Qed.

Lemma firstById_ids (x : string) (l : list Finding) (seen : list string) :
  In x (map id (firstById seen l)) <-> In x (map id l) /\ mem x seen = false.
Proof.
  revert seen. induction l as [|f l IH]; intros seen; cbn [firstById map In];
    [tauto|].
  destruct (mem (id f) seen) eqn:Hf.
  - rewrite IH. split; [tauto|].
    intros [[Heq | Hin] Hseen]; [subst; congruence | tauto].
  - cbn [map In]. rewrite IH.
    change (mem x (id f :: seen)) with (String.eqb x (id f) || mem x seen).
    destruct (String.eqb x (id f)) eqn:Hx.
    + apply String.eqb_eq in Hx. subst x. cbn [orb]. split.
      * intros _. split; [left; reflexivity | exact Hf].
      * intros _. left. reflexivity.
    + apply String.eqb_neq in Hx. cbn [orb]. split.
      * intros [Heq | Hin]; [symmetry in Heq; contradiction | tauto].
      * intros [[Heq | Hin] Hseen]; [symmetry in Heq; contradiction | tauto].
Qed.

Lemma firstById_distinct (l : list Finding) (seen : list string) :
  NoDup (map id (firstById seen l)).
Proof.
  revert seen. induction l as [|f l IH]; intros seen; cbn [firstById map];
    [constructor|].
  destruct (mem (id f) seen); [apply IH|].
  cbn [map]. constructor; [|apply IH].
  intros Hin. apply firstById_ids in Hin. destruct Hin as [_ Hseen].
  change (mem (id f) (id f :: seen)) with (String.eqb (id f) (id f) || mem (id f) seen)
    in Hseen.
  rewrite String.eqb_refl in Hseen. discriminate.
Qed.

Lemma firstById_again (l : list Finding) (seen : list string) :
  firstById seen (firstById seen l) = firstById seen l.
Proof.
  revert seen. induction l as [|f l IH]; intros seen; cbn [firstById];
    [reflexivity|].
  destruct (mem (id f) seen) eqn:Hf; [apply IH|].
  cbn [firstById]. rewrite Hf, IH. reflexivity.
Qed.

Lemma firstById_filter (l : list Finding) (seen seen' : list string) :
  firstById (seen' ++ seen) l
  = filter (fun f => negb (mem (id f) seen')) (firstById seen l).
Proof.
  revert seen. induction l as [|f l IH]; intros seen; cbn [firstById];
    [reflexivity|].
  rewrite mem_app.
  destruct (mem (id f) seen) eqn:Hf.
  - rewrite orb_true_r. apply IH.
  - rewrite orb_false_r. cbn [filter].
    destruct (mem (id f) seen') eqn:Hf'; cbn [negb].
    + rewrite <- IH. apply firstById_seen. intros y.
      rewrite !mem_app, mem_cons.
      destruct (String.eqb y (id f)) eqn:Hy; [|reflexivity].
      rewrite (@mem_same _ _ _ Hy Hf'). reflexivity.
    + f_equal. rewrite <- IH. apply firstById_seen. intros y.
      rewrite mem_cons, !mem_app, mem_cons.
      destruct (String.eqb y (id f)), (mem y seen'); reflexivity.
Qed.

Lemma firstById_app (l l' : list Finding) (seen : list string) :
  firstById seen (l ++ l')
  = (firstById seen l ++ firstById (map id l ++ seen) l')%list.
Proof.
  revert seen. induction l as [|f l IH]; intros seen; cbn [firstById app map];
    [reflexivity|].
  destruct (mem (id f) seen) eqn:Hf.
  - rewrite IH. f_equal. apply firstById_seen. intros y.
    rewrite mem_cons, !mem_app.
    destruct (String.eqb y (id f)) eqn:Hy; [|reflexivity].
    rewrite (@mem_same _ _ _ Hy Hf), orb_true_r. reflexivity.
  - cbn [app]. rewrite IH. do 2 f_equal. apply firstById_seen. intros y.
    rewrite mem_cons, !mem_app, mem_cons.
    destruct (String.eqb y (id f)), (mem y (map id l)); reflexivity.
Qed.

Lemma firstById_of_distinct (l : list Finding) (seen : list string) :
  NoDup (map id l) -> (forall f, In f l -> mem (id f) seen = false) ->
  firstById seen l = l.
Proof.
  revert seen. induction l as [|f l IH]; intros seen Hdistinct Hfresh;
    cbn [firstById]; [reflexivity|].
  rewrite (Hfresh f (or_introl eq_refl)). f_equal.
  inversion Hdistinct as [|x xs Hnotin Hrest]; subst.
  apply IH; [exact Hrest|].
  intros g Hg. change (mem (id g) (id f :: seen))
    with (String.eqb (id g) (id f) || mem (id g) seen).
  rewrite (Hfresh g (or_intror Hg)), orb_false_r.
  apply String.eqb_neq. intros Heq. apply Hnotin. rewrite <- Heq.
  apply in_map. exact Hg.
Qed.

(** X1. The deduplicated findings carry pairwise distinct ids, and these are
    exactly the ids of the input. *)
Theorem dedupe_ids_distinct_and_complete (findings : list Finding) :
  NoDup (map id (dedupe findings))
  /\ forall x, In x (map id (dedupe findings)) <-> In x (map id findings).
Proof.
  rewrite dedupe_firstById. split; [apply firstById_distinct|].
  intros x. rewrite firstById_ids. simpl. tauto.
Qed.

(** X2. Findings whose ids are pairwise distinct pass deduplication
    unchanged; deduplicating twice is deduplicating once. *)
Theorem dedupe_fixes_distinct_findings (findings : list Finding) :
  (NoDup (map id findings) -> dedupe findings = findings)
  /\ dedupe (dedupe findings) = dedupe findings.
Proof.
  split.
  - intros Hdistinct. rewrite dedupe_firstById.
    apply firstById_of_distinct; [exact Hdistinct | reflexivity].
  - rewrite !dedupe_firstById. apply firstById_again.
Qed.

Lemma dedupe_fixes_distinct_findings_witness :
  dedupe [Sample.command1; Sample.edit1; Sample.edit2]
  = [Sample.command1; Sample.edit1; Sample.edit2].
Proof.
  apply (proj1 (@dedupe_fixes_distinct_findings
                  [Sample.command1; Sample.edit1; Sample.edit2])).
  repeat constructor; simpl; intuition discriminate.
Defined.

(** X3. Deduplication of two lists in a row: the first list is deduplicated
    on its own, and of the second list remain the deduplicated findings whose
    id the first list does not have. *)
Theorem dedupe_of_appended_findings (earlier later : list Finding) :
  dedupe (earlier ++ later)
  = (dedupe earlier
     ++ filter (fun f => negb (mem (id f) (map id earlier))) (dedupe later))%list.
Proof.
  rewrite !dedupe_firstById, firstById_app. f_equal.
  rewrite <- firstById_filter. reflexivity.
Qed.

(** ** The planner on any list of supported versions *)

Lemma last_of_suffix (A : Type) (l s : list A) (d : A) :
  s <> [] -> last (l ++ s) d = last s d.
Proof.
  intros Hs. induction l as [|a l IH]; [reflexivity|].
  simpl. rewrite IH. destruct (l ++ s)%list eqn:Happ; [|reflexivity].
  apply app_eq_nil in Happ. tauto.
Qed.

Lemma hd_of_reversed (A : Type) (s : list A) (d : A) :
  s <> [] -> hd_error (rev s) = Some (last s d).
Proof.
  intros Hs. destruct (exists_last Hs) as (s' & x & ->).
  rewrite rev_app_distr, last_last. reflexivity.
Qed.

(** X4. Without a toVersion option (or with the empty one) the request is
    the last entry of the list of supported versions: with a list that is
    not empty the request is always a supported version. *)
Theorem default_request_is_newest_supported (c : Command) (args : Options) :
  supportedVersions c <> [] ->
  toVersion args = None \/ toVersion args = Some "" ->
  requestedVersion c args = last (supportedVersions c) "undefined"
  /\ In (requestedVersion c args) (supportedVersions c).
Proof.
  intros Hlist Hdefault.
  assert (Hlast : requestedVersion c args = last (supportedVersions c) "undefined").
  { unfold requestedVersion. destruct Hdefault as [-> | ->]; reflexivity. }
  split; [exact Hlast|]. rewrite Hlast.
  destruct (exists_last Hlist) as (l & x & ->).
  rewrite last_last. apply in_or_app. right. left. reflexivity.
Qed.

Lemma default_request_is_newest_supported_witness :
  requestedVersion spfxProjectUpgradeCommand (mkOptions None (Some "md")) = "1.5.0"
  /\ In "1.5.0" (supportedVersions spfxProjectUpgradeCommand).
Proof.
  apply (@default_request_is_newest_supported spfxProjectUpgradeCommand
           (mkOptions None (Some "md"))).
  - discriminate.
  - left. reflexivity.
Defined.

(** X5. For every list of supported versions and every pair of versions in
    it, the current one before the requested one: the plan starts with the
    newest supported version, it contains the requested version, and, when
    the list has no duplicates, it does not contain the current version. *)
Theorem plan_starts_with_newest_version (c : Command) (current target : string) :
  In current (supportedVersions c) ->
  In target (supportedVersions c) ->
  indexOf (supportedVersions c) current < indexOf (supportedVersions c) target ->
  let plan := versionsToUpgradeTo c (indexOf (supportedVersions c) current) in
  hd_error plan = Some (last (supportedVersions c) "undefined")
  /\ In target plan
  /\ (NoDup (supportedVersions c) -> ~ In current plan).
Proof.
  intros Hcurrent Htarget Hbefore plan. subst plan.
  pose proof (indexOf_nth _ _ Hcurrent) as Hnthc.
  pose proof (indexOf_nth _ _ Htarget) as Hntht.
  apply indexOf_present in Hcurrent, Htarget.
  set (versions := supportedVersions c) in *.
  set (pos := indexOf versions current) in *.
  set (posT := indexOf versions target) in *.
  unfold versionsToUpgradeTo, slice. fold versions.
  assert (Hnonneg : (pos + 1 <? 0) = false) by (apply Z.ltb_ge; lia).
  rewrite Hnonneg.
  assert (Hin : In target (skipn (Z.to_nat (pos + 1)) versions)).
  { apply (@nth_error_In _ _ (Z.to_nat posT - Z.to_nat (pos + 1))).
    rewrite nth_error_skipn.
    replace (Z.to_nat (pos + 1) + (Z.to_nat posT - Z.to_nat (pos + 1)))%nat
      with (Z.to_nat posT) by lia.
    exact Hntht. }
  assert (Hsome : skipn (Z.to_nat (pos + 1)) versions <> [])
    by (intros Hnil; rewrite Hnil in Hin; contradiction).
  split; [|split].
  - rewrite (hd_of_reversed "undefined" Hsome). f_equal.
    rewrite <- (firstn_skipn (Z.to_nat (pos + 1)) versions) at 2.
    symmetry. apply last_of_suffix. exact Hsome.
  - apply in_rev. rewrite rev_involutive. exact Hin.
  - intros Hdistinct Hplanned. apply in_rev in Hplanned.
    destruct (In_nth_error _ _ Hplanned) as (i & Hi).
    rewrite nth_error_skipn in Hi.
    rewrite NoDup_nth_error in Hdistinct.
    assert (Hsame : Z.to_nat pos = (Z.to_nat (pos + 1) + i)%nat).
    { apply Hdistinct; [|congruence].
      apply nth_error_Some. rewrite Hnthc. discriminate. }
    lia.
Qed.

Lemma plan_starts_with_newest_version_witness :
  let c := mkCommand ["1.4.1"; "1.5.0"; "1.5.1"; "1.6.0"] [] false false in
  hd_error (versionsToUpgradeTo c 0) = Some "1.6.0"
  /\ In "1.5.0" (versionsToUpgradeTo c 0)
  /\ ~ In "1.4.1" (versionsToUpgradeTo c 0).
Proof.
  intros c.
  destruct (@plan_starts_with_newest_version c "1.4.1" "1.5.0")
    as (Hhead & Htarget & Hcurrent).
  - simpl. tauto.
  - simpl. tauto.
  - vm_compute. reflexivity.
  - split; [exact Hhead|]. split; [exact Htarget|].
    apply Hcurrent. repeat constructor; simpl; intuition discriminate.
Defined.

(** ** The search of the project root, probe by probe *)

Lemma upwards_root : upwards [] = [[]].
Proof. reflexivity. Qed.

Lemma upwards_last (p : Path) (seg : string) :
  upwards (p ++ [seg])%list = (p ++ [seg])%list :: upwards p.
Proof.
  unfold upwards. rewrite length_app. simpl List.length.
  replace (List.length p + 1)%nat with (S (List.length p)) by lia.
  rewrite (seq_S (S (List.length p))), rev_app_distr. cbn [rev app map Nat.add].
  f_equal.
  - replace (S (List.length p)) with (List.length (p ++ [seg]))
      by (rewrite length_app; simpl; lia).
    apply firstn_all.
  - apply map_ext_in. intros n Hn. apply in_rev, in_seq in Hn.
    rewrite firstn_app.
    replace (n - List.length p)%nat with 0%nat by lia.
    simpl. apply app_nil_r.
Qed.

Lemma getProjectRoot_trace (h : Host) (folderPath : Path) :
  getProjectRoot h folderPath
  = (map packageJsonProbe (upTo (hasPackageJson h) (upwards folderPath)),
     Some (find (hasPackageJson h) (upwards folderPath))).
Proof.
  induction folderPath as [|seg p IH] using rev_ind;
    rewrite getProjectRoot_step; cbn zeta.
  - rewrite upwards_root. cbn [upTo find map].
    destruct (hasPackageJson h []); reflexivity.
  - rewrite upwards_last. cbn [upTo find map].
    destruct (hasPackageJson h (p ++ [seg])%list); [reflexivity|].
    rewrite removelast_last, IH.
    destruct (p ++ [seg])%list eqn:Hp; [destruct p; discriminate|]. rewrite <- Hp.
    reflexivity.
Qed.

Lemma upTo_length (A : Type) (stop : A -> bool) (l : list A) :
  (List.length (upTo stop l) <= List.length l)%nat.
Proof.
  induction l as [|x l IH]; simpl; [lia|].
  destruct (stop x); simpl; lia.
Qed.

(** X6. The search asks for package.json in the start directory, then in
    its parent, and so on towards the root; it stops at the first directory
    that has one, which is its answer, and asks nothing else: at most one
    question for each segment of the path, and one for the root. *)
Theorem getProjectRoot_probes_upwards (h : Host) (folderPath : Path) :
  getProjectRoot h folderPath
  = (map packageJsonProbe (upTo (hasPackageJson h) (upwards folderPath)),
     Some (find (hasPackageJson h) (upwards folderPath)))
  /\ (List.length (effects (getProjectRoot h folderPath))
      <= S (List.length folderPath))%nat.
Proof.
  split; [apply getProjectRoot_trace|].
  rewrite getProjectRoot_trace. cbn [effects fst].
  rewrite length_map.
  etransitivity; [apply upTo_length|].
  unfold upwards. rewrite length_map, length_rev, length_seq. lia.
Qed.

(** ** How a run ends *)

(** A run ends in one of three ways: rejected, with one call of the callback
    after nothing but probes; left by an exception; or completed, with a
    last call of the callback that carries no error. *)
Lemma commandAction_outcome (h : Host) (c : Command) (args : Options) :
  (exists t err, probesOnly t
                 /\ commandAction h c args = ((t ++ [Cb (Some err)])%list, Some c))
  \/ (exists t, commandAction h c args = (t, None))
  \/ (exists t found,
        commandAction h c args = ((t ++ [Cb None])%list, Some (withFindings c found))).
Proof.
  unfold commandAction.
  destruct (getProjectRoot_run h (cwd h)) as (t0 & answer & Hroot & Hprobes0).
  rewrite Hroot. run_step.
  destruct answer as [root|]; [|left; run_step; eauto].
  destruct (_ <? 0); [left; run_step; eauto|].
  destruct (getProjectVersion_run h root) as (t1 & detected & Hversion & Hprobes1).
  rewrite Hversion. run_step.
  assert (Hprobes : probesOnly (t0 ++ t1)) by (apply probesOnly_app; assumption).
  destruct detected as [v|];
    [|left; run_step; rewrite app_assoc; eauto].
  destruct (negb (truthy v)); [left; run_step; rewrite app_assoc; eauto|].
  destruct (_ <? 0); [left; run_step; rewrite app_assoc; eauto|].
  destruct (_ >? _); [left; run_step; rewrite app_assoc; eauto|].
  destruct (_ =? _); [left; run_step; rewrite app_assoc; eauto|].
  right.
  assert (Hverbose : forall b : bool,
    (if b then log (Text "Collecting project...") else ret tt)
    = ((if b then [Log (Text "Collecting project...")] else []), Some tt))
    by (intros []; reflexivity).
  rewrite Hverbose, bind_returned.
  destruct (getProject_run h root) as (tp & _ & Hproject).
  destruct (filesBelow h (resolve root ["src"])) as [files|e];
    rewrite Hproject; [|left; run_step; eauto].
  match type of Hproject with _ = (_, Some ?p) => set (project := p) in * end.
  rewrite bind_returned.
  assert (Hdebug : forall b : bool,
    (if b then bind (log (Text "Collected project")) (fun _ => log (ProjectDump project))
     else ret tt)
    = ((if b then [Log (Text "Collected project"); Log (ProjectDump project)] else []),
       Some tt))
    by (intros []; reflexivity).
  rewrite Hdebug, bind_returned.
  destruct (applyRules_forEach_run h project
              (versionsToUpgradeTo c (indexOfValue (supportedVersions c) v))
              (allFindings c)) as (tr & found & Hrules & _).
  rewrite Hrules, bind_returned.
  destruct (report h root (requestedVersion c args) args (dedupe found))
    as [tl [[]|]]; run_step.
  - right. eexists; exists found. rewrite !app_assoc. reflexivity.
  - left. eauto.
Qed.

(** X7. When the command returns, the last thing it has done is to call its
    callback. When that last call carries an error, the run was rejected: it
    is the only call of the callback, nothing has been logged, no rule module
    has been loaded, and the array of findings of the command object is as
    it was. *)
Theorem commandAction_ends_with_callback (h : Host) (c c' : Command) (args : Options) :
  result (commandAction h c args) = Some c' ->
  exists t err,
    effects (commandAction h c args) = (t ++ [Cb err])%list
    /\ (err <> None ->
        callbacks t = [] /\ logged t = [] /\ required t = []
        /\ allFindings c' = allFindings c).
Proof.
  intros Hreturned.
  destruct (commandAction_outcome h c args)
    as [(t & err & Hprobes & Hrun) | [(t & Hrun) | (t & found & Hrun)]];
    rewrite Hrun in *; simpl in Hreturned.
  - exists t, (Some err). split; [reflexivity|]. intros _.
    destruct (probesOnly_silent Hprobes) as (Hcb & Hlog & Hreq).
    inversion Hreturned. subst c'. auto.
  - discriminate.
  - exists t, None. split; [reflexivity|]. intros Herr. contradiction Herr. reflexivity.
Qed.

Lemma commandAction_ends_with_callback_witness :
  exists t err,
    effects (commandAction (Sample.host "1.4.1" Sample.workingDirectory)
               spfxProjectUpgradeCommand (mkOptions (Some "1.6.0") None))
    = (t ++ [Cb err])%list.
Proof.
  assert (exists c',
    result (commandAction (Sample.host "1.4.1" Sample.workingDirectory)
              spfxProjectUpgradeCommand (mkOptions (Some "1.6.0") None)) = Some c')
    as (c' & Hreturned) by (eexists; vm_compute; reflexivity).
  destruct (@commandAction_ends_with_callback _ _ _ _ Hreturned) as (t & err & Hlast & _).
  exists t, err. exact Hlast.
Defined.

(** ** Runs that stop before the project is read *)

Lemma upTo_none (A : Type) (stop : A -> bool) (l : list A) :
  find stop l = None -> upTo stop l = l.
Proof.
  induction l as [|x l IH]; simpl; [reflexivity|].
  destruct (stop x); [discriminate|]. intros Hnone. f_equal. auto.
Qed.

(** X8. When neither the working directory nor any directory above it holds
    a package.json, the run asks for it in each of them, nearest first, calls
    the callback with the missing-root error, and does nothing else: the
    command object is as it was. *)
Theorem missing_root_is_reported (h : Host) (c : Command) (args : Options) :
  (forall dir, In dir (upwards (cwd h)) -> hasPackageJson h dir = false) ->
  commandAction h c args
  = ((map packageJsonProbe (upwards (cwd h)) ++ [Cb (Some rootNotFound)])%list, Some c).
Proof.
  intros Hnone.
  assert (Hfind : find (hasPackageJson h) (upwards (cwd h)) = None).
  { destruct (find (hasPackageJson h) (upwards (cwd h))) as [dir|] eqn:Hfound;
      [|reflexivity].
    apply find_some in Hfound. destruct Hfound as [Hin Hhas].
    rewrite (Hnone dir Hin) in Hhas. discriminate. }
  unfold commandAction. rewrite getProjectRoot_trace, Hfind, (upTo_none _ _ Hfind).
  run_step. reflexivity.
Qed.

Lemma missing_root_is_reported_witness :
  callbacks (effects (commandAction (Sample.host "1.4.1" ["tmp"; "scratch"])
                        spfxProjectUpgradeCommand (mkOptions None None)))
  = [Some rootNotFound].
Proof.
  rewrite (@missing_root_is_reported (Sample.host "1.4.1" ["tmp"; "scratch"])
             spfxProjectUpgradeCommand (mkOptions None None)).
  - reflexivity.
  - intros dir [<- | [<- | [<- | []]]]; reflexivity.
Defined.

(** X9. In a run that has found the project root and whose request is a
    supported version: when the version probe finds nothing, or finds the
    empty string (a core library range without digit or dot), the run calls
    the callback with the undetermined-version error and does nothing else. *)
Theorem undetermined_version_is_reported (h : Host) (c : Command) (args : Options)
  (root : Path) (t0 t1 : list Effect) (detected : option Json) :
  getProjectRoot h (cwd h) = (t0, Some (Some root)) ->
  In (requestedVersion c args) (supportedVersions c) ->
  getProjectVersion h root = (t1, Some detected) ->
  detected = None \/ detected = Some (JStr "") ->
  commandAction h c args = ((t0 ++ t1 ++ [Cb (Some versionUnknown)])%list, Some c).
Proof.
  intros Hroot Htarget Hversion Hnothing.
  apply indexOf_present, Z.ltb_ge in Htarget.
  unfold commandAction. rewrite Hroot. run_step. rewrite Htarget, Hversion. run_step.
  destruct Hnothing as [-> | ->]; run_step; rewrite <- ?app_assoc; reflexivity.
Qed.

Lemma undetermined_version_is_reported_witness :
  callbacks (effects (commandAction Sample.latestHost spfxProjectUpgradeCommand
                        (mkOptions None None)))
  = [Some versionUnknown].
Proof.
  assert (exists t0,
    getProjectRoot Sample.latestHost (cwd Sample.latestHost)
    = (t0, Some (Some Sample.root))) as (t0 & H0)
    by (eexists; vm_compute; reflexivity).
  assert (exists t1,
    getProjectVersion Sample.latestHost Sample.root = (t1, Some (Some (JStr ""))))
    as (t1 & H1) by (eexists; vm_compute; reflexivity).
  rewrite (@undetermined_version_is_reported Sample.latestHost
             spfxProjectUpgradeCommand (mkOptions None None) Sample.root t0 t1
             (Some (JStr "")) H0).
  - assert (Hquiet : callbacks (t0 ++ t1) = []).
    { assert (Hc0 : callbacks t0 = callbacks (effects (getProjectRoot Sample.latestHost
                                                         (cwd Sample.latestHost))))
        by (rewrite H0; reflexivity).
      assert (Hc1 : callbacks t1 = callbacks (effects (getProjectVersion
                                                         Sample.latestHost Sample.root)))
        by (rewrite H1; reflexivity).
      rewrite callbacks_app, Hc0, Hc1. vm_compute. reflexivity. }
    cbn [effects fst]. rewrite app_assoc, callbacks_app, Hquiet. reflexivity.
  - simpl. tauto.
  - exact H1.
  - right. reflexivity.
Defined.

(** ** The version probe *)

Lemma getProjectVersion_trace (h : Host) (root : Path) :
  getProjectVersion h root
  = ((Fs (ExistsSync (resolve root [".yo-rc.json"]))
      :: (if present h (resolve root [".yo-rc.json"])
          then [Fs (ReadFileSync (resolve root [".yo-rc.json"]))] else [])
      ++ match generatorMetadataVersion h root with
         | Some _ => []
         | None => [Fs (ReadFileSync (resolve root ["package.json"]))]
         end)%list,
     Some (match generatorMetadataVersion h root with
           | Some version => Some version
           | None => fallbackVersion h root
           end)).
Proof.
  unfold getProjectVersion, generatorMetadataVersion, fallbackVersion,
    existsSync, readFileSync, emit, ret.
  cbn [bind app].
  destruct (present h (resolve root [".yo-rc.json"])); cbn [bind app].
  - destruct (match parsed h (content h (resolve root [".yo-rc.json"])) with
              | Some yoRc => generatorVersion yoRc
              | None => None
              end); reflexivity.
  - reflexivity.
Qed.

(** X10. When .yo-rc.json exists, parses, and holds a truthy version under
    the key of the SharePoint generator, that version is the answer of the
    probe, and package.json is not read. *)
Theorem generator_metadata_takes_precedence (h : Host) (root : Path) (text : string)
  (members generator : list (string * Json)) (version : Json) :
  present h (resolve root [".yo-rc.json"]) = true ->
  content h (resolve root [".yo-rc.json"]) = Some text ->
  parse h text = Some (JObj members) ->
  assoc "@microsoft/generator-sharepoint" members = Some (JObj generator) ->
  assoc "version" generator = Some version ->
  truthy version = true ->
  getProjectVersion h root
  = ([Fs (ExistsSync (resolve root [".yo-rc.json"]));
      Fs (ReadFileSync (resolve root [".yo-rc.json"]))],
     Some (Some version)).
Proof.
  intros Hpresent Hcontent Hparse Hgenerator Hversion Htruthy.
  assert (Hfound : generatorMetadataVersion h root = Some version).
  { unfold generatorMetadataVersion. rewrite Hpresent, Hcontent. simpl.
    rewrite Hparse. unfold generatorVersion. simpl.
    rewrite Hgenerator. simpl. rewrite Hversion, Htruthy. reflexivity. }
  rewrite getProjectVersion_trace, Hfound, Hpresent. reflexivity.
Qed.

Lemma generator_metadata_takes_precedence_witness :
  getProjectVersion (Sample.host "1.5.0" Sample.workingDirectory) Sample.root
  = ([Fs (ExistsSync (resolve Sample.root [".yo-rc.json"]));
      Fs (ReadFileSync (resolve Sample.root [".yo-rc.json"]))],
     Some (Some (JStr "1.5.0"))).
Proof.
  apply (@generator_metadata_takes_precedence
           (Sample.host "1.5.0" Sample.workingDirectory) Sample.root "yo-rc"
           [("@microsoft/generator-sharepoint", JObj [("version", JStr "1.5.0")])]
           [("version", JStr "1.5.0")] (JStr "1.5.0")); reflexivity.
Defined.

(** X11. The version probe parses .yo-rc.json as it is, [getProject] parses
    it with the comments removed: for a file that only parses without its
    comments, [getProject] fills the slot of the generator metadata while the
    probe reads package.json and answers from it. *)
Theorem commented_metadata_is_lost_on_the_probe (h : Host) (root : Path)
  (text : string) (yoRc : Json) (files : list Path) :
  present h (resolve root [".yo-rc.json"]) = true ->
  content h (resolve root [".yo-rc.json"]) = Some text ->
  parse h text = None ->
  parse h (removeSingleLineComments h text) = Some yoRc ->
  filesBelow h (resolve root ["src"]) = Returned files ->
  (exists t project, getProject h root = (t, Some project)
                     /\ yoRcJson project = Some yoRc)
  /\ In (Fs (ReadFileSync (resolve root ["package.json"])))
        (effects (getProjectVersion h root))
  /\ result (getProjectVersion h root) = Some (fallbackVersion h root).
Proof.
  intros Hpresent Hcontent Hraw Hclean Hfiles.
  assert (Hnothing : generatorMetadataVersion h root = None).
  { unfold generatorMetadataVersion. rewrite Hpresent, Hcontent. simpl.
    rewrite Hraw. reflexivity. }
  split; [|split].
  - destruct (getProject_run h root) as (t & _ & Hrun). rewrite Hfiles in Hrun.
    eexists; eexists. split; [exact Hrun|]. cbn [yoRcJson].
    unfold document. rewrite Hpresent, Hcontent. cbn [option_map parsed]. exact Hclean.
  - rewrite getProjectVersion_trace, Hnothing, Hpresent. simpl. auto.
  - rewrite getProjectVersion_trace, Hnothing. reflexivity.
Qed.

Lemma commented_metadata_is_lost_on_the_probe_witness :
  (exists t project, getProject Sample.commentedHost Sample.root = (t, Some project)
                     /\ yoRcJson project = Some (Sample.yoRc "1.5.0"))
  /\ result (getProjectVersion Sample.commentedHost Sample.root)
     = Some (Some (JStr "1.4.1")).
Proof.
  destruct (@commented_metadata_is_lost_on_the_probe Sample.commentedHost Sample.root
              "//yo-rc" (Sample.yoRc "1.5.0") [] eq_refl eq_refl eq_refl eq_refl eq_refl)
    as (Hproject & _ & Hversion).
  split; [exact Hproject|]. rewrite Hversion. reflexivity.
Defined.

Lemma keepChars_allChars (p : ascii -> bool) (s : string) :
  allChars p (keepChars p s) = true.
Proof.
  induction s as [|a s IH]; simpl; [reflexivity|].
  destruct (p a) eqn:Hp; simpl; [rewrite Hp|]; exact IH.
Qed.

Lemma keepChars_app (p : ascii -> bool) (s s' : string) :
  keepChars p (s ++ s') = keepChars p s ++ keepChars p s'.
Proof.
  induction s as [|a s IH]; simpl; [reflexivity|].
  rewrite IH. destruct (p a); reflexivity.
Qed.

Lemma keepChars_all (p : ascii -> bool) (s : string) :
  allChars p s = true -> keepChars p s = s.
Proof.
  induction s as [|a s IH]; simpl; [reflexivity|].
  destruct (p a); simpl; [|discriminate]. intros Hall. rewrite IH; auto.
Qed.

Lemma keepChars_none (p : ascii -> bool) (s : string) :
  allChars (fun a => negb (p a)) s = true -> keepChars p s = "".
Proof.
  induction s as [|a s IH]; simpl; [reflexivity|].
  destruct (p a); simpl; [discriminate | exact IH].
Qed.

(** X12. When .yo-rc.json gives no version and package.json lists the core
    library among its dependencies with a range that is a string, the probe
    answers that range reduced to its digits and dots. *)
Theorem fallback_version_is_digits_and_dots (h : Host) (root : Path) (text : string)
  (members dependencies : list (string * Json)) (range : string) :
  generatorMetadataVersion h root = None ->
  content h (resolve root ["package.json"]) = Some text ->
  parse h text = Some (JObj members) ->
  assoc "dependencies" members = Some (JObj dependencies) ->
  assoc "@microsoft/sp-core-library" dependencies = Some (JStr range) ->
  range <> "" ->
  exists version,
    result (getProjectVersion h root) = Some (Some (JStr version))
    /\ version = stripNonVersionChars range
    /\ allChars isVersionChar version = true.
Proof.
  intros Hnothing Hcontent Hparse Hdeps Hcore Hrange.
  exists (stripNonVersionChars range). split; [|split]; [|reflexivity|].
  - rewrite getProjectVersion_trace, Hnothing. cbn [result snd].
    unfold fallbackVersion. rewrite Hcontent. simpl. rewrite Hparse.
    unfold coreLibraryVersion. simpl. rewrite Hdeps. simpl. rewrite Hcore.
    apply String.eqb_neq in Hrange. simpl. rewrite Hrange. reflexivity.
  - apply keepChars_allChars.
Qed.

Lemma fallback_version_is_digits_and_dots_witness :
  result (getProjectVersion Sample.commentedHost Sample.root)
  = Some (Some (JStr "1.4.1")).
Proof.
  destruct (@fallback_version_is_digits_and_dots Sample.commentedHost Sample.root
              "package"
              [("dependencies", JObj [("@microsoft/sp-core-library", JStr "~1.4.1")])]
              [("@microsoft/sp-core-library", JStr "~1.4.1")] "~1.4.1"
              eq_refl eq_refl eq_refl eq_refl eq_refl)
    as (version & Hresult & Hversion & _).
  - discriminate.
  - rewrite Hresult, Hversion. reflexivity.
Defined.

(** X13. A version made of digits and dots comes out of the reduction as it
    is, whatever surrounds it, as long as the surroundings hold neither a
    digit nor a dot (a caret, a tilde, a comparison, spaces). *)
Theorem range_decoration_is_dropped (before version after : string) :
  allChars (fun a => negb (isVersionChar a)) before = true ->
  allChars isVersionChar version = true ->
  allChars (fun a => negb (isVersionChar a)) after = true ->
  stripNonVersionChars (before ++ version ++ after) = version.
Proof.
  intros Hbefore Hversion Hafter. unfold stripNonVersionChars.
  change (fun a => isDigit a || Ascii.eqb a ".") with isVersionChar.
  rewrite !keepChars_app, (keepChars_none _ _ Hbefore), (keepChars_all _ _ Hversion),
    (keepChars_none _ _ Hafter).
  simpl. clear. induction version as [|a s IH]; simpl; [reflexivity | rewrite IH; reflexivity].
Qed.

Lemma range_decoration_is_dropped_witness :
  stripNonVersionChars (">= " ++ "1.4.1" ++ " ") = "1.4.1".
Proof.
  apply (@range_decoration_is_dropped ">= " "1.4.1" " "); reflexivity.
Defined.

(** ** What getProject reads *)

Lemma readDocument_trace (h : Host) (p : Path) :
  readDocument h p = (documentProbes h p, Some (document h p)).
Proof.
  unfold readDocument, document, documentProbes, existsSync, readFileSync, emit, ret.
  cbn [bind app]. destruct (present h p); reflexivity.
Qed.

Lemma readManifests_trace (h : Host) (files : list Path) (manifests : list Manifest) :
  effects (forEach (readManifest h) files manifests)
  = map (fun f => Fs (ReadFileSync f)) (filter isManifestFile files).
Proof.
  revert manifests. induction files as [|f files IH]; intros manifests; [reflexivity|].
  cbn [forEach filter]. rewrite effects_bind.
  destruct (readManifest_run h manifests f) as (t & Hrun & _).
  rewrite Hrun. cbn [result snd effects fst]. rewrite IH.
  assert (Ht : t = if isManifestFile f then [Fs (ReadFileSync f)] else []).
  { revert Hrun. unfold readManifest, isManifestFile, readFileSync, emit, ret.
    destruct (endsWith (pathText f) ".manifest.json"); cbn [bind app];
      intros Hrun; inversion Hrun; reflexivity. }
  rewrite Ht. destruct (isManifestFile f); reflexivity.
Qed.

Lemma getProject_trace (h : Host) (root : Path) :
  effects (getProject h root)
  = (flat_map (fun d => documentProbes h (resolve root (fst d))) documents
     ++ GetAllFiles (resolve root ["src"])
     :: match filesBelow h (resolve root ["src"]) with
        | Returned files => map (fun f => Fs (ReadFileSync f)) (filter isManifestFile files)
        | Thrown _ => []
        end)%list.
Proof.
  unfold getProject.
  rewrite !readDocument_trace.
  repeat (rewrite bind_returned; cbn [effects result fst snd]).
  unfold getAllFiles, emit, escape, ret. cbn [bind].
  cbn [documents flat_map fst]. rewrite <- !app_assoc. cbn [app].
  repeat f_equal.
  destruct (filesBelow h (resolve root ["src"])) as [files|e]; cbn [bind app fst snd].
  - pose proof (readManifests_trace h files []) as Htrace.
    destruct (forEach (readManifest h) files []) as [tm [ms|]];
      cbn [effects fst] in Htrace; subst tm; cbn [bind effects app fst snd];
      rewrite ?app_nil_r; reflexivity.
  - reflexivity.
Qed.

(** X14. [getProject] reads a file exactly when it is one of the ten
    recognised documents and exists, or a file of the walk of [src] whose
    name ends in .manifest.json; no other file is read. *)
Theorem getProject_reads_documents_and_manifests (h : Host) (root f : Path) :
  In (Fs (ReadFileSync f)) (effects (getProject h root))
  <-> (exists rel slot, In (rel, slot) documents
                        /\ f = resolve root rel /\ present h f = true)
      \/ (exists files, filesBelow h (resolve root ["src"]) = Returned files
                        /\ In f files /\ isManifestFile f = true).
Proof.
  rewrite getProject_trace, in_app_iff, in_flat_map. split.
  - intros [(d & Hd & Hin) | [Habs | Hin]].
    + left. destruct d as [rel slot]. exists rel, slot. cbn [fst] in Hin.
      unfold documentProbes in Hin. destruct Hin as [Habs | Hin]; [discriminate|].
      destruct (present h (resolve root rel)) eqn:Hpresent; [|contradiction].
      destruct Hin as [Heq | []]. inversion Heq; subst. auto.
    + discriminate.
    + right. destruct (filesBelow h (resolve root ["src"])) as [files|e];
        [|contradiction].
      exists files. apply in_map_iff in Hin. destruct Hin as (g & Heq & Hg).
      inversion Heq; subst. apply filter_In in Hg. tauto.
  - intros [(rel & slot & Hd & -> & Hpresent) | (files & Hfiles & Hin & Hsuffix)].
    + left. exists (rel, slot). split; [exact Hd|]. cbn [fst].
      unfold documentProbes. rewrite Hpresent. simpl. auto.
    + right. right. rewrite Hfiles. apply in_map_iff. exists f.
      split; [reflexivity|]. apply filter_In. auto.
Qed.

(** X15. Provided the walk of [src] returns, a recognised document that
    exists, can be read and parses once its comments are removed fills its
    slot with the parsed value. *)
Theorem readable_document_fills_its_slot (h : Host) (root : Path) (files : list Path)
  (rel : list string) (slot : Project -> option Json) (text : string) (value : Json) :
  filesBelow h (resolve root ["src"]) = Returned files ->
  In (rel, slot) documents ->
  present h (resolve root rel) = true ->
  content h (resolve root rel) = Some text ->
  parse h (removeSingleLineComments h text) = Some value ->
  exists t project, getProject h root = (t, Some project) /\ slot project = Some value.
Proof.
  intros Hfiles Hin Hpresent Hcontent Hparse.
  destruct (getProject_run h root) as (t & _ & Hrun). rewrite Hfiles in Hrun.
  assert (Hdoc : document h (resolve root rel) = Some value).
  { unfold document. rewrite Hpresent, Hcontent. exact Hparse. }
  eexists; eexists. split; [exact Hrun|].
  cbn [documents In] in Hin.
  repeat (destruct Hin as [Hin | Hin];
          [inversion Hin; subst; exact Hdoc|]).
  contradiction.
Qed.

Lemma readable_document_fills_its_slot_witness :
  exists t project,
    getProject (Sample.host "1.4.1" Sample.workingDirectory) Sample.root = (t, Some project)
    /\ packageJson project = Some Sample.packageDoc.
Proof.
  apply (@readable_document_fills_its_slot
           (Sample.host "1.4.1" Sample.workingDirectory) Sample.root
           [Sample.manifestFile; Sample.brokenManifestFile;
            (Sample.root ++ ["src"; "index.ts"])%list]
           ["package.json"] packageJson "package" Sample.packageDoc);
    try reflexivity.
  simpl. tauto.
Defined.

Lemma manifestOf_paths (h : Host) (f : Path) :
  map manifestPath (manifestOf h f) = if yieldsManifest h f then [f] else [].
Proof.
  unfold manifestOf, yieldsManifest, isManifestFile, withPath, takesProperties.
  destruct (endsWith (pathText f) ".manifest.json"); [|reflexivity].
  destruct (content h f) as [text|]; [|reflexivity]. cbn [option_map parsed andb].
  destruct (parse h (removeSingleLineComments h text)) as [value|]; [|reflexivity].
  destruct value; reflexivity.
Qed.

Lemma In_manifestOf (h : Host) (f : Path) (m : Manifest) :
  In m (manifestOf h f)
  <-> manifestPath m = f
      /\ isManifestFile f = true
      /\ takesProperties (manifestJson m) = true
      /\ exists text, content h f = Some text
                      /\ parse h (removeSingleLineComments h text)
                         = Some (manifestJson m).
Proof.
  unfold manifestOf, isManifestFile, withPath, takesProperties. split.
  - destruct (endsWith (pathText f) ".manifest.json"); [|intros []].
    destruct (content h f) as [text|]; [|intros []]. cbn [option_map parsed].
    destruct (parse h (removeSingleLineComments h text)) as [value|] eqn:Hparse;
      [|intros []].
    destruct value; intros Hin; cbn [In] in Hin; try contradiction;
      destruct Hin as [<- | []]; cbn [manifestPath manifestJson];
      repeat split; exists text; split; reflexivity || exact Hparse.
  - intros (Hpath & Hsuffix & Htakes & text & Hcontent & Hparse).
    rewrite Hsuffix, Hcontent. cbn [option_map parsed]. rewrite Hparse.
    destruct m as [value p]. cbn [manifestPath manifestJson] in *. subst p.
    destruct value; try discriminate; left; reflexivity.
Qed.

(** X16. Provided the walk of [src] returns, the manifests of the project
    come in the order of the walk, at most one for each file. A file of the
    walk yields a manifest exactly when its name ends in .manifest.json, it
    can be read, and its text, comments removed, parses to an object or an
    array (on [null] and on a primitive value [manifest.path = f] throws
    inside the [try]); the manifest is that parsed value, at the path of the
    file. *)
Theorem manifests_follow_the_walk (h : Host) (root : Path) (files : list Path) :
  filesBelow h (resolve root ["src"]) = Returned files ->
  exists t project,
    getProject h root = (t, Some project)
    /\ map manifestPath (manifests project) = filter (yieldsManifest h) files
    /\ forall m,
         In m (manifests project)
         <-> In (manifestPath m) files
             /\ isManifestFile (manifestPath m) = true
             /\ takesProperties (manifestJson m) = true
             /\ exists text, content h (manifestPath m) = Some text
                             /\ parse h (removeSingleLineComments h text)
                                = Some (manifestJson m).
Proof.
  intros Hfiles.
  destruct (getProject_run h root) as (t & _ & Hrun). rewrite Hfiles in Hrun.
  eexists; eexists. split; [exact Hrun|]. cbn [manifests]. split.
  - clear. induction files as [|f files IH]; [reflexivity|].
    cbn [flat_map filter]. rewrite map_app, IH, manifestOf_paths.
    destruct (yieldsManifest h f); reflexivity.
  - intros m. rewrite in_flat_map. split.
    + intros (f & Hf & Hm). apply In_manifestOf in Hm.
      destruct Hm as (Hpath & Hrest). rewrite Hpath. split; assumption.
    + intros (Hf & Hrest). exists (manifestPath m). split; [exact Hf|].
      apply In_manifestOf. split; [reflexivity | exact Hrest].
Qed.

Lemma manifests_follow_the_walk_witness :
  exists t project,
    getProject (Sample.host "1.4.1" Sample.workingDirectory) Sample.root = (t, Some project)
    /\ map manifestPath (manifests project) = [Sample.manifestFile].
Proof.
  destruct (@manifests_follow_the_walk
              (Sample.host "1.4.1" Sample.workingDirectory) Sample.root
              [Sample.manifestFile; Sample.brokenManifestFile;
               (Sample.root ++ ["src"; "index.ts"])%list] eq_refl)
    as (t & project & Hrun & Hpaths & _).
  exists t, project. split; [exact Hrun|]. rewrite Hpaths. reflexivity.
Defined.

(** ** Rules that throw, rules that do not *)

Lemma visitAll_app (project : Project) (before later : list Rule)
  (findings : list Finding) :
  visitAll project (before ++ later) findings
  = match thrown (visitAll project before findings) with
    | Some _ => visitAll project before findings
    | None => visitAll project later (accumulated (visitAll project before findings))
    end.
Proof.
  revert findings. induction before as [|r before IH]; intros findings; [reflexivity|].
  cbn [app visitAll].
  destruct (thrown (r project findings)) eqn:Hr; [rewrite Hr; reflexivity|].
  apply IH.
Qed.

(** X17. When a rule throws, the rules that follow it in its module are not
    visited; the findings pushed until then, those of the throwing rule
    included, stay in the array; the error is handed to the callback. *)
Theorem throwing_rule_ends_its_module (h : Host) (project : Project) (v e : string)
  (before later : list Rule) (r : Rule) (findings : list Finding) :
  load h (upgradeModule v) = Returned (before ++ r :: later)%list ->
  thrown (visitAll project before findings) = None ->
  thrown (r project (accumulated (visitAll project before findings))) = Some e ->
  applyRules h project findings v
  = ([Require (upgradeModule v); Cb (Some (mkCommandError e))],
     Some (accumulated (r project (accumulated (visitAll project before findings))))).
Proof.
  intros Hload Hbefore Hthrows. unfold applyRules. rewrite Hload.
  rewrite visitAll_app, Hbefore. cbn [visitAll]. rewrite Hthrows, Hthrows.
  reflexivity.
Qed.

Lemma throwing_rule_ends_its_module_witness :
  result (applyRules Sample.hostWithFailingRule
            (mkProject Sample.root None None None None None None None None None None [])
            [] "1.5.0")
  = Some [Sample.command1; Sample.edit1].
Proof.
  rewrite (@throwing_rule_ends_its_module Sample.hostWithFailingRule _ "1.5.0"
             "Cannot read property" [Sample.push Sample.command1] [Sample.push Sample.edit2]
             (Sample.failing Sample.edit1 "Cannot read property") []);
    reflexivity.
Defined.



(** ** Accepted runs, from the reading of the project to the end *)

(** What a run does once the planner has accepted the request. *)
Lemma commandAction_planned (h : Host) (c : Command) (args : Options)
  (root : Path) (t0 t1 : list Effect) (v : Json) :
  getProjectRoot h (cwd h) = (t0, Some (Some root)) ->
  getProjectVersion h root = (t1, Some (Some v)) ->
  truthy v = true ->
  0 <= indexOfValue (supportedVersions c) v
    < indexOf (supportedVersions c) (requestedVersion c args) ->
  commandAction h c args
  = bind (t0 ++ t1, Some tt)%list (fun _ =>
      bind (if verbose c then log (Text "Collecting project...") else ret tt) (fun _ =>
      bind (getProject h root) (fun project =>
      bind (if debug c
            then bind (log (Text "Collected project")) (fun _ => log (ProjectDump project))
            else ret tt) (fun _ =>
      bind (forEach (applyRules h project)
              (versionsToUpgradeTo c (indexOfValue (supportedVersions c) v))
              (allFindings c)) (fun found =>
      bind (report h root (requestedVersion c args) args (dedupe found)) (fun _ =>
      bind (cb None) (fun _ => ret (withFindings c found)))))))).
Proof.
  intros Hroot Hversion Htruthy [Hpos Hbefore].
  unfold commandAction. rewrite Hroot. run_step.
  assert (Htarget : (indexOf (supportedVersions c) (requestedVersion c args) <? 0) = false)
    by (apply Z.ltb_ge; lia).
  rewrite Htarget, Hversion. run_step. rewrite Htruthy. cbn [negb].
  assert (H1 : (indexOfValue (supportedVersions c) v <? 0) = false)
    by (apply Z.ltb_ge; lia).
  assert (H2 : (indexOfValue (supportedVersions c) v
                >? indexOf (supportedVersions c) (requestedVersion c args)) = false)
    by (rewrite Z.gtb_ltb; apply Z.ltb_ge; lia).
  assert (H3 : (indexOfValue (supportedVersions c) v
                =? indexOf (supportedVersions c) (requestedVersion c args)) = false)
    by (apply Z.eqb_neq; lia).
  rewrite H1, H2, H3.
  rewrite app_assoc. reflexivity.
Qed.



(** X19. In a run the planner accepts, a throw of the walk of [src] is not
    caught: the run is left with the exception, the callback is not called,
    no rule module is loaded and no report is logged. *)
Theorem failed_walk_leaves_without_callback (h : Host) (c : Command) (args : Options)
  (root : Path) (t0 t1 : list Effect) (v : Json) (e : string) :
  getProjectRoot h (cwd h) = (t0, Some (Some root)) ->
  getProjectVersion h root = (t1, Some (Some v)) ->
  truthy v = true ->
  0 <= indexOfValue (supportedVersions c) v
    < indexOf (supportedVersions c) (requestedVersion c args) ->
  filesBelow h (resolve root ["src"]) = Thrown e ->
  result (commandAction h c args) = None
  /\ callbacks (effects (commandAction h c args)) = []
  /\ required (effects (commandAction h c args)) = []
  /\ logged (effects (commandAction h c args))
     = if verbose c then [Text "Collecting project..."] else [].
Proof.
  intros Hroot Hversion Htruthy Hpos Hfiles.
  rewrite (@commandAction_planned h c args root t0 t1 v Hroot Hversion Htruthy Hpos).
  assert (Hprobes : probesOnly (t0 ++ t1)).
  { apply probesOnly_app.
    - destruct (getProjectRoot_run h (cwd h)) as (t & answer & Hrun & Hp).
      rewrite Hroot in Hrun. inversion Hrun; subst. exact Hp.
    - destruct (getProjectVersion_run h root) as (t & answer & Hrun & Hp).
      rewrite Hversion in Hrun. inversion Hrun; subst. exact Hp. }
  destruct (probesOnly_silent Hprobes) as (Hcb01 & Hlog01 & Hreq01).
  destruct (getProject_run h root) as (tp & Hprobesp & Hproject).
  rewrite Hfiles in Hproject.
  destruct (probesOnly_silent Hprobesp) as (Hcbp & Hlogp & Hreqp).
  assert (Hverbose : forall b : bool,
    (if b then log (Text "Collecting project...") else ret tt)
    = ((if b then [Log (Text "Collecting project...")] else []), Some tt))
    by (intros []; reflexivity).
  rewrite bind_returned, Hverbose, bind_returned, Hproject.
  cbn [effects result fst snd bind].
  rewrite (callbacks_app (t0 ++ t1)), (logged_app (t0 ++ t1)),
    (required_app (t0 ++ t1)), Hcb01, Hlog01, Hreq01.
  rewrite !callbacks_app, !logged_app, !required_app, Hcbp, Hlogp, Hreqp.
  destruct (verbose c); repeat split; reflexivity.
Qed.

Lemma failed_walk_leaves_without_callback_witness :
  result (commandAction Sample.hostWithoutSrc spfxProjectUpgradeCommand
            (mkOptions None None)) = None
  /\ callbacks (effects (commandAction Sample.hostWithoutSrc spfxProjectUpgradeCommand
                           (mkOptions None None))) = [].
Proof.
  assert (exists t0,
    getProjectRoot Sample.hostWithoutSrc (cwd Sample.hostWithoutSrc)
    = (t0, Some (Some Sample.root))) as (t0 & H0)
    by (eexists; vm_compute; reflexivity).
  assert (exists t1,
    getProjectVersion Sample.hostWithoutSrc Sample.root
    = (t1, Some (Some (JStr "1.4.1")))) as (t1 & H1)
    by (eexists; vm_compute; reflexivity).
  destruct (@failed_walk_leaves_without_callback Sample.hostWithoutSrc
              spfxProjectUpgradeCommand (mkOptions None None) Sample.root t0 t1
              (JStr "1.4.1") "ENOENT" H0 H1 eq_refl)
    as (Hresult & Hcb & _).
  - vm_compute. split; [discriminate | reflexivity].
  - reflexivity.
  - split; assumption.
Defined.

(** *** A second run on the same command object *)

Lemma firstById_all_seen (l : list Finding) (seen : list string) :
  (forall f, In f l -> mem (id f) seen = true) -> firstById seen l = [].
Proof.
  induction l as [|f l IH]; intros Hseen; cbn [firstById]; [reflexivity|].
  rewrite (Hseen f (or_introl eq_refl)). apply IH.
  intros f' Hin. apply Hseen. right. exact Hin.
Qed.

Lemma mem_In (x : string) (l : list string) : In x l -> mem x l = true.
Proof.
  induction l as [|y l IH]; intros Hin; [destruct Hin|].
  rewrite mem_cons. destruct Hin as [-> | Hin].
  - rewrite String.eqb_refl. reflexivity.
  - rewrite (IH Hin). apply orb_true_r.
Qed.

Lemma dedupe_repeated (earlier added : list Finding) :
  dedupe ((earlier ++ added) ++ added) = dedupe (earlier ++ added).
Proof.
  rewrite !dedupe_firstById, (firstById_app (earlier ++ added) added).
  rewrite (@firstById_all_seen added (map id (earlier ++ added) ++ [])%list).
  - apply app_nil_r.
  - intros f Hin. apply mem_In. rewrite app_nil_r, map_app.
    apply in_or_app. right. apply in_map_iff. exists f. split; [reflexivity | exact Hin].
Qed.

Lemma visitAll_appends (project : Project) (rules : list Rule) :
  Forall appends rules ->
  exists added, forall findings,
    visitAll project rules findings = mkVisit (findings ++ added)%list None.
Proof.
  induction 1 as [|r rules Hr _ (added & IH)].
  - exists []. intros findings. cbn [visitAll]. rewrite app_nil_r. reflexivity.
  - exists (accumulated (r project []) ++ added)%list. intros findings.
    cbn [visitAll]. rewrite (Hr project findings). cbn [thrown accumulated].
    rewrite IH, app_assoc. reflexivity.
Qed.

Lemma applyRules_appends (h : Host) (project : Project) (v : string) :
  appendsOnly h v ->
  exists t added, forall findings,
    applyRules h project findings v = (t, Some (findings ++ added)%list).
Proof.
  unfold appendsOnly, applyRules. intros Happends.
  destruct (load h (upgradeModule v)) as [rules | e].
  - destruct (@visitAll_appends project _ Happends) as (added & Hvisit).
    exists [Require (upgradeModule v)], added. intros findings.
    rewrite Hvisit. reflexivity.
  - exists [Require (upgradeModule v); Cb (Some (mkCommandError e))], [].
    intros findings. rewrite app_nil_r. reflexivity.
Qed.

Lemma forEach_appends (h : Host) (project : Project) (versions : list string) :
  (forall v, In v versions -> appendsOnly h v) ->
  exists t added, forall findings,
    forEach (applyRules h project) versions findings
    = (t, Some (findings ++ added)%list).
Proof.
  induction versions as [|v versions IH]; intros Happends.
  - exists [], []. intros findings. rewrite app_nil_r. reflexivity.
  - destruct (@applyRules_appends h project v (Happends v (or_introl eq_refl)))
      as (t1 & added1 & H1).
    destruct IH as (t2 & added2 & H2);
      [intros v' Hin; apply Happends; right; exact Hin|].
    exists (t1 ++ t2)%list, (added1 ++ added2)%list. intros findings.
    cbn [forEach]. rewrite H1, bind_returned, H2, app_assoc. reflexivity.
Qed.

(** X20. The command object keeps its array of findings between runs. When
    the rules only push findings that depend on the project, a second run on
    the object a first accepted run left performs the same calls, logs the
    same report and calls back the same way, while the array holds what was
    pushed twice. *)
Theorem second_run_repeats_the_report (h : Host) (c c' : Command) (args : Options)
  (root : Path) (t0 t1 : list Effect) (v : Json) :
  getProjectRoot h (cwd h) = (t0, Some (Some root)) ->
  getProjectVersion h root = (t1, Some (Some v)) ->
  truthy v = true ->
  0 <= indexOfValue (supportedVersions c) v
    < indexOf (supportedVersions c) (requestedVersion c args) ->
  (forall version,
     In version (versionsToUpgradeTo c (indexOfValue (supportedVersions c) v)) ->
     appendsOnly h version) ->
  result (commandAction h c args) = Some c' ->
  effects (commandAction h c' args) = effects (commandAction h c args)
  /\ exists added,
       allFindings c' = (allFindings c ++ added)%list
       /\ option_map allFindings (result (commandAction h c' args))
          = Some ((allFindings c ++ added) ++ added)%list.
Proof.
  intros Hroot Hversion Htruthy Hpos Happends Hresult.
  pose proof (@commandAction_planned h c args root t0 t1 v Hroot Hversion Htruthy Hpos)
    as Hfirst.
  rewrite Hfirst in Hresult |- *.
  assert (Hverbose : forall b : bool,
    (if b then log (Text "Collecting project...") else ret tt)
    = ((if b then [Log (Text "Collecting project...")] else []), Some tt))
    by (intros []; reflexivity).
  assert (Hdebug : forall (project : Project) (b : bool),
    (if b then bind (log (Text "Collected project")) (fun _ => log (ProjectDump project))
     else ret tt)
    = ((if b then [Log (Text "Collected project"); Log (ProjectDump project)] else []),
       Some tt))
    by (intros project []; reflexivity).
  destruct (getProject h root) as [tp [project|]] eqn:Hproject.
  2:{ rewrite bind_returned, Hverbose, bind_returned in Hresult.
      cbn in Hresult. discriminate. }
  destruct (@forEach_appends h project _ Happends) as (tr & added & Hrules).
  rewrite bind_returned, Hverbose, bind_returned, bind_returned, Hdebug,
    bind_returned, Hrules, bind_returned in Hresult.
  destruct (report h root (requestedVersion c args) args
              (dedupe (allFindings c ++ added))) as [tm [[]|]] eqn:Hreport;
    [|cbn in Hresult; discriminate].
  assert (Hc' : c' = withFindings c (allFindings c ++ added))
    by (cbn in Hresult; inversion Hresult; reflexivity).
  subst c'.
  rewrite (@commandAction_planned h (withFindings c (allFindings c ++ added)) args
             root t0 t1 v Hroot Hversion Htruthy Hpos).
  change (requestedVersion (withFindings c (allFindings c ++ added)) args)
    with (requestedVersion c args).
  change (versionsToUpgradeTo (withFindings c (allFindings c ++ added)))
    with (versionsToUpgradeTo c).
  change (supportedVersions (withFindings c (allFindings c ++ added)))
    with (supportedVersions c).
  change (verbose (withFindings c (allFindings c ++ added))) with (verbose c).
  change (debug (withFindings c (allFindings c ++ added))) with (debug c).
  change (allFindings (withFindings c (allFindings c ++ added)))
    with (allFindings c ++ added)%list.
  rewrite Hproject.
  rewrite !bind_returned, !Hverbose, !bind_returned, !Hdebug, !bind_returned,
    !Hrules, !bind_returned, dedupe_repeated, Hreport, !bind_returned.
  cbn [effects result fst snd cb emit ret bind app option_map allFindings].
  split; [reflexivity|].
  exists added. split; reflexivity.
Qed.

Lemma second_run_repeats_the_report_witness :
  exists c',
    result (commandAction (Sample.host "1.4.1" Sample.workingDirectory)
              spfxProjectUpgradeCommand (mkOptions None (Some "md"))) = Some c'
    /\ effects (commandAction (Sample.host "1.4.1" Sample.workingDirectory) c'
                  (mkOptions None (Some "md")))
       = effects (commandAction (Sample.host "1.4.1" Sample.workingDirectory)
                    spfxProjectUpgradeCommand (mkOptions None (Some "md"))).
Proof.
  assert (exists t0,
    getProjectRoot (Sample.host "1.4.1" Sample.workingDirectory)
      (cwd (Sample.host "1.4.1" Sample.workingDirectory))
    = (t0, Some (Some Sample.root))) as (t0 & H0)
    by (eexists; vm_compute; reflexivity).
  assert (exists t1,
    getProjectVersion (Sample.host "1.4.1" Sample.workingDirectory) Sample.root
    = (t1, Some (Some (JStr "1.4.1")))) as (t1 & H1)
    by (eexists; vm_compute; reflexivity).
  assert (exists c',
    result (commandAction (Sample.host "1.4.1" Sample.workingDirectory)
              spfxProjectUpgradeCommand (mkOptions None (Some "md"))) = Some c')
    as (c' & Hc')
    by (eexists; vm_compute; reflexivity).
  exists c'. split; [exact Hc'|].
  refine (proj1 (@second_run_repeats_the_report
                   (Sample.host "1.4.1" Sample.workingDirectory)
                   spfxProjectUpgradeCommand c' (mkOptions None (Some "md"))
                   Sample.root t0 t1 (JStr "1.4.1") H0 H1 eq_refl _ _ Hc')).
  - vm_compute. split; [discriminate | reflexivity].
  - intros version [<- | []]. unfold appendsOnly. cbn.
    repeat constructor.
Defined.

(** *** The md report: the findings section and the order of the files *)

Lemma reportFinding_reported (h : Host) (st st' : MdState) (f : Finding) :
  reportFinding h st f = Some st' ->
  findingsToReport st' = (findingsToReport st ++ findingText (EOL h) f)%list.
Proof.
  unfold reportFinding.
  destruct (String.eqb (resolutionType f) "cmd").
  - intros Hstep. inversion Hstep. reflexivity.
  - destruct (arrayMember h (file f)); [discriminate|].
    intros Hstep. inversion Hstep. reflexivity.
Qed.

(** X21. When the md report is produced, its "Findings" section holds one
    entry for every finding, commands and edits alike, in the order of the
    findings, each made of the finding's own fields. *)
Theorem findings_section_reports_every_finding (h : Host) (findings : list Finding)
  (st : MdState) :
  reportFindings h nothingReported findings = Some st ->
  findingsToReport st = flat_map (findingText (EOL h)) findings.
Proof.
  assert (Hfrom : forall st0,
    reportFindings h st0 findings = Some st ->
    findingsToReport st
    = (findingsToReport st0 ++ flat_map (findingText (EOL h)) findings)%list).
  { induction findings as [|f findings IH]; intros st0 Hrun.
    - inversion Hrun. rewrite app_nil_r. reflexivity.
    - cbn [reportFindings] in Hrun.
      destruct (reportFinding h st0 f) as [st1|] eqn:Hstep; [|discriminate].
      rewrite (IH st1 Hrun), (reportFinding_reported h st0 f Hstep).
      cbn [flat_map]. rewrite <- app_assoc. reflexivity. }
  intros Hrun. apply (Hfrom nothingReported Hrun).
Qed.

Lemma findings_section_reports_every_finding_witness :
  exists st,
    reportFindings (Sample.host "1.4.1" Sample.workingDirectory) nothingReported
      Sample.untyped = Some st
    /\ findingsToReport st
       = flat_map (findingText (EOL (Sample.host "1.4.1" Sample.workingDirectory)))
           Sample.untyped.
Proof.
  assert (exists st,
    reportFindings (Sample.host "1.4.1" Sample.workingDirectory) nothingReported
      Sample.untyped = Some st) as (st & Hst)
    by (eexists; vm_compute; reflexivity).
  exists st. split; [exact Hst|].
  apply (@findings_section_reports_every_finding
           (Sample.host "1.4.1" Sample.workingDirectory) Sample.untyped st Hst).
Defined.

Lemma insertIndex_sorted (k : string) (l : list string) :
  Sorted indexOrder l -> Sorted indexOrder (insertIndex k l).
Proof.
  induction 1 as [|k' l Hsorted IH Hhead]; cbn [insertIndex].
  - repeat constructor.
  - destruct (digitsValue 0 k <=? digitsValue 0 k')%N eqn:Hle.
    + constructor; [constructor; assumption|].
      constructor. apply N.leb_le. exact Hle.
    + constructor; [exact IH|].
      apply N.leb_gt in Hle.
      destruct l as [|k'' l]; cbn [insertIndex].
      * constructor. unfold indexOrder. lia.
      * destruct (digitsValue 0 k <=? digitsValue 0 k'')%N.
        -- constructor. unfold indexOrder. lia.
        -- constructor. inversion Hhead. assumption.
Qed.

Lemma sortIndices_sorted (l : list string) : Sorted indexOrder (sortIndices l).
Proof.
  induction l as [|k l IH]; cbn [sortIndices fold_right]; [constructor|].
  apply insertIndex_sorted. exact IH.
Qed.

(** X22. For findings whose edits name no member of arrays, the files of
    the "Modify files" section are: first the files whose names are array
    indices, in ascending order of the index, then the other files in the
    order of their first appearance among the edits. *)
Theorem indexed_files_come_first_in_ascending_order (h : Host)
  (findings : list Finding) :
  (forall f, In f (edits findings) -> arrayMember h (file f) = false) ->
  let names := firstAppearances [] (map file (edits findings)) in
  exists st indexed,
    reportFindings h nothingReported findings = Some st
    /\ map fst (modifiedFiles st)
       = (indexed ++ filter (fun k => negb (isArrayIndex k)) names)%list
    /\ Permutation indexed (filter isArrayIndex names)
    /\ Sorted indexOrder indexed.
Proof.
  intros Hmembers names.
  destruct (modifiedFiles_run h findings Hmembers) as (st & Hrun & _ & Hnames & Hfiles).
  exists st, (sortIndices (filter isArrayIndex names)).
  split; [exact Hrun|]. split; [|split].
  - rewrite Hfiles, map_map. cbn [fst]. rewrite map_id.
    unfold keys. rewrite Hnames. reflexivity.
  - apply sortIndices_permutation.
  - apply sortIndices_sorted.
Qed.

Lemma indexed_files_come_first_in_ascending_order_witness :
  exists st,
    reportFindings (Sample.host "1.4.1" Sample.workingDirectory) nothingReported
      (Sample.numbered ++ [Sample.edit1])%list = Some st
    /\ map fst (modifiedFiles st) = ["0"; "1"; file Sample.edit1].
Proof.
  destruct (@indexed_files_come_first_in_ascending_order
              (Sample.host "1.4.1" Sample.workingDirectory)
              (Sample.numbered ++ [Sample.edit1])%list)
    as (st & indexed & Hrun & Hfiles & Hperm & Hsorted).
  - intros f Hf. vm_compute in Hf.
    repeat (destruct Hf as [<- | Hf]; [reflexivity|]). destruct Hf.
  - exists st. split; [exact Hrun|].
    vm_compute in Hrun. inversion Hrun. reflexivity.
Defined.

(** *** Telemetry and options *)

(** X23. The telemetry properties name, under toVersion, the version the
    command upgrades to: the toVersion option, or the newest supported
    version when that option is absent or empty. The properties of the
    parent class are kept. *)
Theorem telemetry_names_the_requested_version (c : Command)
  (telemetryProps : JsObject (option Json)) (args : Options) :
  supportedVersions c <> [] ->
  assoc "toVersion" (getTelemetryProperties c telemetryProps args)
  = Some (Some (JStr (requestedVersion c args)))
  /\ forall k, k <> "toVersion" ->
       assoc k (getTelemetryProperties c telemetryProps args) = assoc k telemetryProps.
Proof.
  intros Hlist. unfold getTelemetryProperties. split.
  - rewrite assoc_setOwn_same. unfold requestedVersion.
    destruct (exists_last Hlist) as (l & x & ->).
    rewrite last_last, length_app, nth_error_app2 by (cbn [List.length]; lia).
    replace (List.length l + List.length [x] - 1 - List.length l)%nat with 0%nat
      by (cbn [List.length]; lia).
    cbn [nth_error option_map].
    destruct (toVersion args) as [v|]; [destruct (String.eqb v "")|]; reflexivity.
  - intros k Hk. apply assoc_setOwn_other. congruence.
Qed.

Lemma telemetry_names_the_requested_version_witness :
  assoc "toVersion"
    (getTelemetryProperties spfxProjectUpgradeCommand
       [("verbose", Some (JBool false)); ("toVersion", None)] (mkOptions (Some "") None))
  = Some (Some (JStr "1.5.0")).
Proof.
  apply (@telemetry_names_the_requested_version spfxProjectUpgradeCommand
           [("verbose", Some (JBool false)); ("toVersion", None)]
           (mkOptions (Some "") None)).
  discriminate.
Defined.

(** X24. The options of the command are the toVersion option followed by the
    options of the parent class, in their order and under their names; a
    parent option that does not mention --output is returned as it is, and
    every returned option that mentions --output completes to json, text and
    md. *)
Theorem options_extend_the_parent_options (parentOptions : list CommandOption) :
  map optionText (options parentOptions)
  = "-v, --toVersion [toVersion]" :: map optionText parentOptions
  /\ (forall o, In o parentOptions -> mentions "--output" (optionText o) = false ->
        In o (options parentOptions))
  /\ (forall o, In o (options parentOptions) ->
        mentions "--output" (optionText o) = true ->
        optionDescription o = "Output type. json|text|md. Default text"
        /\ autocomplete o = Some ["json"; "text"; "md"]).
Proof.
  unfold options. split; [|split].
  - cbn [app map optionText]. f_equal. rewrite map_map. apply map_ext.
    intros o. destruct (mentions "--output" (optionText o)); reflexivity.
  - intros o Hin Hplain. apply in_or_app. right. apply in_map_iff.
    exists o. rewrite Hplain. split; [reflexivity | exact Hin].
  - intros o Hin Houtput. apply in_app_or in Hin. destruct Hin as [[<- | []] | Hin].
    + vm_compute in Houtput. discriminate.
    + apply in_map_iff in Hin. destruct Hin as (o' & Ho' & _).
      destruct (mentions "--output" (optionText o')) eqn:Hmention.
      * subst o. split; reflexivity.
      * subst o. congruence.
Qed.

Lemma options_extend_the_parent_options_witness :
  let output := mkCommandOption "-o, --output [output]" "Output type. json|text. Default text"
                  (Some ["json"; "text"]) in
  let verbose := mkCommandOption "--verbose" "Runs command with verbose logging" None in
  map optionText (options [output; verbose])
  = ["-v, --toVersion [toVersion]"; "-o, --output [output]"; "--verbose"]
  /\ In verbose (options [output; verbose]).
Proof.
  intros output verbose.
  destruct (@options_extend_the_parent_options [output; verbose])
    as (Hnames & Hplain & _).
  split; [exact Hnames|].
  apply Hplain; [right; left; reflexivity | reflexivity].
Defined.
